(** * Chat-Behavior-Insight-System: a shallow embedding of the analysis core

    The development follows the Python sources module by module
    ([parser.py], [features.py], [clustering.py], [profiling.py],
    [main.py]).  Conventions of the embedding:

    - a Python [str] is a list of Unicode code points ([pystr]);
    - a Python/NumPy float is an exact rational or [NaN] ([pyfloat]):
      rounding and infinities are not modelled;
    - a [pd.Timestamp] is a number of seconds on the naive time line and
      [NaT] is [None];
    - a raised exception is the [Raise] constructor of [result];
    - a [pd.Series] row is a finite map from column names to cells, a
      [pd.DataFrame] a list of column names with a list of rows;
    - the table operations of pandas used by the sources (groupby, merge,
      fillna, sort_values, column assignment) are functions on such tables;
    - the date parser of pandas, the estimators of scikit-learn and the
      Unicode tables of the interpreter are operations of type classes, so
      every theorem holds for whatever those libraries compute.

    The reading of files and the rendering of reports ([report.py],
    [app.py]) are not part of the embedding: the parser starts from the
    decoded text, and the entry point modelled is [analyze_chat_streamlit],
    which returns its tables. *)

From Stdlib Require Import QArith Qminmax Qround Lqa ZArith Ascii String.
From stdpp Require Import gmap strings list sorting pretty.

Local Open Scope Z_scope.

(** ** Python values *)

(** A Python string, as the list of its code points. *)
Abbreviation pystr := (list N).

(** A string literal of the source. *)
Definition lit (s : string) : pystr :=
  N_of_ascii <$> list_ascii_of_string s.

(** [str(n)] for an integer. *)
Definition str_of_int (z : Z) : pystr := lit (pretty z).

(** A float: a rational value, or NaN. *)
Inductive pyfloat := Num (q : Q) | NaN.

Declare Scope pyfloat_scope.
Delimit Scope pyfloat_scope with F.
Bind Scope pyfloat_scope with pyfloat.

Definition Qltb (x y : Q) : bool := negb (Qle_bool y x).

Definition flift2 (f : Q → Q → Q) (a b : pyfloat) : pyfloat :=
  match a, b with
  | Num x, Num y => Num (f x y)
  | _, _ => NaN
  end.

Definition fadd := flift2 Qplus.
Definition fsub := flift2 Qminus.
Definition fmul := flift2 Qmult.

(** Division; a zero divisor (which NumPy maps to an infinity or NaN) does
    not occur in the modelled code and is mapped to NaN. *)
Definition fdiv (a b : pyfloat) : pyfloat :=
  match a, b with
  | Num x, Num y => if Qeq_bool y 0 then NaN else Num (x / y)
  | _, _ => NaN
  end.

(** Comparisons: any comparison with NaN is false. *)
Definition fcmp (c : Q → Q → bool) (a b : pyfloat) : bool :=
  match a, b with
  | Num x, Num y => c x y
  | _, _ => false
  end.

Definition flt := fcmp Qltb.
Definition fle := fcmp Qle_bool.
Definition fgt (a b : pyfloat) := flt b a.
Definition fge (a b : pyfloat) := fle b a.

Infix "+" := fadd : pyfloat_scope.
Infix "-" := fsub : pyfloat_scope.
Infix "*" := fmul : pyfloat_scope.
Infix "/" := fdiv : pyfloat_scope.
Infix "<?" := flt : pyfloat_scope.
Infix "<=?" := fle : pyfloat_scope.
Infix ">?" := fgt : pyfloat_scope.
Infix ">=?" := fge : pyfloat_scope.

(** The builtins [min(a, b)] and [max(a, b)]: the first argument is kept
    unless the second compares strictly better. *)
Definition py_min (a b : pyfloat) : pyfloat := if (b <? a)%F then b else a.
Definition py_max (a b : pyfloat) : pyfloat := if (b >? a)%F then b else a.

(** Exceptions and results. *)
Inductive exn :=
  | ValueError (msg : pystr)
  | KeyError (msg : pystr).

Inductive result (A : Type) :=
  | Return (a : A)
  | Raise (e : exn).
Arguments Return {A} a.
Arguments Raise {A} e.

#[global] Instance result_ret : MRet result := λ A a, Return a.
#[global] Instance result_bind : MBind result := λ A B k m,
  match m with
  | Return a => k a
  | Raise e => Raise e
  end.

(** ** Strings *)

Module Str.

(** Code points for which [str.isspace] holds; the same set is matched by
    [\s] in a [str] pattern. *)
Definition isspace (c : N) : bool :=
  ((9 <=? c) && (c <=? 13) || (28 <=? c) && (c <=? 32)
   || (c =? 133) || (c =? 160) || (c =? 5760)
   || (8192 <=? c) && (c <=? 8202) || (c =? 8232) || (c =? 8233)
   || (c =? 8239) || (c =? 8287) || (c =? 12288))%N.

Fixpoint lstrip_by (p : N → bool) (s : pystr) : pystr :=
  match s with
  | c :: s' => if p c then lstrip_by p s' else s
  | [] => []
  end.

Definition rstrip_by (p : N → bool) (s : pystr) : pystr :=
  reverse (lstrip_by p (reverse s)).

(** [s.strip()] *)
Definition strip (s : pystr) : pystr := rstrip_by isspace (lstrip_by isspace s).

(** [s.rstrip(',')] *)
Definition rstrip_char (c : N) (s : pystr) : pystr :=
  rstrip_by (N.eqb c) s.

Fixpoint startswith (p s : pystr) : bool :=
  match p, s with
  | [], _ => true
  | a :: p', b :: s' => (a =? b)%N && startswith p' s'
  | _ :: _, [] => false
  end.

(** [s.endswith(p)] *)
Definition endswith (s p : pystr) : bool :=
  startswith (reverse p) (reverse s).

(** [sep.join(parts)] *)
Fixpoint join (sep : pystr) (parts : list pystr) : pystr :=
  match parts with
  | [] => []
  | [p] => p
  | p :: rest => p ++ sep ++ join sep rest
  end.

(** [s.replace(old, new)] for a non-empty [old]: occurrences are replaced
    from left to right without overlap. *)
Fixpoint replace_fuel (fuel : nat) (old new s : pystr) : pystr :=
  match fuel with
  | O => s
  | S fuel' =>
      match s with
      | [] => []
      | c :: s' =>
          if startswith old s
          then new ++ replace_fuel fuel' old new (drop (length old) s)
          else c :: replace_fuel fuel' old new s'
      end
  end.

Definition replace (old new s : pystr) : pystr :=
  replace_fuel (length s) old new s.

(** [s.count(c)] for a one-character [c]. *)
Definition count_char (c : N) (s : pystr) : nat :=
  length (filter (λ x, x = c) s).

End Str.

(** ** Regular expressions

    The patterns of the sources are written in the syntax below and matched
    by backtracking in the priority order of Python's [re]: alternatives
    from left to right, greedy repetitions longest first, lazy ones shortest
    first. *)

Module Re.

Inductive regex :=
  | Eps
  | Cls (p : N → bool)                       (* one character of a class *)
  | Seq (r1 r2 : regex)
  | Alt (r1 r2 : regex)
  | Rep (greedy : bool) (lo : nat) (hi : option nat) (r : regex)
  | Grp (i : nat) (r : regex)                (* capturing group number i *)
  | Bol                                      (* ^ under re.MULTILINE *)
  | Eol.                                     (* $ under re.MULTILINE *)

(** A position in the subject: the character just before it, and what is
    left to read. *)
Record pos := Pos { prev : option N; rest : pystr }.

Abbreviation captures := (gmap nat pystr).

Definition newline : N := 10%N.

Definition at_bol (p : pos) : bool :=
  match prev p with
  | None => true
  | Some c => (c =? newline)%N
  end.

Definition at_eol (p : pos) : bool :=
  match rest p with
  | [] => true
  | c :: _ => (c =? newline)%N
  end.

Definition allows (hi : option nat) (n : nat) : bool :=
  match hi with
  | None => true
  | Some h => (n <? h)%nat
  end.

Definition outcome : Type := pos * captures.

Fixpoint run (r : regex) (p : pos) (caps : captures)
    (k : pos → captures → option outcome) : option outcome :=
  match r with
  | Eps => k p caps
  | Cls f =>
      match rest p with
      | c :: s => if f c then k (Pos (Some c) s) caps else None
      | [] => None
      end
  | Seq r1 r2 => run r1 p caps (λ p' caps', run r2 p' caps' k)
  | Alt r1 r2 =>
      match run r1 p caps k with
      | Some o => Some o
      | None => run r2 p caps k
      end
  | Grp i r' =>
      run r' p caps (λ p' caps',
        k p' (<[i := take (length (rest p) - length (rest p')) (rest p)]>
                caps'))
  | Bol => if at_bol p then k p caps else None
  | Eol => if at_eol p then k p caps else None
  | Rep greedy lo hi r' =>
      (fix loop (fuel n : nat) (p : pos) (caps : captures) {struct fuel}
          : option outcome :=
         match fuel with
         | O => if (lo <=? n)%nat then k p caps else None
         | S fuel' =>
             let again (_ : unit) :=
               if allows hi n then
                 run r' p caps (λ p' caps',
                   if (n <? lo)%nat
                      || (length (rest p') <? length (rest p))%nat
                   then loop fuel' (S n) p' caps'
                   else None)
               else None in
             let stop (_ : unit) :=
               if (lo <=? n)%nat then k p caps else None in
             if greedy
             then match again () with Some o => Some o | None => stop () end
             else match stop () with Some o => Some o | None => again () end
         end) (length (rest p) + lo + 1)%nat O p caps
  end.

(** An attempt to match at one position. *)
Definition match_at (r : regex) (p : pos) : option outcome :=
  run r p ∅ (λ p' caps, Some (p', caps)).

Definition start (s : pystr) : pos := Pos None s.

Definition advance (p : pos) : option pos :=
  match rest p with
  | c :: s => Some (Pos (Some c) s)
  | [] => None
  end.

(** [pattern.finditer]: the matches found scanning from left to right,
    each search resuming where the previous match ended. *)
Fixpoint finditer_from (fuel : nat) (r : regex) (p : pos)
    : list (pystr * captures) :=
  match fuel with
  | O => []
  | S fuel' =>
      match match_at r p with
      | Some (p', caps) =>
          let whole := take (length (rest p) - length (rest p')) (rest p) in
          (whole, caps) ::
            (if (length (rest p') <? length (rest p))%nat
             then finditer_from fuel' r p'
             else match advance p with
                  | Some q => finditer_from fuel' r q
                  | None => []
                  end)
      | None =>
          match advance p with
          | Some q => finditer_from fuel' r q
          | None => []
          end
      end
  end.

Definition finditer (r : regex) (s : pystr) : list (pystr * captures) :=
  finditer_from (S (length s)) r (start s).

(** [pattern.search(s)] as a truth value. *)
Definition search (r : regex) (s : pystr) : bool :=
  match finditer r s with
  | [] => false
  | _ :: _ => true
  end.

Definition group (caps : captures) (i : nat) : pystr :=
  default [] (caps !! i).

(** Pattern syntax. *)
Definition chr (c : N) : regex := Cls (N.eqb c).
Definition range (a b : N) (c : N) : bool := ((a <=? c) && (c <=? b))%N.
Definition dot : regex := Cls (λ c, negb (c =? newline)%N).
Definition space : regex := Cls Str.isspace.
Definition star (r : regex) : regex := Rep true 0 None r.
Definition lazy_star (r : regex) : regex := Rep false 0 None r.
Definition plus (r : regex) : regex := Rep true 1 None r.
Definition opt (r : regex) : regex := Rep true 0 (Some 1%nat) r.
Definition times (lo hi : nat) (r : regex) : regex := Rep true lo (Some hi) r.

Fixpoint seq (rs : list regex) : regex :=
  match rs with
  | [] => Eps
  | [r] => r
  | r :: rs' => Seq r (seq rs')
  end.

Fixpoint alt (rs : list regex) : regex :=
  match rs with
  | [] => Cls (λ _, false)
  | [r] => r
  | r :: rs' => Alt r (alt rs')
  end.

Definition str (s : string) : regex := seq (chr <$> lit s).

End Re.

(** ** Library interfaces *)

(** A [pd.Timestamp] without timezone, in seconds; [None] is [NaT]. *)
Abbreviation Timestamp := (option Z).

(** Character tables of the interpreter: [\d] of a [str] pattern and
    [str.isupper] on one character. *)
Class Unicode := {
  isdecimal : N → bool;
  isupper : N → bool;
}.

(** The two calls of [pd.to_datetime] made by the parser:
    [pd.to_datetime(s, format=fmt)], which raises when [s] does not follow
    [fmt], and [pd.to_datetime(s, dayfirst=True, errors='coerce')]. *)
Class Pandas := {
  to_datetime_format : pystr → pystr → result Timestamp;
  to_datetime_dayfirst : pystr → result Timestamp;
}.

(** ** Rows and tables *)

(** The numeric cells of a row, by column name. *)
Abbreviation Series := (gmap string pyfloat).

(** [features.get(key, default)] *)
Definition get (features : Series) (key : string) (dflt : pyfloat) : pyfloat :=
  default dflt (features !! key).

Coercion Num : Q >-> pyfloat.

(** The two estimators of scikit-learn used by the clustering module:
    [StandardScaler().fit_transform(X)] and
    [KMeans(n_clusters, random_state, n_init=10).fit_predict(X)]. *)
Class Sklearn := {
  StandardScaler_fit_transform : list (list pyfloat) → list (list pyfloat);
  KMeans_fit_predict : Z → Z → list (list pyfloat) → result (list Z);
}.

(** Lexicographic order on strings, by code point. *)
Fixpoint str_leb (a b : pystr) : bool :=
  match a, b with
  | [], _ => true
  | _ :: _, [] => false
  | x :: a', y :: b' => (x <? y)%N || (x =? y)%N && str_leb a' b'
  end.

Definition str_le (a b : pystr) : Prop := str_leb a b = true.

#[global] Instance str_le_dec : RelDecision str_le.
Proof. intros a b. unfold str_le. apply _. Defined.

Definition Q_le (x y : Q) : Prop := Qle_bool x y = true.

#[global] Instance Q_le_dec : RelDecision Q_le.
Proof. intros a b. unfold Q_le. apply _. Defined.

(** Reductions of a numeric column. *)
Definition fsum (l : list Q) : Q := foldr Qplus 0%Q l.

(** [mean()]: NaN on an empty column. *)
Definition mean (l : list Q) : pyfloat :=
  match l with
  | [] => NaN
  | _ :: _ => Num (fsum l / inject_Z (Z.of_nat (length l)))
  end.

(** [median()]: the middle value of the sorted column, or the mean of the
    two middle values. *)
Definition median (l : list Q) : pyfloat :=
  let sorted := merge_sort Q_le l in
  let n := length l in
  match n with
  | O => NaN
  | S _ =>
      if Nat.even n
      then match sorted !! (n / 2 - 1)%nat, sorted !! (n / 2)%nat with
           | Some a, Some b => Num ((a + b) / 2)
           | _, _ => NaN
           end
      else match sorted !! (n / 2)%nat with
           | Some a => Num a
           | None => NaN
           end
  end.

Module pd.

(** A row of a table with a [user] column: its numeric cells, its integer
    cells and its text cells, by column name. *)
Record Row := {
  r_user : pystr;
  r_num : gmap string pyfloat;
  r_int : gmap string Z;
  r_str : gmap string pystr;
}.

Record Frame := {
  columns : list string;
  rows : list Row;
}.

(** A row with numeric cells only. *)
Definition plain (u : pystr) (cells : gmap string pyfloat) : Row :=
  {| r_user := u; r_num := cells; r_int := ∅; r_str := ∅ |}.

Definition row (u : pystr) (cells : list (string * pyfloat)) : Row :=
  plain u (list_to_map cells).

(** The columns other than the join key. *)
Definition data_columns (f : Frame) : list string :=
  filter (λ c, c ≠ "user") (columns f).

Definition users (f : Frame) : list pystr := r_user <$> rows f.

(** A table from a per-user aggregation with the given result columns. *)
Definition table (names : list string)
    (body : list (pystr * list pyfloat)) : Frame :=
  {| columns := "user" :: names;
     rows := (λ ub, row ub.1 (zip names ub.2)) <$> body |}.

Definition fill (v : pyfloat) (c : pyfloat) : pyfloat :=
  match c with
  | NaN => v
  | Num _ => c
  end.

(** [df.fillna(v)] *)
Definition fillna (v : pyfloat) (f : Frame) : Frame :=
  {| columns := columns f;
     rows := (λ r, {| r_user := r_user r; r_num := fill v <$> r_num r;
                      r_int := r_int r; r_str := r_str r |}) <$> rows f |}.

(** [df[name] = df[name].fillna(v)] *)
Definition fillna_column (name : string) (v : pyfloat) (f : Frame) : Frame :=
  {| columns := columns f;
     rows := (λ r, {| r_user := r_user r; r_num := alter (fill v) name (r_num r);
                      r_int := r_int r; r_str := r_str r |}) <$> rows f |}.

Definition nan_cells (names : list string) : gmap string pyfloat :=
  list_to_map ((λ c, (c, NaN)) <$> names).

Definition join_rows (l r : Row) : Row :=
  {| r_user := r_user l;
     r_num := r_num l ∪ r_num r;
     r_int := r_int l ∪ r_int r;
     r_str := r_str l ∪ r_str r |}.

Definition missing (u : pystr) (names : list string) : Row :=
  plain u (nan_cells names).

(** [left.merge(right, on='user', how='left')]: every row of [left], once
    for each row of [right] with the same user, and with NaN in the
    columns of [right] when there is none. *)
Definition merge_left (left right : Frame) : Frame :=
  {| columns := columns left ++ data_columns right;
     rows :=
       rows left ≫= λ l,
         match filter (λ r, r_user r = r_user l) (rows right) with
         | [] => [join_rows l (missing (r_user l) (data_columns right))]
         | matches => join_rows l <$> matches
         end |}.

Definition row_le (a b : Row) : Prop := str_le (r_user a) (r_user b).

#[global] Instance row_le_dec : RelDecision row_le.
Proof. intros a b. unfold row_le. apply _. Defined.

(** [left.merge(right, on='user', how='outer')]: as [merge_left], then the
    rows of [right] whose user is not in [left], with the rows ordered by
    user. *)
Definition merge_outer (left right : Frame) : Frame :=
  {| columns := columns left ++ data_columns right;
     rows :=
       merge_sort row_le
         (rows (merge_left left right)
          ++ ((λ r, join_rows (missing (r_user r) (data_columns left)) r)
              <$> filter (λ r, r_user r ∉ users left) (rows right))) |}.

(** Column-wise arithmetic inside one table:
    [df[name] = f(df[a], df[b])]. *)
Definition cell (r : Row) (name : string) : pyfloat :=
  default NaN (r_num r !! name).

(** The columns after an assignment to [df[name]]: a new column goes to
    the end. *)
Definition with_column (name : string) (cols : list string) : list string :=
  if decide (name ∈ cols) then cols else cols ++ [name].

Definition add_column (name : string) (f : Row → pyfloat) (t : Frame)
    : Frame :=
  {| columns := with_column name (columns t);
     rows := (λ r, {| r_user := r_user r;
                      r_num := <[name := f r]> (r_num r);
                      r_int := r_int r; r_str := r_str r |}) <$> rows t |}.

Definition length_mismatch : exn :=
  ValueError (lit "Length of values does not match length of index").

(** [df[name] = values] for an array of integers. *)
Definition set_int_column (name : string) (values : list Z) (t : Frame)
    : result Frame :=
  if decide (length values = length (rows t)) then
    Return
      {| columns := with_column name (columns t);
         rows := zip_with
                   (λ r v, {| r_user := r_user r; r_num := r_num r;
                              r_int := <[name := v]> (r_int r);
                              r_str := r_str r |})
                   (rows t) values |}
  else Raise length_mismatch.

(** [df[name] = df.apply(f, axis=1)] for a text-valued [f] that may
    raise. *)
Definition apply_str_column (name : string) (f : Row → result pystr)
    (t : Frame) : result Frame :=
  rows' ← mapM (λ r, v ← f r;
                     mret {| r_user := r_user r; r_num := r_num r;
                             r_int := r_int r;
                             r_str := <[name := v]> (r_str r) |})
               (rows t);
  mret {| columns := with_column name (columns t); rows := rows' |}.

(** [row[name]] on an integer column. *)
Definition int_item (r : Row) (name : string) : result Z :=
  match r_int r !! name with
  | Some v => Return v
  | None => Raise (KeyError (lit name))
  end.

(** [df[cols]] *)
Definition select (cols : list string) (t : Frame) : Frame :=
  {| columns := cols;
     rows := (λ r, {| r_user := r_user r;
                      r_num := filter (λ kv, kv.1 ∈ cols) (r_num r);
                      r_int := filter (λ kv, kv.1 ∈ cols) (r_int r);
                      r_str := filter (λ kv, kv.1 ∈ cols) (r_str r) |})
             <$> rows t |}.

(** The order of [sort_values(name, ascending=False)]: larger values
    first, NaN last. *)
Definition desc_by (name : string) (a b : Row) : Prop :=
  match cell a name, cell b name with
  | Num x, Num y => Q_le y x
  | _, NaN => True
  | NaN, Num _ => False
  end.

#[global] Instance desc_by_dec name : RelDecision (desc_by name).
Proof.
  intros a b. unfold desc_by.
  destruct (cell a name), (cell b name); apply _.
Defined.

Definition sort_values_desc (name : string) (t : Frame) : Frame :=
  {| columns := columns t; rows := merge_sort (desc_by name) (rows t) |}.

(** The values of a numeric column that are not NaN. *)
Definition values (name : string) (rs : list Row) : list Q :=
  rs ≫= λ r, match cell r name with Num q => [q] | NaN => [] end.

(** Rounding to the nearest integer, halves to the even neighbour. *)
Definition rint (x : Q) : Z :=
  let lower := Qfloor x in
  match (x - inject_Z lower ?= 1 # 2)%Q with
  | Lt => lower
  | Gt => lower + 1
  | Eq => if Z.even lower then lower else lower + 1
  end.

(** [series.round(2)] *)
Definition round2 (v : pyfloat) : pyfloat :=
  match v with
  | Num q => Num (inject_Z (rint (q * 100)) / 100)
  | NaN => NaN
  end.

(** Rows that differ in their integer and text cells only. *)
Definition same_numbers (r r' : Row) : Prop :=
  r_user r' = r_user r ∧ r_num r' = r_num r.

(** A reading of a table: up to the order of the rows, it has one row for
    each user of [keys], with numeric cells only, given by [cells]. *)
Definition represents (t : Frame) (keys : list pystr)
    (cells : pystr → gmap string pyfloat) : Prop :=
  rows t ≡ₚ (λ u, plain u (cells u)) <$> keys.

End pd.

(** ** profiling.py *)

Module profiling.

Definition DEFAULT_CLUSTER_NAMES : gmap Z pystr :=
  list_to_map
    [ (0, lit "Regular Participants");
      (1, lit "Active Conversationalists");
      (2, lit "Information Broadcasters");
      (3, lit "Silent Observers");
      (4, lit "Night Owls") ].

(** [cluster_names = None] is the Python default argument. *)
Definition get_cluster_name (cluster_id : Z)
    (cluster_names : option (gmap Z pystr)) : pystr :=
  match cluster_names with
  | Some names =>
      default (lit "Cluster " ++ str_of_int cluster_id) (names !! cluster_id)
  | None =>
      default (lit "Cluster " ++ str_of_int cluster_id)
              (DEFAULT_CLUSTER_NAMES !! cluster_id)
  end.

Definition calculate_influence_score (features : Series) : pyfloat :=
  let messages_per_day := get features "messages_per_day" 0%Q in
  let initiation_ratio := get features "initiation_ratio" 0%Q in
  let avg_response_time := get features "avg_response_time_hours" 24%Q in
  let activity_score := py_min (messages_per_day / 5%Q) 1%Q in
  let response_score := (1%Q - py_min (avg_response_time / 24%Q) 1%Q)%F in
  let initiation_score := py_min (initiation_ratio * 10%Q) 1%Q in
  let influence :=
    (activity_score * 0.4%Q + response_score * 0.3%Q
     + initiation_score * 0.3%Q)%F in
  py_min (py_max influence 0%Q) 1%Q.

(** The list [profile_parts] as it stands just before the final join. *)
Definition profile_parts (features : Series) (cluster_id : Z) : list pystr :=
  let cluster_name := get_cluster_name cluster_id None in
  let parts :=
    [lit "This user belongs to the '" ++ cluster_name ++ lit "' group."] in
  let messages_per_day := get features "messages_per_day" 0%Q in
  let total_messages := get features "total_messages" 0%Q in
  let activity_level :=
    if (messages_per_day >=? 4%Q)%F || (total_messages >=? 500%Q)%F
    then lit "highly active"
    else if (messages_per_day >=? 2%Q)%F || (total_messages >=? 100%Q)%F
    then lit "moderately active"
    else lit "low activity" in
  let parts := parts ++ [lit "This user is " ++ activity_level ++ lit ","] in
  let avg_length := get features "avg_length" 0%Q in
  let parts :=
    if (avg_length >=? 100%Q)%F
    then parts ++ [lit "writes long, detailed messages,"]
    else parts ++ [lit "prefers short messages,"] in
  let avg_emojis := get features "avg_emojis" 0%Q in
  let avg_exclamations := get features "avg_exclamations" 0%Q in
  let uppercase_ratio := get features "uppercase_ratio" 0%Q in
  let emotional_score :=
    (avg_emojis + avg_exclamations * 0.5%Q + uppercase_ratio * 10%Q)%F in
  let parts :=
    if (emotional_score >=? 2%Q)%F
    then parts ++ [lit "emotionally expressive,"]
    else parts ++ [lit "emotionally reserved,"] in
  let avg_response_time := get features "avg_response_time_hours" 24%Q in
  let parts :=
    if (avg_response_time <? 2%Q)%F
    then parts ++ [lit "responds quickly,"]
    else parts ++ [lit "responds slowly,"] in
  let link_sharing_ratio := get features "link_sharing_ratio" 0%Q in
  let parts :=
    if (link_sharing_ratio >? 0.1%Q)%F
    then parts ++ [lit "often shares links or resources,"]
    else parts in
  let night_activity := get features "night_activity_ratio" 0%Q in
  let parts :=
    if (night_activity >? 0.3%Q)%F
    then parts ++ [lit "more active at night,"]
    else parts in
  let initiation_ratio := get features "initiation_ratio" 0%Q in
  let influence_score := calculate_influence_score features in
  if (initiation_ratio >? 0.1%Q)%F || (influence_score >? 0.95%Q)%F
  then parts ++
       [lit "frequently initiates conversations and influences group flow."]
  else
    (* profile_parts[-1]: the list is never empty here *)
    match reverse parts with
    | final :: front =>
        if Str.endswith final (lit ",")
        then reverse front ++ [Str.rstrip_char 44%N final ++ lit "."]
        else parts ++ [lit "."]
    | [] => parts ++ [lit "."]
    end.

Definition generate_behavior_profile (features : Series) (cluster_id : Z)
    : pystr :=
  let profile := Str.join (lit " ") (profile_parts features cluster_id) in
  Str.replace (lit ",.") (lit ".")
    (Str.replace (lit "..") (lit ".")
       (Str.replace (lit " ,") (lit ",") profile)).

Definition generate_profiles (features_df : pd.Frame) : result pd.Frame :=
  let features_df :=
    pd.add_column "influence_score"
      (λ row, calculate_influence_score (pd.r_num row)) features_df in
  pd.apply_str_column "behavior_profile"
    (λ row, cluster ← pd.int_item row "cluster";
            mret (generate_behavior_profile (pd.r_num row) cluster))
    features_df.

End profiling.


(** ** parser.py *)

Module parser.

(** One row of the parsed table. *)
Record Message := {
  timestamp : Z;
  user : pystr;
  message : pystr;
}.

Definition no_messages_found : exn :=
  ValueError
    (lit "No messages found in chat file. Please check the file format. "
     ++ lit "Supported formats: DD/MM/YYYY or MM/DD/YYYY with AM/PM, "
     ++ lit "or YYYY-MM-DD with 24-hour time.").

Definition date_formats : list pystr :=
  [ lit "%d/%m/%Y, %I:%M %p";
    lit "%d/%m/%y, %I:%M %p";
    lit "%m/%d/%Y, %I:%M %p";
    lit "%m/%d/%y, %I:%M %p";
    lit "%Y-%m-%d, %H:%M";
    lit "%d/%m/%Y, %H:%M";
    lit "%m/%d/%Y, %H:%M" ].

(** The text handed to [pd.to_datetime] for a match. *)
Definition datetime_str (date_str time_str : pystr) : pystr :=
  Str.strip (date_str ++ lit ", " ++ time_str).

Section with_libraries.
Context `{Unicode} `{Pandas}.

Definition digit : Re.regex := Re.Cls isdecimal.

(** The record pattern, compiled with [re.VERBOSE | re.MULTILINE] (blanks
    are not part of a verbose pattern):
<<
    ^ ( \d{1,2}/\d{1,2}/\d{2,4} | \d{4}-\d{2}-\d{2} ) ,? \s*
    ( \d{1,2}:\d{2} (?: \s? [AP]M )? ) \s* - \s*
    ( .*? ) : \s
    ( .* ) $
>>  *)
Definition pattern : Re.regex :=
  Re.seq
    [ Re.Bol;
      Re.Grp 1
        (Re.Alt
           (Re.seq [Re.times 1 2 digit; Re.str "/"; Re.times 1 2 digit;
                    Re.str "/"; Re.times 2 4 digit])
           (Re.seq [Re.times 4 4 digit; Re.str "-"; Re.times 2 2 digit;
                    Re.str "-"; Re.times 2 2 digit]));
      Re.opt (Re.str ","); Re.star Re.space;
      Re.Grp 2
        (Re.seq [Re.times 1 2 digit; Re.str ":"; Re.times 2 2 digit;
                 Re.opt (Re.seq [Re.opt Re.space;
                                 Re.Cls (λ c, (c =? 65)%N || (c =? 80)%N);
                                 Re.str "M"])]);
      Re.star Re.space; Re.str "-"; Re.star Re.space;
      Re.Grp 3 (Re.lazy_star Re.dot); Re.str ":"; Re.space;
      Re.Grp 4 (Re.star Re.dot); Re.Eol ].

(** [pattern.findall(content)]: one tuple of four groups per match. *)
Definition findall (content : pystr) : list (pystr * pystr * pystr * pystr) :=
  (λ m, (Re.group m.2 1, Re.group m.2 2, Re.group m.2 3, Re.group m.2 4))
    <$> Re.finditer pattern content.

(** The loop over [date_formats]: the first format under which
    [pd.to_datetime] does not raise gives the timestamp; [None] is the
    Python [None] left when every format raised. *)
Fixpoint try_formats (datetime_str : pystr) (formats : list pystr)
    : option Timestamp :=
  match formats with
  | [] => None
  | fmt :: formats' =>
      match to_datetime_format datetime_str fmt with
      | Return ts => Some ts
      | Raise _ => try_formats datetime_str formats'
      end
  end.

(** The value of [timestamp] when the record is about to be appended;
    [None] when the lenient parser raised and the loop went on to the
    next match. *)
Definition resolve_timestamp (datetime_str : pystr) : option Timestamp :=
  match try_formats datetime_str date_formats with
  | Some ts => Some ts
  | None =>
      match to_datetime_dayfirst datetime_str with
      | Return ts => Some ts
      | Raise _ => None
      end
  end.

(** The body of the loop over the matches: the records appended for one
    match (none or one). *)
Definition parse_match (m : pystr * pystr * pystr * pystr)
    : list Message :=
  let '(date_str, time_str, user, message) := m in
  match resolve_timestamp (datetime_str date_str time_str) with
  | Some (Some ts) =>       (* pd.notna(timestamp) *)
      [ {| timestamp := ts;
           user := Str.strip user;
           message := Str.strip message |} ]
  | Some None => []         (* NaT *)
  | None => []              (* continue *)
  end.

Definition parse_matches (content : pystr) : list Message :=
  findall content ≫= parse_match.

(** [parse_whatsapp_chat], from the decoded text of the file on. *)
Definition parse_whatsapp_chat (content : pystr) : result (list Message) :=
  let messages := parse_matches content in
  match messages with
  | [] => Raise no_messages_found
  | _ :: _ => Return messages
  end.

End with_libraries.

End parser.

(** ** features.py *)

Module features.
Import parser.

Abbreviation DataFrame := (list Message).

(** [df.groupby('user')]: the group keys in increasing order, and the rows
    of a group in the order of [df]. *)
Definition group_keys (df : DataFrame) : list pystr :=
  merge_sort str_le (remove_dups (user <$> df)).

Definition group (df : DataFrame) (u : pystr) : DataFrame :=
  filter (λ m, user m = u) df.

(** [df.groupby('user').size()] *)
Definition size (df : DataFrame) (u : pystr) : nat := length (group df u).

(** [df.groupby('user').agg(...)] with the result columns [names]: one row
    per group, holding the aggregates of the group. *)
Definition groupby_agg (names : list string)
    (agg : DataFrame → list pyfloat) (df : DataFrame) : pd.Frame :=
  pd.table names ((λ u, (u, agg (group df u))) <$> group_keys df).

Definition Qnat (n : nat) : Q := inject_Z (Z.of_nat n).
Definition str_len (s : pystr) : Q := Qnat (length s).

Definition length_agg (g : DataFrame) : list pyfloat :=
  let x := str_len <$> (message <$> g) in
  [mean x; median x; Num (fsum x)].

Definition calculate_message_length_features (df : DataFrame) : pd.Frame :=
  groupby_agg ["avg_length"; "median_length"; "total_chars"] length_agg df.

(** [timestamp.dt.hour] and [timestamp.dt.date] *)
Definition hour (ts : Z) : Z := (ts mod 86400) / 3600.
Definition date (ts : Z) : Z := ts / 86400.

Definition ts_le (a b : Message) : Prop := timestamp a ≤ timestamp b.

#[global] Instance ts_le_dec : RelDecision ts_le.
Proof. intros a b. unfold ts_le. apply _. Defined.

(** [df.sort_values('timestamp')]; rows with the same timestamp come in the
    order the merge sort leaves them (pandas promises none). *)
Definition sort_values (df : DataFrame) : DataFrame := merge_sort ts_le df.

(** [series.diff()]: nothing for the first row, then the difference with
    the row before. *)
Definition diff (ts : list Z) : list (option Z) :=
  match ts with
  | [] => []
  | _ :: later => None :: zip_with (λ before now, Some (now - before)) ts later
  end.

(** The values of a column that are not missing. *)
Definition dropna {A} (l : list (option A)) : list A := omap id l.

Definition is_night (m : Message) : bool :=
  (22 <=? hour (timestamp m)) || (hour (timestamp m) <? 6).

(** The mean of the daily message counts of one user. *)
Definition daily_agg (g : DataFrame) : list pyfloat :=
  let days := merge_sort Z.le (remove_dups (date ∘ timestamp <$> g)) in
  let daily_count :=
    (λ d, Qnat (length (filter (λ m, date (timestamp m) = d) g))) <$> days in
  [mean daily_count].

(** The mean gap between consecutive messages of one user, in hours; the
    group is in chronological order. *)
Definition response_agg (g : DataFrame) : list pyfloat :=
  let time_diff := diff (timestamp <$> g) in
  [(mean (inject_Z <$> dropna time_diff) / 3600%Q)%F].

(** The quotient of the two [size()] series, aligned on the user: NaN for
    a user without night messages. *)
Definition night_ratio (df : DataFrame) (u : pystr) : pyfloat :=
  let night := filter (λ m, is_night m = true) df in
  if decide (u ∈ group_keys night)
  then (Num (Qnat (size night u)) / Num (Qnat (size df u)))%F
  else NaN.

Definition calculate_temporal_features (df : DataFrame) : pd.Frame :=
  let avg_messages_per_day := groupby_agg ["messages_per_day"] daily_agg df in
  let df_sorted := sort_values df in
  let avg_response_time :=
    groupby_agg ["avg_response_time_hours"] response_agg df_sorted in
  let avg_response_time :=
    pd.fillna_column "avg_response_time_hours" 0%Q avg_response_time in
  let night_activity :=
    pd.table ["night_activity_ratio"]
      ((λ u, (u, [night_ratio df u])) <$> group_keys df) in
  let night_activity :=
    pd.fillna_column "night_activity_ratio" 0%Q night_activity in
  pd.merge_left (pd.merge_left avg_messages_per_day avg_response_time)
    night_activity.

Definition emoji_class (c : N) : bool :=
  Re.range 0x1F600 0x1F64F c || Re.range 0x1F300 0x1F5FF c
  || Re.range 0x1F680 0x1F6FF c || Re.range 0x1F1E0 0x1F1FF c
  || Re.range 0x2702 0x27B0 c || Re.range 0x24C2 0x1F251 c.

Definition emoji_pattern : Re.regex := Re.plus (Re.Cls emoji_class).

(** [http[s]?://] followed by one or more of: a letter, a digit, one of
    [$-_@.&+], one of [!*\(),], or a percent sign with two hexadecimal
    digits. *)
Definition url_pattern : Re.regex :=
  let letter c := Re.range 97 122 c || Re.range 65 90 c in
  let digit c := Re.range 48 57 c in
  let hex c := Re.range 48 57 c || Re.range 97 102 c || Re.range 65 70 c in
  Re.seq
    [ Re.str "http"; Re.opt (Re.str "s"); Re.str "://";
      Re.plus
        (Re.alt
           [ Re.Cls letter; Re.Cls digit;
             Re.Cls (λ c, Re.range 36 95 c || (c =? 64)%N || (c =? 46)%N
                          || (c =? 38)%N || (c =? 43)%N);
             Re.Cls (λ c, (c =? 33)%N || (c =? 42)%N || (c =? 92)%N
                          || (c =? 40)%N || (c =? 41)%N || (c =? 44)%N);
             Re.seq [Re.str "%"; Re.Cls hex; Re.Cls hex] ]) ].

Definition bool_Q (b : bool) : Q := if b then 1%Q else 0%Q.

Definition exclamation_count (x : pystr) : Q := Qnat (Str.count_char 33%N x).
Definition question_count (x : pystr) : Q := Qnat (Str.count_char 63%N x).
Definition emoji_count (x : pystr) : Q :=
  Qnat (length (Re.finditer emoji_pattern x)).
Definition has_link (x : pystr) : Q := bool_Q (Re.search url_pattern x).

Definition link_agg (g : DataFrame) : list pyfloat :=
  let flags := has_link <$> (message <$> g) in
  [Num (fsum flags); mean flags].

Definition calculate_link_sharing_features (df : DataFrame) : pd.Frame :=
  groupby_agg ["total_links"; "link_sharing_ratio"] link_agg df.

(** The column [is_conversation_start] of the sorted table. *)
Definition is_conversation_start (df_sorted : DataFrame) : list bool :=
  imap (λ index time_diff,
          match time_diff with
          | Some d => bool_decide (3600 < d)      (* > Timedelta(hours=1) *)
          | None => false                         (* NaT > ... *)
          end || bool_decide (index = 0%nat))
       (diff (timestamp <$> df_sorted)).

(** The rows of the sorted table that start a conversation. *)
Definition conversation_starts (df : DataFrame) : DataFrame :=
  let df_sorted := sort_values df in
  fst <$> filter (λ mb, mb.2 = true)
            (zip df_sorted (is_conversation_start df_sorted)).

Definition size_agg (g : DataFrame) : list pyfloat := [Num (Qnat (length g))].

Definition calculate_conversation_initiation_features (df : DataFrame)
    : pd.Frame :=
  let initiations :=
    groupby_agg ["initiations"] size_agg (conversation_starts df) in
  let total_messages := groupby_agg ["total_messages"] size_agg df in
  let initiation_features := pd.merge_left total_messages initiations in
  let initiation_features :=
    pd.fillna_column "initiations" 0%Q initiation_features in
  pd.add_column "initiation_ratio"
    (λ r, (pd.cell r "initiations" / pd.cell r "total_messages")%F)
    initiation_features.

(** The initiation rule in the words of the specification: in the
    chronological sequence, message number [i] starts a conversation when it
    is the first message of all, or when more than one hour has passed
    since the message just before it, whoever wrote that. *)
Definition initiates (chron : DataFrame) (i : nat) : bool :=
  match i with
  | O => true
  | S j =>
      match chron !! j, chron !! i with
      | Some before, Some now =>
          bool_decide (3600 < timestamp now - timestamp before)
      | _, _ => false
      end
  end.


Section with_unicode.
Context `{Unicode}.

Definition uppercase_ratio_of (x : pystr) : Q :=
  Qnat (length (filter (λ c, isupper c = true) x))
  / Qnat (Nat.max (length x) 1).

Definition emotional_agg (g : DataFrame) : list pyfloat :=
  let texts := message <$> g in
  [ mean (exclamation_count <$> texts);
    mean (question_count <$> texts);
    mean (emoji_count <$> texts);
    mean (uppercase_ratio_of <$> texts) ].

Definition calculate_emotional_features (df : DataFrame) : pd.Frame :=
  groupby_agg
    ["avg_exclamations"; "avg_questions"; "avg_emojis"; "uppercase_ratio"]
    emotional_agg df.

(** The columns of the feature table after the user, and the cells of
    the row of one author, read off the aggregations column by
    column. *)
Definition feature_names : list string :=
  [ "avg_length"; "median_length"; "total_chars";
    "messages_per_day"; "avg_response_time_hours"; "night_activity_ratio";
    "avg_exclamations"; "avg_questions"; "avg_emojis"; "uppercase_ratio";
    "total_links"; "link_sharing_ratio";
    "total_messages"; "initiations"; "initiation_ratio" ].

Definition author_values (df : DataFrame) (u : pystr) : list pyfloat :=
  let g := group df u in
  let starts := size (conversation_starts df) u in
  length_agg g
  ++ daily_agg g
  ++ (pd.fill 0%Q <$> response_agg (group (sort_values df) u))
  ++ [pd.fill 0%Q (night_ratio df u)]
  ++ emotional_agg g
  ++ link_agg g
  ++ size_agg g
  ++ [Num (Qnat starts);
      (Num (Qnat starts) / Num (Qnat (length g)))%F].

Definition author_cells (df : DataFrame) (u : pystr)
    : gmap string pyfloat :=
  pd.fill 0%Q <$> list_to_map (zip feature_names (author_values df u)).

Definition extract_all_features (df : DataFrame) : pd.Frame :=
  let length_features := calculate_message_length_features df in
  let temporal_features := calculate_temporal_features df in
  let emotional_features := calculate_emotional_features df in
  let link_features := calculate_link_sharing_features df in
  let initiation_features := calculate_conversation_initiation_features df in
  let features := pd.merge_outer length_features temporal_features in
  let features := pd.merge_outer features emotional_features in
  let features := pd.merge_outer features link_features in
  let features := pd.merge_outer features initiation_features in
  pd.fillna 0%Q features.

End with_unicode.

End features.

(** ** clustering.py *)

Module clustering.

Definition feature_columns : list string :=
  [ "avg_length"; "median_length";
    "messages_per_day"; "avg_response_time_hours"; "night_activity_ratio";
    "avg_exclamations"; "avg_questions"; "avg_emojis"; "uppercase_ratio";
    "link_sharing_ratio"; "initiation_ratio" ].

Definition no_feature_columns : exn :=
  ValueError (lit "No valid feature columns found for clustering").

Section with_sklearn.
Context `{Sklearn}.

(** The scaled matrix, one line per row of [features_df]. *)
Definition prepare_features_for_clustering (features_df : pd.Frame)
    : result (list (list pyfloat)) :=
  let available_columns :=
    filter (λ col, col ∈ pd.columns features_df) feature_columns in
  match available_columns with
  | [] => Raise no_feature_columns
  | _ :: _ =>
      let X :=
        (λ r, pd.cell r <$> available_columns) <$> pd.rows features_df in
      Return (StandardScaler_fit_transform X)
  end.

Definition perform_clustering (scaled_features : list (list pyfloat))
    (n_clusters random_state : Z) : result (list Z) :=
  KMeans_fit_predict n_clusters random_state scaled_features.

Definition assign_clusters (features_df : pd.Frame)
    (n_clusters random_state : Z) : result pd.Frame :=
  scaled_features ← prepare_features_for_clustering features_df;
  cluster_labels ← perform_clustering scaled_features n_clusters random_state;
  pd.set_int_column "cluster" cluster_labels features_df.

End with_sklearn.

End clustering.

(** ** main.py *)

Module main.

Record SummaryRow := {
  cluster : Z;
  cluster_name : pystr;
  user_count : nat;
  avg_messages_per_day : pyfloat;
  avg_influence_score : pyfloat;
}.

Definition report_columns : list string :=
  [ "user"; "cluster"; "total_messages"; "messages_per_day";
    "influence_score"; "behavior_profile" ].

(** [features_df.groupby('cluster')]: the labels in increasing order. *)
Definition cluster_keys (rs : list pd.Row) : list Z :=
  merge_sort Z.le (remove_dups (rs ≫= λ r,
    match pd.r_int r !! "cluster" with Some c => [c] | None => [] end)).

Definition cluster_summary_of (features_df : pd.Frame)
    (cluster_names : option (gmap Z pystr)) : list SummaryRow :=
  (λ c,
    let members :=
      filter (λ r, pd.r_int r !! "cluster" = Some c) (pd.rows features_df) in
    {| cluster := c;
       cluster_name := profiling.get_cluster_name c cluster_names;
       user_count := length members;
       avg_messages_per_day :=
         pd.round2 (mean (pd.values "messages_per_day" members));
       avg_influence_score :=
         pd.round2 (mean (pd.values "influence_score" members)) |})
  <$> cluster_keys (pd.rows features_df).

Section with_libraries.
Context `{Unicode} `{Pandas} `{Sklearn}.

(** [analyze_chat_streamlit], from the decoded text of the upload on. *)
Definition analyze_chat_streamlit (file_input : pystr)
    (n_clusters random_state : Z) (cluster_names : option (gmap Z pystr))
    : result (pd.Frame * list SummaryRow) :=
  df ← parser.parse_whatsapp_chat file_input;
  let features_df := features.extract_all_features df in
  features_df ← clustering.assign_clusters features_df n_clusters random_state;
  features_df ← profiling.generate_profiles features_df;
  let available_report_cols :=
    filter (λ col, col ∈ pd.columns features_df) report_columns in
  let additional_cols :=
    filter (λ col, (col ∉ report_columns)
                   ∧ (col ∉ ["cluster"; "influence_score"; "behavior_profile"]))
           (pd.columns features_df) in
  let final_report :=
    pd.select (available_report_cols ++ additional_cols) features_df in
  final_report ←
    pd.apply_str_column "cluster_name"
      (λ row, x ← pd.int_item row "cluster";
              mret (profiling.get_cluster_name x cluster_names))
      final_report;
  let cluster_summary := cluster_summary_of features_df cluster_names in
  let final_report :=
    if decide ("influence_score" ∈ pd.columns final_report)
    then pd.sort_values_desc "influence_score" final_report
    else final_report in
  mret (final_report, cluster_summary).

End with_libraries.

End main.

(** ** The profile text as the specification describes it

    An ordered list of clauses chosen by fixed thresholds, joined by commas
    after the cluster sentence, closed by the conversation-leading clause or
    by a period, and passed through the punctuation cleanup. *)

Module template.

Section clauses.
Variable features : Series.
Variable cluster_id : Z.






Definition emotional_score : pyfloat :=
  (get features "avg_emojis" 0%Q
   + get features "avg_exclamations" 0%Q * 0.5%Q
   + get features "uppercase_ratio" 0%Q * 10%Q)%F.










End clauses.

End template.

(** ** Stand-ins for the libraries

    Small executable instances of the library interfaces, used to run the
    definitions on concrete transcripts. *)

Module sample.

Definition ascii_digit (c : N) : bool := Re.range 48 57 c.
Definition ascii_upper (c : N) : bool := Re.range 65 90 c.

#[export] Instance unicode : Unicode :=
  {| isdecimal := ascii_digit; isupper := ascii_upper |}.

(** A reading of the [strptime] directives that occur in
    [parser.date_formats]. *)
Record fields := {
  f_year : Z; f_month : Z; f_day : Z; f_hour : Z; f_minute : Z;
  f_pm : option bool;
}.

Definition no_fields : fields :=
  {| f_year := 1900; f_month := 1; f_day := 1; f_hour := 0; f_minute := 0;
     f_pm := None |}.

Definition digit_value (c : N) : option Z :=
  if ascii_digit c then Some (Z.of_N c - 48) else None.

(** Exactly [n] digits. *)
Fixpoint read_exact (n : nat) (acc : Z) (s : pystr) : option (Z * pystr) :=
  match n with
  | O => Some (acc, s)
  | S n' =>
      match s with
      | c :: s' =>
          match digit_value c with
          | Some v => read_exact n' (10 * acc + v) s'
          | None => None
          end
      | [] => None
      end
  end.

(** Two digits when they form a value in range, otherwise one. *)
Definition read_upto2 (lo hi : Z) (s : pystr) : option (Z * pystr) :=
  let in_range (r : Z * pystr) : option (Z * pystr) :=
    if (lo <=? r.1) && (r.1 <=? hi) then Some r else None in
  match read_exact 2 0 s ≫= in_range with
  | Some r => Some r
  | None => read_exact 1 0 s ≫= in_range
  end.

Definition percent : N := 37%N.

Fixpoint strptime (fmt s : pystr) (f : fields) : option fields :=
  match fmt with
  | [] => match s with [] => Some f | _ :: _ => None end
  | c :: fmt' =>
      if (c =? percent)%N then
        match fmt' with
        | d :: fmt'' =>
            let number lo hi (set : Z → fields) :=
              match read_upto2 lo hi s with
              | Some (v, s') => strptime fmt'' s' (set v)
              | None => None
              end in
            if (d =? 100)%N then        (* %d *)
              number 1 31 (λ v, {| f_year := f_year f; f_month := f_month f;
                f_day := v; f_hour := f_hour f; f_minute := f_minute f;
                f_pm := f_pm f |})
            else if (d =? 109)%N then   (* %m *)
              number 1 12 (λ v, {| f_year := f_year f; f_month := v;
                f_day := f_day f; f_hour := f_hour f; f_minute := f_minute f;
                f_pm := f_pm f |})
            else if (d =? 73)%N then    (* %I *)
              number 1 12 (λ v, {| f_year := f_year f; f_month := f_month f;
                f_day := f_day f; f_hour := v; f_minute := f_minute f;
                f_pm := f_pm f |})
            else if (d =? 72)%N then    (* %H *)
              number 0 23 (λ v, {| f_year := f_year f; f_month := f_month f;
                f_day := f_day f; f_hour := v; f_minute := f_minute f;
                f_pm := f_pm f |})
            else if (d =? 77)%N then    (* %M *)
              number 0 59 (λ v, {| f_year := f_year f; f_month := f_month f;
                f_day := f_day f; f_hour := f_hour f; f_minute := v;
                f_pm := f_pm f |})
            else if (d =? 89)%N then    (* %Y *)
              match read_exact 4 0 s with
              | Some (v, s') =>
                  strptime fmt'' s' {| f_year := v; f_month := f_month f;
                    f_day := f_day f; f_hour := f_hour f;
                    f_minute := f_minute f; f_pm := f_pm f |}
              | None => None
              end
            else if (d =? 121)%N then   (* %y *)
              match read_exact 2 0 s with
              | Some (v, s') =>
                  strptime fmt'' s'
                    {| f_year := if v <? 69 then 2000 + v else 1900 + v;
                       f_month := f_month f; f_day := f_day f;
                       f_hour := f_hour f; f_minute := f_minute f;
                       f_pm := f_pm f |}
              | None => None
              end
            else if (d =? 112)%N then   (* %p *)
              match s with
              | a :: m :: s' =>
                  if ((m =? 77) || (m =? 109))%N then
                    if ((a =? 65) || (a =? 97))%N then
                      strptime fmt'' s' {| f_year := f_year f;
                        f_month := f_month f; f_day := f_day f;
                        f_hour := f_hour f; f_minute := f_minute f;
                        f_pm := Some false |}
                    else if ((a =? 80) || (a =? 112))%N then
                      strptime fmt'' s' {| f_year := f_year f;
                        f_month := f_month f; f_day := f_day f;
                        f_hour := f_hour f; f_minute := f_minute f;
                        f_pm := Some true |}
                    else None
                  else None
              | _ => None
              end
            else None
        | [] => None
        end
      else if Str.isspace c then        (* a blank stands for one or more *)
        match s with
        | b :: _ =>
            if Str.isspace b
            then strptime fmt' (Str.lstrip_by Str.isspace s) f
            else None
        | [] => None
        end
      else
        match s with
        | b :: s' => if (b =? c)%N then strptime fmt' s' f else None
        | [] => None
        end
  end.

Definition is_leap (y : Z) : bool :=
  (y mod 4 =? 0) && (negb (y mod 100 =? 0) || (y mod 400 =? 0)).

Definition days_in_month (y m : Z) : Z :=
  if m =? 2 then (if is_leap y then 29 else 28)
  else if (m =? 4) || (m =? 6) || (m =? 9) || (m =? 11) then 30 else 31.

(** Days from 1970-01-01 to the given civil date. *)
Definition days_from_civil (y m d : Z) : Z :=
  let y' := if m <=? 2 then y - 1 else y in
  let era := y' / 400 in
  let yoe := y' - era * 400 in
  let doy := (153 * (if 2 <? m then m - 3 else m + 9) + 2) / 5 + d - 1 in
  let doe := yoe * 365 + yoe / 4 - yoe / 100 + doy in
  era * 146097 + doe - 719468.

Definition seconds_of_fields (f : fields) : option Z :=
  if f_day f <=? days_in_month (f_year f) (f_month f) then
    let hour :=
      match f_pm f with
      | None => f_hour f
      | Some pm => f_hour f mod 12 + (if pm then 12 else 0)
      end in
    Some (days_from_civil (f_year f) (f_month f) (f_day f) * 86400
          + hour * 3600 + f_minute f * 60)
  else None.

Definition does_not_match : exn :=
  ValueError (lit "time data doesn't match format").

(** The lenient parser of this stand-in resolves nothing. *)
#[export] Instance pandas : Pandas :=
  {| to_datetime_format s fmt :=
       match strptime fmt s no_fields ≫= seconds_of_fields with
       | Some t => Return (Some t)
       | None => Raise does_not_match
       end;
     to_datetime_dayfirst s := Return None |}.

(** A stand-in for the estimators: the scaler leaves the matrix as it
    is; the clustering refuses more clusters than samples, as
    scikit-learn does, and otherwise deals the labels out in turn. *)
Definition too_few_samples : exn :=
  ValueError (lit "n_samples should be >= n_clusters").

#[export] Instance sklearn : Sklearn :=
  {| StandardScaler_fit_transform X := X;
     KMeans_fit_predict n_clusters random_state X :=
       if Z.of_nat (length X) <? n_clusters then Raise too_few_samples
       else Return (imap (λ i _, Z.of_nat i mod n_clusters) X) |}.

Definition lines (ls : list string) : pystr :=
  Str.join [Re.newline] (lit <$> ls).

(** Transcripts used in the evaluations. *)
Definition one_author : pystr :=
  lines ["12/01/2024, 10:30 AM - Alice: hello"].

Definition blank_fields : pystr :=
  lines ["12/01/2024, 10:30 AM - : hi"; "12/01/2024, 10:31 AM - Bob:  "].


(** The name and the profile text of each row of a report. *)
Definition names_and_profiles (report : pd.Frame)
    : list (option pystr * option pystr) :=
  (λ r, (pd.r_str r !! "cluster_name", pd.r_str r !! "behavior_profile"))
    <$> pd.rows report.

(** Two authors: B writes twice within the hour, the first time before
    anybody else; A writes three times, each time more than an hour after
    the message before. *)
Definition two_authors : list parser.Message :=
  [ {| parser.timestamp := 0; parser.user := lit "B";
       parser.message := lit "hi" |};
    {| parser.timestamp := 1800; parser.user := lit "B";
       parser.message := lit "anyone?" |};
    {| parser.timestamp := 7200; parser.user := lit "A";
       parser.message := lit "here" |};
    {| parser.timestamp := 14400; parser.user := lit "A";
       parser.message := lit "still here" |};
    {| parser.timestamp := 21600; parser.user := lit "A";
       parser.message := lit "bye" |} ].

(** The cell of an author in a table. *)
Definition cell_of (t : pd.Frame) (u : pystr) (name : string)
    : list (option pyfloat) :=
  (λ r, pd.r_num r !! name) <$> filter (λ r, pd.r_user r = u) (pd.rows t).

(** What the analysis of a transcript returns, or two empty tables when
    it raises. *)
Definition analysis_of (content : pystr) (n_clusters random_state : Z)
    (cluster_names : option (gmap Z pystr))
    : pd.Frame * list main.SummaryRow :=
  match main.analyze_chat_streamlit content n_clusters random_state
          cluster_names with
  | Return out => out
  | Raise _ => ({| pd.columns := []; pd.rows := [] |}, [])
  end.

End sample.


(** ** Further notions used by the properties of the modules *)

(** A pattern is stuck at a position when no attempt from there succeeds,
    whatever follows the pattern. *)
Definition stuck_at (r : Re.regex) (p : Re.pos) : Prop :=
  ∀ caps k, Re.run r p caps k = None.

(** The row of author B in the feature table of [sample.two_authors]. *)
Definition sample_row_B : pd.Row :=
  pd.plain (lit "B")
    (@features.author_cells sample.unicode sample.two_authors (lit "B")).
(** * Theorems *)

(** The concrete evaluations below run on the stand-ins for the libraries. *)
#[local] Existing Instance sample.unicode.
#[local] Existing Instance sample.pandas.
#[local] Existing Instance sample.sklearn.

(** ** Floats *)

Lemma Qltb_lt (x y : Q) : Qltb x y = true ↔ (x < y)%Q.
Proof.
  unfold Qltb. rewrite negb_true_iff, <- not_true_iff_false, Qle_bool_iff.
  split; [apply Qnot_le_lt | apply Qlt_not_le].
Qed.

Lemma Qltb_ge (x y : Q) : Qltb x y = false ↔ (y <= x)%Q.
Proof. unfold Qltb. rewrite negb_false_iff. apply Qle_bool_iff. Qed.

Lemma py_min_Num (a b : Q) :
  ∃ c, py_min (Num a) (Num b) = Num c ∧ (c == Qmin a b)%Q.
Proof.
  unfold py_min, flt, fcmp. destruct (Qltb b a) eqn:E.
  - exists b. split; [done|]. apply Qltb_lt in E.
    symmetry. apply Q.min_r. by apply Qlt_le_weak.
  - exists a. split; [done|]. apply Qltb_ge in E.
    symmetry. by apply Q.min_l.
Qed.

Lemma py_max_Num (a b : Q) :
  ∃ c, py_max (Num a) (Num b) = Num c ∧ (c == Qmax a b)%Q.
Proof.
  unfold py_max, fgt, flt, fcmp. destruct (Qltb a b) eqn:E.
  - exists b. split; [done|]. apply Qltb_lt in E.
    symmetry. apply Q.max_r. by apply Qlt_le_weak.
  - exists a. split; [done|]. apply Qltb_ge in E.
    symmetry. by apply Q.max_l.
Qed.

(** ** profiling.py *)

(** Clamping a number to the unit interval. *)
Lemma clamp_Num (x : Q) :
  ∃ s, py_min (py_max (Num x) 0%Q) 1%Q = Num s
       ∧ (s == Qmin (Qmax x 0) 1)%Q ∧ (0 <= s <= 1)%Q.
Proof.
  destruct (py_max_Num x 0) as (d & -> & Hd).
  destruct (py_min_Num d 1) as (s & -> & Hs).
  exists s. split; [done|].
  assert (E : (s == Qmin (Qmax x 0) 1)%Q) by (by rewrite Hs, Hd).
  split; [exact E|]. rewrite E. split.
  - apply Q.min_glb; [apply Q.le_max_r | lra].
  - apply Q.le_min_r.
Qed.

(** The weighted sum of the three sub-scores on a row whose inputs are
    numbers. *)
Lemma weighted_sum_Num (m r i : Q) :
  ∃ w, (py_min (Num m / 5%Q) 1%Q * 0.4%Q
        + (1%Q - py_min (Num r / 24%Q) 1%Q) * 0.3%Q
        + py_min (Num i * 10%Q) 1%Q * 0.3%Q)%F = Num w
       ∧ (w == 0.4 * Qmin (m / 5) 1 + 0.3 * (1 - Qmin (r / 24) 1)
               + 0.3 * Qmin (i * 10) 1)%Q.
Proof.
  change (Num m / 5%Q)%F with (Num (m / 5)).
  change (Num r / 24%Q)%F with (Num (r / 24)).
  change (Num i * 10%Q)%F with (Num (i * 10)).
  destruct (py_min_Num (m / 5) 1) as (a & -> & Ha).
  destruct (py_min_Num (r / 24) 1) as (b & -> & Hb).
  destruct (py_min_Num (i * 10) 1) as (c & -> & Hc).
  eexists. split; [reflexivity|]. rewrite Ha, Hb, Hc. ring.
Qed.

Lemma get_Some (features : Series) (key : string) (dflt v : pyfloat) :
  features !! key = Some v → get features key dflt = v.
Proof. intros E. unfold get. by rewrite E. Qed.

(** C1. On a row whose three inputs are numbers, the influence score is the
    weighted sum 0.4 * min(messages_per_day / 5, 1)
    + 0.3 * (1 - min(avg_response_time_hours / 24, 1))
    + 0.3 * min(initiation_ratio * 10, 1) clamped to [0, 1], and so lies
    between 0 and 1. *)
Theorem influence_score_formula_bounds (features : Series) (m r i : Q) :
  features !! "messages_per_day" = Some (Num m) →
  features !! "avg_response_time_hours" = Some (Num r) →
  features !! "initiation_ratio" = Some (Num i) →
  ∃ s : Q,
    profiling.calculate_influence_score features = Num s
    ∧ (s == Qmin (Qmax (0.4 * Qmin (m / 5) 1
                        + 0.3 * (1 - Qmin (r / 24) 1)
                        + 0.3 * Qmin (i * 10) 1) 0) 1)%Q
    ∧ (0 <= s <= 1)%Q.
Proof.
  intros Hm Hr Hi. unfold profiling.calculate_influence_score.
  rewrite (get_Some _ _ _ _ Hm), (get_Some _ _ _ _ Hr), (get_Some _ _ _ _ Hi).
  destruct (weighted_sum_Num m r i) as (w & -> & Hw).
  destruct (clamp_Num w) as (s & -> & Hs & Hbounds).
  exists s. split; [done|]. split; [|done].
  rewrite Hs. apply Q.min_compat; [|reflexivity].
  by apply Q.max_compat.
Qed.

Lemma influence_score_formula_bounds_witness :
  ∃ s : Q,
    profiling.calculate_influence_score
      (list_to_map [("messages_per_day", Num 5);
                    ("avg_response_time_hours", Num 1);
                    ("initiation_ratio", Num 0.05)]) = Num s
    ∧ (s == Qmin (Qmax (0.4 * Qmin (5 / 5) 1
                        + 0.3 * (1 - Qmin (1 / 24) 1)
                        + 0.3 * Qmin (0.05 * 10) 1) 0) 1)%Q
    ∧ (0 <= s <= 1)%Q.
Proof.
  apply (influence_score_formula_bounds _ 5 1 0.05); reflexivity.
Defined.


Lemma get_cluster_name_custom (cluster_id : Z) (names : gmap Z pystr)
    (name : pystr) :
  names !! cluster_id = Some name →
  profiling.get_cluster_name cluster_id (Some names) = name.
Proof. intros E. unfold profiling.get_cluster_name. by rewrite E. Qed.

Lemma get_cluster_name_custom_unmapped (cluster_id : Z) (names : gmap Z pystr) :
  names !! cluster_id = None →
  profiling.get_cluster_name cluster_id (Some names)
  = lit "Cluster " ++ str_of_int cluster_id.
Proof. intros E. unfold profiling.get_cluster_name. by rewrite E. Qed.

Lemma default_names_lookup (cluster_id : Z) :
  ¬ (0 ≤ cluster_id ≤ 4) → profiling.DEFAULT_CLUSTER_NAMES !! cluster_id = None.
Proof.
  intros Hout. unfold profiling.DEFAULT_CLUSTER_NAMES. simpl.
  rewrite !lookup_insert_ne by lia. apply lookup_empty.
Qed.

(** C6, evaluated on the code. The lookup itself is as claimed: without a
    mapping the labels 0 to 4 get the five canonical names and any other
    label is rendered as "Cluster {id}"; with a mapping the mapped labels get
    the caller's names and the others "Cluster {id}". In the analysis output
    the mapping reaches the [cluster_name] column only: on a one-author
    transcript analysed with the mapping 0 -> "Leaders", the row is named
    "Leaders" while its profile text still says 'Regular Participants'. *)
Theorem cluster_names_in_analysis_output :
  ((λ c, profiling.get_cluster_name c None) <$> [0; 1; 2; 3; 4]
   = [ lit "Regular Participants"; lit "Active Conversationalists";
       lit "Information Broadcasters"; lit "Silent Observers";
       lit "Night Owls" ])
  ∧ (∀ cluster_id, ¬ (0 ≤ cluster_id ≤ 4) →
       profiling.get_cluster_name cluster_id None
       = lit "Cluster " ++ str_of_int cluster_id)
  ∧ (∀ cluster_id names,
       profiling.get_cluster_name cluster_id (Some names)
       = default (lit "Cluster " ++ str_of_int cluster_id)
                 (names !! cluster_id))
  ∧ match main.analyze_chat_streamlit sample.one_author 1 42
            (Some {[ 0 := lit "Leaders" ]}) with
    | Return (final_report, _) =>
        sample.names_and_profiles final_report
        = [ (Some (lit "Leaders"),
             Some (lit ("This user belongs to the 'Regular Participants' group. "
                        ++ "This user is low activity, prefers short messages, "
                        ++ "emotionally reserved, responds quickly, frequently "
                        ++ "initiates conversations and influences group flow."))) ]
    | Raise _ => False
    end.
Proof.
  split; [reflexivity|]. split; [|split].
  - intros cluster_id Hout. unfold profiling.get_cluster_name.
    by rewrite default_names_lookup.
  - reflexivity.
  - vm_compute. reflexivity.
Qed.

(** ** Strings *)

Section strip_facts.
Variable p : N → bool.

Lemma lstrip_by_idemp (s : pystr) :
  Str.lstrip_by p (Str.lstrip_by p s) = Str.lstrip_by p s.
Proof.
  induction s as [|c s IH]; [done|]. simpl.
  destruct (p c) eqn:E; [done|]. simpl. by rewrite E.
Qed.

(** What [lstrip_by] removes is a prefix of characters of the class. *)
Lemma lstrip_by_split (s : pystr) :
  ∃ pre, s = pre ++ Str.lstrip_by p s ∧ Forall (λ c, p c = true) pre.
Proof.
  induction s as [|c s (pre & IH1 & IH2)]; [by exists []|]. simpl.
  destruct (p c) eqn:E.
  - exists (c :: pre). split; [by rewrite IH1 at 1 | by constructor].
  - by exists [].
Qed.

Lemma lstrip_by_head (s : pystr) (c : N) (s' : pystr) :
  Str.lstrip_by p s = c :: s' → p c = false.
Proof.
  induction s as [|d s IH]; [done|]. simpl.
  destruct (p d) eqn:E; [done|]. by intros [= -> _].
Qed.

Lemma lstrip_by_id (s : pystr) :
  (∀ c s', s = c :: s' → p c = false) → Str.lstrip_by p s = s.
Proof.
  destruct s as [|c s]; [done|]. intros Hc. simpl.
  by rewrite (Hc c s eq_refl).
Qed.

Lemma rstrip_by_idemp (s : pystr) :
  Str.rstrip_by p (Str.rstrip_by p s) = Str.rstrip_by p s.
Proof.
  unfold Str.rstrip_by. by rewrite reverse_involutive, lstrip_by_idemp.
Qed.

Lemma rstrip_by_split (s : pystr) :
  ∃ suf, s = Str.rstrip_by p s ++ suf ∧ Forall (λ c, p c = true) suf.
Proof.
  unfold Str.rstrip_by.
  destruct (lstrip_by_split (reverse s)) as (pre & E & Hpre).
  exists (reverse pre). split.
  - rewrite <- reverse_app, <- E. by rewrite reverse_involutive.
  - by apply Forall_reverse.
Qed.

(** Stripping on the right leaves a stripped left end alone. *)
Lemma lstrip_rstrip_by (s : pystr) :
  Str.lstrip_by p (Str.rstrip_by p (Str.lstrip_by p s))
  = Str.rstrip_by p (Str.lstrip_by p s).
Proof.
  apply lstrip_by_id. intros c s' E.
  destruct (rstrip_by_split (Str.lstrip_by p s)) as (suf & E' & _).
  rewrite E in E'. simpl in E'. by apply lstrip_by_head in E'.
Qed.

End strip_facts.

Lemma strip_idemp (s : pystr) : Str.strip (Str.strip s) = Str.strip s.
Proof.
  unfold Str.strip. by rewrite lstrip_rstrip_by, rstrip_by_idemp.
Qed.

(** ** parser.py *)

Section parser_facts.
Context `{Unicode} `{Pandas}.

Lemma try_formats_first (s : pystr) (pre : list pystr) (fmt : pystr)
    (post : list pystr) (ts : Timestamp) :
  (∀ f, f ∈ pre → ∃ e, to_datetime_format s f = Raise e) →
  to_datetime_format s fmt = Return ts →
  parser.try_formats s (pre ++ fmt :: post) = Some ts.
Proof.
  intros Hpre Hfmt. induction pre as [|f pre IH]; simpl.
  - by rewrite Hfmt.
  - destruct (Hpre f) as [e ->]; [left|].
    apply IH. intros g Hg. apply Hpre. by right.
Qed.

Lemma try_formats_none (s : pystr) (formats : list pystr) :
  (∀ f, f ∈ formats → ∃ e, to_datetime_format s f = Raise e) →
  parser.try_formats s formats = None.
Proof.
  induction formats as [|f formats IH]; [done|]. intros Hall. simpl.
  destruct (Hall f) as [e ->]; [left|].
  apply IH. intros g Hg. apply Hall. by right.
Qed.

Lemma parse_match_cases (date_str time_str user message : pystr) :
  parser.parse_match (date_str, time_str, user, message)
  = match parser.resolve_timestamp (parser.datetime_str date_str time_str) with
    | Some (Some ts) =>
        [ {| parser.timestamp := ts;
             parser.user := Str.strip user;
             parser.message := Str.strip message |} ]
    | _ => []
    end.
Proof.
  unfold parser.parse_match.
  by destruct (parser.resolve_timestamp _) as [[ts|]|].
Qed.

(** The only exception of the parser is the empty-result error, raised
    exactly when no record was kept. *)
Lemma parse_raises_iff (content : pystr) (e : exn) :
  parser.parse_whatsapp_chat content = Raise e
  ↔ parser.parse_matches content = [] ∧ e = parser.no_messages_found.
Proof.
  unfold parser.parse_whatsapp_chat.
  destruct (parser.parse_matches content) as [|m ms]; split.
  - by intros [= <-].
  - by intros [_ ->].
  - done.
  - by intros [? _].
Qed.

Lemma parse_returns (content : pystr) (msgs : list parser.Message) :
  parser.parse_whatsapp_chat content = Return msgs
  ↔ parser.parse_matches content = msgs ∧ msgs ≠ [].
Proof.
  unfold parser.parse_whatsapp_chat.
  destruct (parser.parse_matches content) as [|m ms]; split.
  - done.
  - by intros [<- ?].
  - by intros [= <-].
  - by intros [<- _].
Qed.

End parser_facts.

(** C7. For a matched line the formats are tried in the order day-first
    4-digit year 12-hour, day-first 2-digit year 12-hour, month-first 4-digit
    year 12-hour, month-first 2-digit year 12-hour, ISO date 24-hour,
    day-first 24-hour, month-first 24-hour; the first format that does not
    raise gives the timestamp; when all raise, the lenient day-first parse
    decides; a match whose timestamp is not resolved adds no record and leaves
    the records of the other matches as they are. *)
Theorem timestamp_resolution_order `{Pandas}
    (date_str time_str user message : pystr) :
  let s := parser.datetime_str date_str time_str in
  let m := (date_str, time_str, user, message) in
  parser.date_formats
  = [ lit "%d/%m/%Y, %I:%M %p"; lit "%d/%m/%y, %I:%M %p";
      lit "%m/%d/%Y, %I:%M %p"; lit "%m/%d/%y, %I:%M %p";
      lit "%Y-%m-%d, %H:%M"; lit "%d/%m/%Y, %H:%M"; lit "%m/%d/%Y, %H:%M" ]
  ∧ (∀ pre fmt post ts,
       parser.date_formats = pre ++ fmt :: post →
       (∀ f, f ∈ pre → ∃ e, to_datetime_format s f = Raise e) →
       to_datetime_format s fmt = Return ts →
       parser.resolve_timestamp s = Some ts)
  ∧ ((∀ f, f ∈ parser.date_formats → ∃ e, to_datetime_format s f = Raise e) →
     parser.resolve_timestamp s
     = match to_datetime_dayfirst s with
       | Return ts => Some ts
       | Raise _ => None
       end)
  ∧ parser.parse_match m
    = match parser.resolve_timestamp s with
      | Some (Some ts) =>
          [ {| parser.timestamp := ts;
               parser.user := Str.strip user;
               parser.message := Str.strip message |} ]
      | _ => []
      end
  ∧ (∀ before after,
       (∀ ts, parser.resolve_timestamp s ≠ Some (Some ts)) →
       (before ++ m :: after) ≫= parser.parse_match
       = (before ++ after) ≫= parser.parse_match).
Proof.
  intros s m. split; [done|]. split; [|split; [|split]].
  - intros pre fmt post ts E Hpre Hfmt. unfold parser.resolve_timestamp.
    rewrite E. by rewrite (try_formats_first s pre fmt post ts).
  - intros Hall. unfold parser.resolve_timestamp.
    by rewrite try_formats_none.
  - apply parse_match_cases.
  - intros before after Hno. rewrite !bind_app, bind_cons.
    unfold m at 1. rewrite parse_match_cases. fold s.
    destruct (parser.resolve_timestamp s) as [[ts|]|]; [|done..].
    by destruct (Hno ts).
Qed.

Lemma timestamp_resolution_order_witness :
  parser.resolve_timestamp (parser.datetime_str (lit "25/12/2023") (lit "9:05 PM"))
  = Some (Some 1703538300)
  ∧ parser.resolve_timestamp (parser.datetime_str (lit "2024-01-12") (lit "22:15"))
    = Some (Some 1705097700).
Proof.
  split.
  - apply (timestamp_resolution_order (lit "25/12/2023") (lit "9:05 PM") [] [])
      with (pre := []) (fmt := lit "%d/%m/%Y, %I:%M %p")
           (post := tail parser.date_formats);
      [reflexivity | inversion 1 | reflexivity].
  - apply (timestamp_resolution_order (lit "2024-01-12") (lit "22:15") [] [])
      with (pre := take 4 parser.date_formats) (fmt := lit "%Y-%m-%d, %H:%M")
           (post := drop 5 parser.date_formats);
      [reflexivity | | reflexivity].
    intros f Hf. exists sample.does_not_match.
    vm_compute in Hf. repeat (apply elem_of_cons in Hf as [->|Hf]; [reflexivity|]).
    inversion Hf.
Defined.

(** C8, as the parser has it. Every record kept by the parser comes from a
    match whose timestamp was resolved to a valid (non-NaT) value, and its
    author and text are the matched groups with the surrounding whitespace
    removed, so that trimming them again changes nothing; either of them may
    be empty. *)
Theorem parsed_records_trimmed `{Unicode} `{Pandas}
    (content : pystr) (msgs : list parser.Message) (m : parser.Message) :
  parser.parse_whatsapp_chat content = Return msgs →
  m ∈ msgs →
  (∃ date_str time_str user message,
     (date_str, time_str, user, message) ∈ parser.findall content
     ∧ parser.resolve_timestamp (parser.datetime_str date_str time_str)
       = Some (Some (parser.timestamp m))
     ∧ parser.user m = Str.strip user
     ∧ parser.message m = Str.strip message)
  ∧ Str.strip (parser.user m) = parser.user m
  ∧ Str.strip (parser.message m) = parser.message m.
Proof.
  intros Hparse Hm. apply parse_returns in Hparse as [<- _].
  unfold parser.parse_matches in Hm.
  apply list_elem_of_bind in Hm as ([[[d t] u] x] & Hin & Hmatch).
  rewrite parse_match_cases in Hin.
  destruct (parser.resolve_timestamp _) as [[ts|]|] eqn:E;
    [|by apply elem_of_nil in Hin..].
  apply list_elem_of_singleton in Hin as ->. simpl.
  split; [|split; apply strip_idemp].
  by exists d, t, u, x.
Qed.

Lemma parsed_records_trimmed_witness :
  (∃ date_str time_str user message,
     (date_str, time_str, user, message) ∈ parser.findall sample.one_author
     ∧ parser.resolve_timestamp (parser.datetime_str date_str time_str)
       = Some (Some 1705055400)
     ∧ lit "Alice" = Str.strip user
     ∧ lit "hello" = Str.strip message)
  ∧ Str.strip (lit "Alice") = lit "Alice"
  ∧ Str.strip (lit "hello") = lit "hello".
Proof.
  apply (parsed_records_trimmed sample.one_author
           [ {| parser.timestamp := 1705055400; parser.user := lit "Alice";
                parser.message := lit "hello" |} ]
           {| parser.timestamp := 1705055400; parser.user := lit "Alice";
              parser.message := lit "hello" |});
    [reflexivity | left].
Defined.

(** C8 as stated fails: a line with nothing between the dash and the colon
    gives a record with an empty author, and a line with only blanks after
    the colon gives a record with an empty text. *)
Lemma parsed_fields_may_be_empty :
  parser.parse_whatsapp_chat sample.blank_fields
  = Return [ {| parser.timestamp := 1705055400; parser.user := [];
                parser.message := lit "hi" |};
             {| parser.timestamp := 1705055460; parser.user := lit "Bob";
                parser.message := [] |} ].
Proof. vm_compute. reflexivity. Qed.

(** ** Tables *)

Lemma bind_singletons {A B} (F : A → list B) (g : A → B) (l : list A) :
  (∀ x, x ∈ l → F x = [g x]) → l ≫= F = g <$> l.
Proof.
  induction l as [|x l IH]; [done|]. intros HF. rewrite bind_cons, fmap_cons.
  rewrite (HF x) by left. simpl. f_equal. apply IH. intros y Hy. apply HF.
  by right.
Qed.

Lemma filter_key_fmap {A} (mk : pystr → A) (key : A → pystr) (u : pystr)
    (keys : list pystr) :
  (∀ v, key (mk v) = v) → NoDup keys →
  filter (λ r, key r = u) (mk <$> keys)
  = if decide (u ∈ keys) then [mk u] else [].
Proof.
  intros Hkey. induction 1 as [|v keys Hv Hnd IH]; [done|].
  rewrite fmap_cons, filter_cons, Hkey, IH.
  destruct (decide (v = u)) as [->|Hne].
  - rewrite (decide_True (P := u ∈ u :: keys)) by left.
    by rewrite (decide_False (P := u ∈ keys)).
  - destruct (decide (u ∈ keys)) as [Hin|Hout].
    + rewrite (decide_True (P := u ∈ v :: keys)); [done|by right].
    + rewrite (decide_False (P := u ∈ v :: keys)); [done|].
      intros [->|?]%elem_of_cons; done.
Qed.

Lemma nan_cells_lookup (names : list string) (c : string) :
  c ∈ names → pd.nan_cells names !! c = Some NaN.
Proof.
  intros Hc. unfold pd.nan_cells.
  induction names as [|n names IH]; [by apply elem_of_nil in Hc|].
  rewrite fmap_cons. simpl. destruct (decide (n = c)) as [->|Hne].
  - apply lookup_insert_eq.
  - rewrite lookup_insert_ne by done. apply IH.
    by apply elem_of_cons in Hc as [->|Hc].
Qed.

Lemma fill_is_num (v : Q) (c : pyfloat) : ∃ q, pd.fill (Num v) c = Num q.
Proof. destruct c as [q|]; by eexists. Qed.

Section represents.
Implicit Types (t L R : pd.Frame) (K : list pystr).
Implicit Types (cells : pystr → gmap string pyfloat).

Lemma represents_ext t K cells cells' :
  (∀ u, u ∈ K → cells u = cells' u) →
  pd.represents t K cells → pd.represents t K cells'.
Proof.
  unfold pd.represents. intros Hext ->.
  assert (E : (λ u, pd.plain u (cells u)) <$> K
              = (λ u, pd.plain u (cells' u)) <$> K); [|by rewrite E].
  apply list_fmap_ext. intros _ u Hu%list_elem_of_lookup_2.
  by rewrite Hext.
Qed.

Lemma represents_users t K cells :
  pd.represents t K cells → pd.users t ≡ₚ K.
Proof.
  unfold pd.represents, pd.users. intros ->.
  rewrite <- list_fmap_compose. by rewrite list_fmap_id.
Qed.

Lemma represents_length t K cells :
  pd.represents t K cells → length (pd.rows t) = length K.
Proof. unfold pd.represents. intros ->. apply length_fmap. Qed.

Lemma represents_row t K cells (u : pystr) :
  pd.represents t K cells → u ∈ K → pd.plain u (cells u) ∈ pd.rows t.
Proof.
  unfold pd.represents. intros -> Hu.
  by apply (list_elem_of_fmap_2 (λ u, pd.plain u (cells u))).
Qed.

Lemma represents_rows t K cells (r : pd.Row) :
  pd.represents t K cells → r ∈ pd.rows t →
  ∃ u, u ∈ K ∧ r = pd.plain u (cells u).
Proof.
  unfold pd.represents. intros -> (u & -> & Hu)%list_elem_of_fmap. eauto.
Qed.

Lemma represents_table (names : list string) (vals : pystr → list pyfloat) K :
  pd.represents (pd.table names ((λ u, (u, vals u)) <$> K)) K
    (λ u, list_to_map (zip names (vals u))).
Proof.
  unfold pd.represents, pd.table. simpl. by rewrite <- list_fmap_compose.
Qed.

Lemma represents_fillna_column (name : string) (v : pyfloat) t K cells :
  pd.represents t K cells →
  pd.represents (pd.fillna_column name v t) K
    (λ u, alter (pd.fill v) name (cells u)).
Proof.
  unfold pd.represents, pd.fillna_column. simpl. intros ->.
  by rewrite <- list_fmap_compose.
Qed.

Lemma represents_fillna (v : pyfloat) t K cells :
  pd.represents t K cells →
  pd.represents (pd.fillna v t) K (λ u, pd.fill v <$> cells u).
Proof.
  unfold pd.represents, pd.fillna. simpl. intros ->.
  by rewrite <- list_fmap_compose.
Qed.

Lemma represents_add_column (name : string) (f : pd.Row → pyfloat) t K cells :
  pd.represents t K cells →
  pd.represents (pd.add_column name f t) K
    (λ u, <[name := f (pd.plain u (cells u))]> (cells u)).
Proof.
  unfold pd.represents, pd.add_column. simpl. intros ->.
  by rewrite <- list_fmap_compose.
Qed.

Lemma join_plain (u v : pystr) (a b : gmap string pyfloat) :
  pd.join_rows (pd.plain u a) (pd.plain v b) = pd.plain u (a ∪ b).
Proof.
  unfold pd.join_rows, pd.plain. simpl. by rewrite !(left_id_L ∅ (∪)).
Qed.

(** The rows of [R] with a given user: the one row of that user, if any. *)
Lemma represents_matches R KR cR (u : pystr) :
  NoDup KR → pd.represents R KR cR →
  filter (λ r, pd.r_user r = u) (pd.rows R)
  = if decide (u ∈ KR) then [pd.plain u (cR u)] else [].
Proof.
  unfold pd.represents. intros Hnd HR.
  assert (Hp : filter (λ r, pd.r_user r = u) (pd.rows R)
               ≡ₚ if decide (u ∈ KR) then [pd.plain u (cR u)] else []).
  { rewrite HR. by rewrite (filter_key_fmap _ pd.r_user). }
  destruct (decide (u ∈ KR)).
  - by apply Permutation_singleton_r.
  - by apply Permutation_nil_r.
Qed.

Lemma represents_merge_left L R K KR cL cR :
  NoDup KR → pd.represents L K cL → pd.represents R KR cR →
  pd.represents (pd.merge_left L R) K
    (λ u, cL u ∪ (if decide (u ∈ KR) then cR u
                  else pd.nan_cells (pd.data_columns R))).
Proof.
  intros Hnd HL HR. unfold pd.represents, pd.merge_left. simpl.
  rewrite HL, list_fmap_bind. apply reflexive_eq, bind_singletons.
  intros u Hu. unfold compose.
  change (pd.r_user (pd.plain u (cL u))) with u.
  rewrite (represents_matches R KR cR u Hnd HR).
  destruct (decide (u ∈ KR)); lazy beta iota.
  - by rewrite join_plain.
  - unfold pd.missing. by rewrite join_plain.
Qed.

Lemma represents_merge_outer L R K KR cL cR :
  NoDup KR → pd.represents L K cL → pd.represents R KR cR →
  pd.represents (pd.merge_outer L R) (K ++ filter (λ u, u ∉ K) KR)
    (λ u, (if decide (u ∈ K) then cL u
           else pd.nan_cells (pd.data_columns L))
          ∪ (if decide (u ∈ KR) then cR u
             else pd.nan_cells (pd.data_columns R))).
Proof.
  intros Hnd HL HR. unfold pd.represents, pd.merge_outer. simpl.
  rewrite merge_sort_Permutation, fmap_app.
  apply Permutation_app.
  - rewrite (represents_merge_left L R K KR cL cR Hnd HL HR).
    apply reflexive_eq, list_fmap_ext.
    intros _ u Hu%list_elem_of_lookup_2.
    by rewrite (decide_True (P := u ∈ K)).
  - assert (HU : ∀ u, u ∉ pd.users L ↔ u ∉ K).
    { intros u. by rewrite (represents_users L K cL HL). }
    rewrite (list_filter_iff (λ r, pd.r_user r ∉ pd.users L)
                             (λ r, pd.r_user r ∉ K))
      by (intros r; apply HU).
    unfold pd.represents in HR. rewrite HR.
    clear HL HR HU. induction Hnd as [|v KR Hv Hnd IH]; [done|].
    rewrite fmap_cons, !filter_cons. simpl.
    destruct (decide (v ∉ K)) as [Hout|Hin].
    + rewrite !fmap_cons. unfold pd.missing. rewrite join_plain.
      rewrite (decide_False (P := v ∈ K)) by done.
      rewrite (decide_True (P := v ∈ v :: KR)) by left.
      apply Permutation_skip. rewrite IH.
      apply reflexive_eq, list_fmap_ext.
      intros _ u Hu%list_elem_of_lookup_2.
      apply list_elem_of_filter in Hu as [Hu1 Hu2].
      rewrite (decide_False (P := u ∈ K)) by done.
      rewrite (decide_True (P := u ∈ v :: KR)) by (by right).
      by rewrite (decide_True (P := u ∈ KR)).
    + rewrite IH. apply reflexive_eq, list_fmap_ext.
      intros _ u Hu%list_elem_of_lookup_2.
      apply list_elem_of_filter in Hu as [Hu1 Hu2].
      rewrite (decide_False (P := u ∈ K)) by done.
      rewrite (decide_True (P := u ∈ v :: KR)) by (by right).
      by rewrite (decide_True (P := u ∈ KR)).
Qed.

End represents.

(** ** features.py *)

#[local] Instance str_le_total : Total str_le.
Proof.
  intros a. induction a as [|x a IH]; intros [|y b]; unfold str_le; simpl;
    [by left..|by right|].
  destruct (N.ltb_spec x y); [by left|].
  destruct (N.ltb_spec y x); [by right|].
  assert (x = y) as -> by lia. rewrite N.eqb_refl. simpl. apply IH.
Qed.

#[local] Instance ts_le_total : Total features.ts_le.
Proof. intros a b. unfold features.ts_le. lia. Qed.

#[local] Instance ts_le_trans : Transitive features.ts_le.
Proof. intros a b c. unfold features.ts_le. lia. Qed.

Section group_facts.
Import features.
Implicit Types (df : DataFrame) (u : pystr).

Lemma elem_of_group_keys df u : u ∈ group_keys df ↔ u ∈ parser.user <$> df.
Proof.
  unfold group_keys. by rewrite merge_sort_Permutation, elem_of_remove_dups.
Qed.

Lemma NoDup_group_keys df : NoDup (group_keys df).
Proof.
  unfold group_keys. rewrite merge_sort_Permutation. apply NoDup_remove_dups.
Qed.

Lemma sort_values_Permutation df : sort_values df ≡ₚ df.
Proof. apply merge_sort_Permutation. Qed.

Lemma sort_values_Sorted df : Sorted ts_le (sort_values df).
Proof. apply (Sorted_merge_sort ts_le). Qed.

Lemma elem_of_group_keys_sorted df u :
  u ∈ group_keys (sort_values df) ↔ u ∈ group_keys df.
Proof. by rewrite !elem_of_group_keys, sort_values_Permutation. Qed.

Lemma group_nonempty df u : u ∈ group_keys df → (0 < length (group df u))%nat.
Proof.
  rewrite elem_of_group_keys. intros (m & -> & Hm)%list_elem_of_fmap.
  assert (Hin : m ∈ group df (parser.user m)).
  { by apply list_elem_of_filter. }
  destruct (group df (parser.user m)); [by apply elem_of_nil in Hin|].
  simpl. lia.
Qed.

Lemma group_empty df u : u ∉ group_keys df → group df u = [].
Proof.
  rewrite elem_of_group_keys. intros Hout.
  destruct (group df u) as [|m g] eqn:E; [done|].
  assert (Hin : m ∈ group df u) by (rewrite E; left).
  apply list_elem_of_filter in Hin as [<- Hm]. destruct Hout.
  by apply list_elem_of_fmap_2.
Qed.

Lemma represents_groupby_agg (names : list string)
    (agg : DataFrame → list pyfloat) df :
  pd.represents (groupby_agg names agg df) (group_keys df)
    (λ u, list_to_map (zip names (agg (group df u)))).
Proof. apply (represents_table names (λ u, agg (group df u))). Qed.

End group_facts.

Section feature_tables.
Import features.
Context `{Unicode}.
Implicit Types (df g : DataFrame) (u : pystr).

Lemma length_agg_shape g : ∃ a b c, length_agg g = [a; b; c].
Proof. by do 3 eexists. Qed.

Lemma daily_agg_shape g : ∃ a, daily_agg g = [a].
Proof. by eexists. Qed.

Lemma response_agg_shape g : ∃ a, response_agg g = [a].
Proof. by eexists. Qed.

Lemma emotional_agg_shape g : ∃ a b c d, emotional_agg g = [a; b; c; d].
Proof. by do 4 eexists. Qed.

Lemma link_agg_shape g : ∃ a b, link_agg g = [a; b].
Proof. by do 2 eexists. Qed.

Lemma data_columns_groupby (names : list string)
    (agg : DataFrame → list pyfloat) df :
  pd.data_columns (groupby_agg names agg df)
  = filter (λ c, c ≠ "user") ("user" :: names).
Proof. reflexivity. Qed.

Lemma filter_not_in_self (K : list pystr) : filter (λ u, u ∉ K) K = [].
Proof.
  assert (Hgen : ∀ K', K' ⊆ K → filter (λ u, u ∉ K) K' = []).
  { induction K' as [|v K' IH]; [done|]. intros Hsub.
    rewrite filter_cons, decide_False.
    - apply IH. intros x Hx. apply Hsub. by right.
    - intros Hout. apply Hout, Hsub. left. }
  by apply Hgen.
Qed.

(** An outer join of two tables over the same users. *)
Lemma represents_merge_outer_same (L R : pd.Frame) (K : list pystr)
    (cL cR : pystr → gmap string pyfloat) :
  NoDup K → pd.represents L K cL → pd.represents R K cR →
  pd.represents (pd.merge_outer L R) K (λ u, cL u ∪ cR u).
Proof.
  intros Hnd HL HR.
  pose proof (represents_merge_outer L R K K cL cR Hnd HL HR) as Hm.
  rewrite filter_not_in_self, app_nil_r in Hm.
  eapply represents_ext; [|exact Hm].
  intros u Hu. cbv beta. by rewrite !decide_True.
Qed.

Lemma represents_temporal df :
  pd.represents (calculate_temporal_features df) (group_keys df)
    (λ u, list_to_map
            (zip ["messages_per_day"; "avg_response_time_hours";
                  "night_activity_ratio"]
                 (daily_agg (group df u)
                  ++ (pd.fill 0%Q <$> response_agg (group (sort_values df) u))
                  ++ [pd.fill 0%Q (night_ratio df u)]))).
Proof.
  pose proof (represents_groupby_agg ["messages_per_day"] daily_agg df) as H1.
  pose proof (represents_fillna_column "avg_response_time_hours" 0%Q _ _ _
    (represents_groupby_agg ["avg_response_time_hours"] response_agg
       (sort_values df))) as H2.
  pose proof (represents_fillna_column "night_activity_ratio" 0%Q _ _ _
    (represents_table ["night_activity_ratio"] (λ u, [night_ratio df u])
       (group_keys df))) as H3.
  pose proof (represents_merge_left _ _ _ _ _ _
    (NoDup_group_keys _) H1 H2) as H12.
  pose proof (represents_merge_left _ _ _ _ _ _
    (NoDup_group_keys _) H12 H3) as H123.
  eapply represents_ext; [|exact H123].
  intros u Hu. cbv beta.
  rewrite (decide_True (P := u ∈ group_keys (sort_values df)))
    by (by apply elem_of_group_keys_sorted).
  rewrite (decide_True (P := u ∈ group_keys df)) by done.
  destruct (daily_agg_shape (group df u)) as [a ->].
  destruct (response_agg_shape (group (sort_values df) u)) as [b ->].
  generalize (night_ratio df u). intros c.
  vm_compute. reflexivity.
Qed.

Lemma represents_initiation df :
  pd.represents (calculate_conversation_initiation_features df)
    (group_keys df)
    (λ u, list_to_map
            (zip ["total_messages"; "initiations"; "initiation_ratio"]
                 (size_agg (group df u)
                  ++ [Num (Qnat (size (conversation_starts df) u));
                      (Num (Qnat (size (conversation_starts df) u))
                       / Num (Qnat (length (group df u))))%F]))).
Proof.
  pose proof (represents_groupby_agg ["total_messages"] size_agg df) as H1.
  pose proof (represents_groupby_agg ["initiations"] size_agg
                (conversation_starts df)) as H2.
  pose proof (represents_merge_left _ _ _ _ _ _
    (NoDup_group_keys _) H1 H2) as H12.
  pose proof (represents_fillna_column "initiations" 0%Q _ _ _ H12) as H3.
  pose proof (represents_add_column "initiation_ratio"
    (λ r, (pd.cell r "initiations" / pd.cell r "total_messages")%F)
    _ _ _ H3) as H4.
  eapply represents_ext; [|exact H4].
  intros u Hu. cbv beta. rewrite data_columns_groupby.
  unfold size_agg, size.
  destruct (decide (u ∈ group_keys (conversation_starts df))) as [Hin|Hout].
  - generalize (Qnat (length (group (conversation_starts df) u))).
    generalize (Qnat (length (group df u))). intros x y.
    vm_compute. reflexivity.
  - rewrite (group_empty _ _ Hout).
    generalize (Qnat (length (group df u))). intros x.
    vm_compute. reflexivity.
Qed.

(** The feature table has one row for each author, with the cells read
    off the aggregations. *)
Lemma represents_features df :
  pd.represents (extract_all_features df) (group_keys df) (author_cells df).
Proof.
  pose proof (NoDup_group_keys df) as Hnd.
  pose proof (represents_groupby_agg
    ["avg_length"; "median_length"; "total_chars"] length_agg df) as Hlen.
  pose proof (represents_temporal df) as Htemp.
  pose proof (represents_groupby_agg
    ["avg_exclamations"; "avg_questions"; "avg_emojis"; "uppercase_ratio"]
    emotional_agg df) as Hemo.
  pose proof (represents_groupby_agg
    ["total_links"; "link_sharing_ratio"] link_agg df) as Hlink.
  pose proof (represents_initiation df) as Hinit.
  pose proof (represents_merge_outer_same _ _ _ _ _ Hnd Hlen Htemp) as M1.
  pose proof (represents_merge_outer_same _ _ _ _ _ Hnd M1 Hemo) as M2.
  pose proof (represents_merge_outer_same _ _ _ _ _ Hnd M2 Hlink) as M3.
  pose proof (represents_merge_outer_same _ _ _ _ _ Hnd M3 Hinit) as M4.
  pose proof (represents_fillna 0%Q _ _ _ M4) as HF.
  eapply represents_ext; [|exact HF].
  intros u Hu. unfold author_cells, author_values. reflexivity.
Qed.

End feature_tables.

Section feature_rows.
Import features.
Context `{Unicode}.
Implicit Types (df g : DataFrame) (u : pystr).

Lemma lookup_zip_is_Some (names : list string) (vals : list pyfloat)
    (c : string) :
  c ∈ names → length names = length vals →
  is_Some ((list_to_map (zip names vals) : gmap string pyfloat) !! c).
Proof.
  intros Hc Hlen. apply not_eq_None_Some. intros Hnone.
  apply not_elem_of_list_to_map in Hnone. apply Hnone.
  rewrite fst_zip by lia. done.
Qed.

Lemma author_values_length df u :
  length (author_values df u) = length feature_names.
Proof. reflexivity. Qed.

Lemma author_cells_numeric df u (c : string) :
  c ∈ feature_names → ∃ q, author_cells df u !! c = Some (Num q).
Proof.
  intros Hc. unfold author_cells. rewrite lookup_fmap.
  destruct (lookup_zip_is_Some feature_names (author_values df u) c Hc)
    as [x ->]; [by rewrite author_values_length|].
  destruct (fill_is_num 0 x) as [q Hq]. exists q. simpl. by rewrite Hq.
Qed.

Lemma group_sort_values_length df u :
  length (group (sort_values df) u) = length (group df u).
Proof. unfold group. by rewrite sort_values_Permutation. Qed.

(** An author with a single message has no gap to average. *)
Lemma author_cells_single_message df u :
  length (group df u) = 1%nat →
  author_cells df u !! "avg_response_time_hours" = Some (Num 0).
Proof.
  intros Hone. rewrite <- group_sort_values_length in Hone.
  unfold author_cells, author_values.
  destruct (group (sort_values df) u) as [|m [|m' g]]; [done| |done].
  unfold size_agg.
  destruct (length_agg_shape (group df u)) as (a1 & a2 & a3 & ->).
  destruct (daily_agg_shape (group df u)) as [b1 ->].
  generalize (night_ratio df u). intros b3.
  destruct (emotional_agg_shape (group df u)) as (c1 & c2 & c3 & c4 & ->).
  destruct (link_agg_shape (group df u)) as (d1 & d2 & ->).
  generalize (Qnat (size (conversation_starts df) u)).
  generalize (Qnat (length (group df u))). intros x y.
  generalize (parser.timestamp m). intros t.
  vm_compute. reflexivity.
Qed.

Lemma feature_columns_eq df :
  pd.columns (extract_all_features df) = "user" :: feature_names.
Proof. reflexivity. Qed.

(** The one row of an author in the feature table. *)
Lemma author_row df u :
  u ∈ parser.user <$> df →
  filter (λ r, pd.r_user r = u) (pd.rows (extract_all_features df))
  = [pd.plain u (author_cells df u)].
Proof.
  intros Hu%elem_of_group_keys.
  rewrite (represents_matches _ _ _ u (NoDup_group_keys df)
             (represents_features df)).
  by rewrite decide_True.
Qed.

End feature_rows.

(** C4. For every author of the parsed messages the feature table has a row
    (exactly one) whose fifteen feature columns all hold a number: no cell is
    missing. An author with a single message has avg_response_time_hours 0.
    In an outer join followed by fillna(0), an author that the right table
    does not have gets 0 in the columns of the right table. *)
Theorem feature_rows_complete `{Unicode} (df : features.DataFrame)
    (u : pystr) :
  u ∈ parser.user <$> df →
  pd.columns (features.extract_all_features df)
  = "user" :: features.feature_names
  ∧ (∃ row,
       filter (λ r, pd.r_user r = u)
         (pd.rows (features.extract_all_features df)) = [row]
       ∧ (∀ c, c ∈ features.feature_names →
            ∃ q, pd.r_num row !! c = Some (Num q))
       ∧ (length (features.group df u) = 1%nat →
          pd.r_num row !! "avg_response_time_hours" = Some (Num 0)))
  ∧ (∀ (L R : pd.Frame) (KL KR : list pystr)
       (cL cR : pystr → gmap string pyfloat) (v : pystr),
       NoDup KR → pd.represents L KL cL → pd.represents R KR cR →
       v ∈ KL → v ∉ KR →
       ∃ row, row ∈ pd.rows (pd.fillna 0%Q (pd.merge_outer L R))
         ∧ pd.r_user row = v
         ∧ ∀ c, c ∈ pd.data_columns R → cL v !! c = None →
             pd.r_num row !! c = Some (Num 0)).
Proof.
  intros Hu. split; [apply feature_columns_eq|]. split.
  - exists (pd.plain u (features.author_cells df u)).
    split; [by apply author_row|]. split.
    + intros c Hc. by apply author_cells_numeric.
    + apply author_cells_single_message.
  - intros L R KL KR cL cR v Hnd HL HR Hv Hout.
    pose proof (represents_fillna 0%Q _ _ _
                  (represents_merge_outer L R KL KR cL cR Hnd HL HR)) as Hm.
    assert (Hin : v ∈ KL ++ filter (λ u, u ∉ KL) KR).
    { apply elem_of_app. by left. }
    pose proof (represents_row _ _ _ v Hm Hin) as Hrow.
    eexists. split; [exact Hrow|]. split; [reflexivity|].
    intros c Hc Hnone. simpl.
    rewrite (decide_True (P := v ∈ KL)) by done.
    rewrite (decide_False (P := v ∈ KR)) by done.
    rewrite lookup_fmap, lookup_union_r by done.
    by rewrite nan_cells_lookup.
Qed.

Lemma feature_rows_complete_witness :
  ∃ row,
    filter (λ r, pd.r_user r = lit "B")
      (pd.rows (features.extract_all_features sample.two_authors)) = [row]
    ∧ (∀ c, c ∈ features.feature_names →
         ∃ q, pd.r_num row !! c = Some (Num q))
    ∧ (length (features.group sample.two_authors (lit "B")) = 1%nat →
       pd.r_num row !! "avg_response_time_hours" = Some (Num 0)).
Proof.
  apply (feature_rows_complete sample.two_authors (lit "B")).
  apply list_elem_of_In. simpl. tauto.
Defined.

Section initiation.
Import features.
Implicit Types (df chron : DataFrame) (u : pystr).

Lemma diff_length (ts : list Z) : length (diff ts) = length ts.
Proof.
  destruct ts as [|t ts]; [done|]. unfold diff. cbn [length].
  rewrite length_zip_with. cbn [length]. lia.
Qed.

Lemma diff_lookup_S (ts : list Z) (j : nat) (before now : Z) :
  ts !! j = Some before → ts !! S j = Some now →
  diff ts !! S j = Some (Some (now - before)).
Proof.
  intros Hb Hn. destruct ts as [|t ts]; [done|]. unfold diff.
  rewrite lookup_cons_ne_0 by done. cbn [Nat.pred].
  rewrite lookup_zip_with, Hb. cbn [mbind option_bind].
  change (ts !! j) with ((t :: ts) !! S j). by rewrite Hn.
Qed.

Lemma is_conversation_start_length chron :
  length (is_conversation_start chron) = length chron.
Proof.
  unfold is_conversation_start.
  by rewrite length_imap, diff_length, length_fmap.
Qed.

(** The flag computed by the extractor is the initiation rule. *)
Lemma is_conversation_start_lookup chron (i : nat) :
  (i < length chron)%nat →
  is_conversation_start chron !! i = Some (initiates chron i).
Proof.
  intros Hi. unfold is_conversation_start. rewrite list_lookup_imap.
  destruct i as [|j].
  - destruct chron as [|m chron]; [simpl in Hi; lia|done].
  - destruct (lookup_lt_is_Some_2 chron j) as [before Hb]; [lia|].
    destruct (lookup_lt_is_Some_2 chron (S j)) as [now Hn]; [lia|].
    rewrite (diff_lookup_S _ j (parser.timestamp before)
               (parser.timestamp now))
      by (by rewrite list_lookup_fmap, ?Hb, ?Hn).
    simpl. rewrite Hb, Hn. by rewrite orb_false_r.
Qed.




End initiation.



(** The boundary case of the specification: A's three messages all start a
    conversation, B's second message does not. *)
Example initiation_ratio_boundary :
  sample.cell_of (features.extract_all_features sample.two_authors)
    (lit "A") "initiation_ratio" = [Some (Num (3 # 3))]
  ∧ sample.cell_of (features.extract_all_features sample.two_authors)
      (lit "B") "initiation_ratio" = [Some (Num (1 # 2))].
Proof. split; vm_compute; reflexivity. Qed.

(** ** clustering.py, profiling.py and main.py: the pipeline *)

Section result_facts.
Context {A B : Type}.
Implicit Types (f : A → result B) (l : list A) (k : list B).

Lemma mapM_Return f l k :
  mapM f l = Return k → Forall2 (λ x y, f x = Return y) l k.
Proof.
  revert k. induction l as [|x l IH]; intros k; simpl.
  - intros [= <-]. constructor.
  - destruct (f x) as [y|e] eqn:Ex; simpl; [|done].
    destruct (mapM f l) as [k'|e]; simpl; [|done].
    intros [= <-]. constructor; [done|]. by apply IH.
Qed.

Lemma mapM_total f l :
  Forall (λ x, ∃ y, f x = Return y) l → ∃ k, mapM f l = Return k.
Proof.
  induction 1 as [|x l [y Hy] _ [k Hk]]; simpl; [by eexists|].
  rewrite Hy. simpl. rewrite Hk. simpl. by eexists.
Qed.

End result_facts.

Section pipeline.
Context `{Unicode} `{Pandas} `{Sklearn}.
Implicit Types (t : pd.Frame) (r : pd.Row).

Lemma apply_str_column_Return (name : string) (f : pd.Row → result pystr)
    t t' :
  pd.apply_str_column name f t = Return t' →
  pd.columns t' = pd.with_column name (pd.columns t)
  ∧ Forall2 (λ r r', pd.same_numbers r r' ∧ pd.r_int r' = pd.r_int r)
      (pd.rows t) (pd.rows t').
Proof.
  unfold pd.apply_str_column.
  destruct (mapM _ (pd.rows t)) as [rows'|e] eqn:E; simpl; [|done].
  intros [= <-]. simpl. split; [done|].
  apply mapM_Return in E. eapply Forall2_impl; [exact E|].
  intros r r' Hr. simpl in Hr. destruct (f r); simpl in Hr; [|done].
  by injection Hr as <-.
Qed.

Lemma apply_str_column_total (name : string) (f : pd.Row → result pystr) t :
  Forall (λ r, ∃ v, f r = Return v) (pd.rows t) →
  ∃ t', pd.apply_str_column name f t = Return t'.
Proof.
  intros Hall. unfold pd.apply_str_column.
  destruct (mapM_total
    (λ r, v ← f r; mret {| pd.r_user := pd.r_user r; pd.r_num := pd.r_num r;
                           pd.r_int := pd.r_int r;
                           pd.r_str := <[name := v]> (pd.r_str r) |})
    (pd.rows t)) as [k Hk].
  - eapply Forall_impl; [exact Hall|]. intros r [v Hv]. simpl.
    rewrite Hv. simpl. by eexists.
  - rewrite Hk. simpl. by eexists.
Qed.

Lemma set_int_column_Return (name : string) (values : list Z) t t' :
  pd.set_int_column name values t = Return t' →
  pd.columns t' = pd.with_column name (pd.columns t)
  ∧ Forall2 (λ r r', pd.same_numbers r r' ∧ is_Some (pd.r_int r' !! name))
      (pd.rows t) (pd.rows t').
Proof.
  unfold pd.set_int_column. case_decide as Hlen; [|done].
  intros [= <-]. simpl. split; [done|].
  revert values Hlen. induction (pd.rows t) as [|r rs IH];
    intros [|v values] Hlen; simplify_eq/=; constructor.
  - split; [done|]. simpl. rewrite lookup_insert_eq. by eexists.
  - by apply IH.
Qed.

(** The table handed to the clustering has one line per author. *)
Lemma feature_rows_length (df : features.DataFrame) :
  length (pd.rows (features.extract_all_features df))
  = length (remove_dups (parser.user <$> df)).
Proof.
  rewrite (represents_length _ _ _ (represents_features df)).
  unfold features.group_keys. by rewrite merge_sort_Permutation.
Qed.

Lemma prepare_features (df : features.DataFrame) :
  ∃ X, clustering.prepare_features_for_clustering
         (features.extract_all_features df)
       = Return (StandardScaler_fit_transform X)
     ∧ length X = length (remove_dups (parser.user <$> df)).
Proof.
  unfold clustering.prepare_features_for_clustering.
  rewrite feature_columns_eq.
  eexists. split; [reflexivity|].
  by rewrite length_fmap, feature_rows_length.
Qed.

Lemma assign_clusters_Return (df : features.DataFrame)
    (n_clusters random_state : Z) t' :
  clustering.assign_clusters (features.extract_all_features df)
    n_clusters random_state = Return t' →
  pd.columns t' = "user" :: features.feature_names ++ ["cluster"]
  ∧ Forall2 (λ r r', pd.same_numbers r r' ∧ is_Some (pd.r_int r' !! "cluster"))
      (pd.rows (features.extract_all_features df)) (pd.rows t').
Proof.
  unfold clustering.assign_clusters.
  destruct (prepare_features df) as (X & -> & _). simpl.
  destruct (clustering.perform_clustering _ _ _) as [labels|e]; simpl;
    [|done].
  intros (Hcols & Hrows)%set_int_column_Return. split; [|done].
  rewrite Hcols. reflexivity.
Qed.

(** More clusters than authors: the exception of the estimator goes up
    unchanged. *)
Lemma assign_clusters_Raise (df : features.DataFrame)
    (n_clusters random_state : Z) :
  (∀ X, length (StandardScaler_fit_transform X) = length X) →
  (∀ k seed X, Z.of_nat (length X) < k →
     ∃ e, KMeans_fit_predict k seed X = Raise e) →
  Z.of_nat (length (remove_dups (parser.user <$> df))) < n_clusters →
  ∃ X e, length X = length (remove_dups (parser.user <$> df))
    ∧ KMeans_fit_predict n_clusters random_state X = Raise e
    ∧ clustering.assign_clusters (features.extract_all_features df)
        n_clusters random_state = Raise e.
Proof.
  intros Hscale Hkmeans Hk.
  destruct (prepare_features df) as (X & HX & Hlen).
  destruct (Hkmeans n_clusters random_state (StandardScaler_fit_transform X))
    as [e He]; [rewrite Hscale; lia|].
  exists (StandardScaler_fit_transform X), e.
  split; [by rewrite Hscale|]. split; [done|].
  unfold clustering.assign_clusters, clustering.perform_clustering.
  rewrite HX. simpl. by rewrite He.
Qed.

End pipeline.

(** C9. With more clusters requested than there are distinct authors, the
    clustering step fails and the whole analysis fails with the very
    exception that KMeans raises for a sample count below the cluster count;
    no table is returned, the cluster count is not reduced. The two facts
    about scikit-learn used are that the scaler keeps the number of rows and
    that KMeans refuses fewer samples than clusters. *)
Theorem too_many_clusters_fails `{Unicode} `{Pandas} `{Sklearn}
    (file_input : pystr) (df : features.DataFrame)
    (n_clusters random_state : Z) (cluster_names : option (gmap Z pystr)) :
  (∀ X, length (StandardScaler_fit_transform X) = length X) →
  (∀ k seed X, Z.of_nat (length X) < k →
     ∃ e, KMeans_fit_predict k seed X = Raise e) →
  parser.parse_whatsapp_chat file_input = Return df →
  Z.of_nat (length (remove_dups (parser.user <$> df))) < n_clusters →
  ∃ X e,
    length X = length (remove_dups (parser.user <$> df))
    ∧ KMeans_fit_predict n_clusters random_state X = Raise e
    ∧ clustering.assign_clusters (features.extract_all_features df)
        n_clusters random_state = Raise e
    ∧ main.analyze_chat_streamlit file_input n_clusters random_state
        cluster_names = Raise e.
Proof.
  intros Hscale Hkmeans Hparse Hk.
  destruct (assign_clusters_Raise df n_clusters random_state Hscale Hkmeans Hk)
    as (X & e & Hlen & He & Hassign).
  exists X, e. do 3 (split; [done|]).
  unfold main.analyze_chat_streamlit. rewrite Hparse. simpl.
  by rewrite Hassign.
Qed.

Lemma too_many_clusters_fails_witness :
  ∃ X e,
    length X = 1%nat
    ∧ KMeans_fit_predict 2 42 X = Raise e
    ∧ clustering.assign_clusters
        (features.extract_all_features
           [ {| parser.timestamp := 1705055400; parser.user := lit "Alice";
                parser.message := lit "hello" |} ]) 2 42 = Raise e
    ∧ main.analyze_chat_streamlit sample.one_author 2 42 None = Raise e.
Proof.
  apply (too_many_clusters_fails sample.one_author
           [ {| parser.timestamp := 1705055400; parser.user := lit "Alice";
                parser.message := lit "hello" |} ] 2 42 None).
  - reflexivity.
  - intros k seed X Hlt. exists sample.too_few_samples. simpl.
    destruct (Z.ltb_spec (Z.of_nat (length X)) k); [reflexivity | lia].
  - reflexivity.
  - reflexivity.
Defined.

Lemma Q_le_iff (x y : Q) : Q_le x y ↔ (x <= y)%Q.
Proof. unfold Q_le. apply Qle_bool_iff. Qed.

#[local] Instance desc_by_total (name : string) : Total (pd.desc_by name).
Proof.
  intros a b. unfold pd.desc_by.
  destruct (pd.cell a name) as [x|], (pd.cell b name) as [y|]; auto.
  rewrite !Q_le_iff. destruct (Qlt_le_dec x y); [right|left]; [|done].
  by apply Qlt_le_weak.
Qed.

#[local] Instance desc_by_trans (name : string) : Transitive (pd.desc_by name).
Proof.
  intros a b c. unfold pd.desc_by.
  destruct (pd.cell a name) as [x|], (pd.cell b name) as [y|],
    (pd.cell c name) as [z|]; try done.
  rewrite !Q_le_iff. intros ? ?. by apply Qle_trans with y.
Qed.

Lemma sort_values_desc_sorted (name : string) (t : pd.Frame) :
  StronglySorted (pd.desc_by name) (pd.rows (pd.sort_values_desc name t))
  ∧ pd.rows (pd.sort_values_desc name t) ≡ₚ pd.rows t.
Proof.
  split; [|apply merge_sort_Permutation].
  apply Sorted_StronglySorted; [apply _|].
  apply (Sorted_merge_sort (pd.desc_by name)).
Qed.


Section report.
Context `{Unicode} `{Pandas} `{Sklearn}.

Lemma generate_profiles_Return (t t' : pd.Frame) :
  profiling.generate_profiles t = Return t' →
  pd.columns t'
  = pd.with_column "behavior_profile"
      (pd.with_column "influence_score" (pd.columns t))
  ∧ Forall2 (λ r r',
      pd.r_user r' = pd.r_user r
      ∧ pd.r_num r'
        = <["influence_score" :=
              profiling.calculate_influence_score (pd.r_num r)]> (pd.r_num r))
      (pd.rows t) (pd.rows t').
Proof.
  unfold profiling.generate_profiles.
  intros (Hcols & Hrows)%apply_str_column_Return. split; [done|].
  simpl in Hrows. apply Forall2_fmap_l in Hrows.
  eapply Forall2_impl; [exact Hrows|].
  by intros r r' [[-> ->] _].
Qed.

(** The score of an author's row is a number between 0 and 1. *)
Lemma author_score (df : features.DataFrame) (u : pystr) :
  ∃ s, profiling.calculate_influence_score (features.author_cells df u)
       = Num s ∧ (0 <= s <= 1)%Q.
Proof.
  destruct (author_cells_numeric df u "messages_per_day") as [m Hm].
  { apply list_elem_of_In. simpl. tauto. }
  destruct (author_cells_numeric df u "avg_response_time_hours") as [r Hr].
  { apply list_elem_of_In. simpl. tauto. }
  destruct (author_cells_numeric df u "initiation_ratio") as [i Hi].
  { apply list_elem_of_In. simpl. tauto. }
  unfold profiling.calculate_influence_score.
  rewrite (get_Some _ _ _ _ Hm), (get_Some _ _ _ _ Hr), (get_Some _ _ _ _ Hi).
  destruct (weighted_sum_Num m r i) as (w & -> & _).
  destruct (clamp_Num w) as (s & -> & _ & Hb).
  by exists s.
Qed.


End report.





(** * Further properties of the modules *)

(** ** Sums and means of rationals *)

Lemma Qnat_nonneg (n : nat) : (0 <= features.Qnat n)%Q.
Proof.
  unfold features.Qnat. change 0%Q with (inject_Z 0).
  rewrite <- Zle_Qle. lia.
Qed.

Lemma Qnat_le (n m : nat) : (n ≤ m)%nat → (features.Qnat n <= features.Qnat m)%Q.
Proof. intros Hle. unfold features.Qnat. rewrite <- Zle_Qle. lia. Qed.

Lemma Qnat_pos (n : nat) : (0 < n)%nat → (0 < features.Qnat n)%Q.
Proof.
  intros Hpos. unfold features.Qnat. change 0%Q with (inject_Z 0).
  rewrite <- Zlt_Qlt. lia.
Qed.

Lemma Qnat_S (n : nat) : (features.Qnat (S n) == features.Qnat n + 1)%Q.
Proof.
  unfold features.Qnat. rewrite Nat2Z.inj_succ, <- Z.add_1_r.
  by rewrite inject_Z_plus.
Qed.

Lemma Qnat_nonzero (n : nat) :
  (0 < n)%nat → Qeq_bool (features.Qnat n) 0 = false.
Proof.
  intros Hpos. apply not_true_iff_false. intros E%Qeq_bool_iff.
  pose proof (Qnat_pos n Hpos) as Hlt. rewrite E in Hlt.
  by apply Qlt_irrefl in Hlt.
Qed.

Lemma fsum_cons (x : Q) (l : list Q) : fsum (x :: l) = (x + fsum l)%Q.
Proof. reflexivity. Qed.

(** The sum of a column lies between the bounds of its entries, times the
    number of entries. *)
Lemma fsum_bounds (a b : Q) (l : list Q) :
  Forall (λ x, (a <= x <= b)%Q) l →
  (features.Qnat (length l) * a <= fsum l
   ∧ fsum l <= features.Qnat (length l) * b)%Q.
Proof.
  induction 1 as [|x l [Hax Hxb] _ [IH1 IH2]].
  - cbn [length]. change (features.Qnat 0) with 0%Q.
    change (fsum []) with 0%Q. lra.
  - rewrite fsum_cons. cbn [length]. rewrite Qnat_S. split; lra.
Qed.

Lemma mean_bounds (a b : Q) (l : list Q) :
  l ≠ [] → Forall (λ x, (a <= x <= b)%Q) l →
  ∃ q, mean l = Num q ∧ (a <= q <= b)%Q.
Proof.
  intros Hne Hall. destruct l as [|x l]; [done|].
  eexists. split; [reflexivity|].
  destruct (fsum_bounds a b (x :: l) Hall) as [H1 H2].
  assert (Hpos : (0 < features.Qnat (length (x :: l)))%Q).
  { apply Qnat_pos. simpl. lia. }
  change (inject_Z (Z.of_nat (length (x :: l))))
    with (features.Qnat (length (x :: l))).
  split.
  - apply Qle_shift_div_l; [done|]. lra.
  - apply Qle_shift_div_r; [done|]. lra.
Qed.

(** The sum of 0/1 flags counts the flags that are set. *)
Lemma fsum_flags {A} (f : A → bool) (l : list A) :
  (fsum (features.bool_Q ∘ f <$> l)
   == features.Qnat (length (filter (λ x, f x = true) l)))%Q.
Proof.
  induction l as [|x l IH]; [reflexivity|].
  rewrite fmap_cons, fsum_cons, IH, filter_cons. unfold compose at 1.
  destruct (f x) eqn:E; cbn [features.bool_Q].
  - rewrite decide_True by done. cbn [length]. rewrite Qnat_S. ring.
  - rewrite decide_False by done. ring.
Qed.

Lemma length_filter_le {A} (P : A → Prop) `{∀ x, Decision (P x)}
    (l : list A) : (length (filter P l) ≤ length l)%nat.
Proof. apply length_filter. Qed.

(** ** features.py: the cells of a feature row *)

Section feature_cells.
Import features.
Context `{Unicode}.
Implicit Types (df g : DataFrame) (u : pystr).

(** Every row of the feature table is the row of one author. *)
Lemma feature_row_inv df (row : pd.Row) :
  row ∈ pd.rows (extract_all_features df) →
  ∃ u, u ∈ group_keys df ∧ row = pd.plain u (author_cells df u).
Proof. apply represents_rows, represents_features. Qed.

Lemma feature_names_NoDup : NoDup feature_names.
Proof. apply (bool_decide_unpack _). by vm_compute. Qed.

Lemma author_cells_lookup df u (i : nat) (c : string) (v : pyfloat) :
  feature_names !! i = Some c → author_values df u !! i = Some v →
  author_cells df u !! c = Some (pd.fill 0%Q v).
Proof.
  intros Hc Hv. unfold author_cells. rewrite lookup_fmap.
  assert (E : (list_to_map (zip feature_names (author_values df u))
                 : gmap string pyfloat) !! c = Some v); [|by rewrite E].
  apply elem_of_list_to_map.
  - rewrite fst_zip; [apply feature_names_NoDup|].
    by rewrite author_values_length.
  - apply list_elem_of_lookup. exists i.
    rewrite lookup_zip_with, Hc. simpl. by rewrite Hv.
Qed.

Lemma group_size_pos df u : u ∈ group_keys df → (0 < length (group df u))%nat.
Proof. apply group_nonempty. Qed.

Lemma filter_group_comm (P : parser.Message → Prop)
    `{∀ m, Decision (P m)} df u :
  group (filter P df) u = filter P (group df u).
Proof.
  unfold group. rewrite !list_filter_filter.
  apply list_filter_iff. intros m. tauto.
Qed.

End feature_cells.

(** X1. A message counts as night activity exactly when its time of day is
    before 06:00 or from 22:00 on: 22:00:00 counts, 05:59:59 counts, 06:00:00
    does not; and the hour read from a timestamp is always between 0 and
    23, also before 1970. *)
Theorem night_hours_boundary (m : parser.Message) :
  0 ≤ features.hour (parser.timestamp m) ≤ 23
  ∧ (features.is_night m = true
     ↔ parser.timestamp m mod 86400 < 21600
       ∨ 79200 ≤ parser.timestamp m mod 86400).
Proof.
  unfold features.is_night, features.hour.
  generalize (parser.timestamp m). intros ts.
  pose proof (Z.mod_pos_bound ts 86400 ltac:(lia)) as Hs.
  rewrite orb_true_iff, Z.leb_le, Z.ltb_lt.
  split; [|split; intros [?|?]]; Z.div_mod_to_equations; lia.
Qed.

(** The feature table of the two-author sample has the row of B. *)
Lemma sample_row_B_in_table :
  sample_row_B ∈ pd.rows (features.extract_all_features sample.two_authors).
Proof.
  apply (represents_row _ _ _ _ (represents_features sample.two_authors)).
  apply elem_of_group_keys, list_elem_of_In. vm_compute. tauto.
Qed.

(** X2. In every row of the feature table, night_activity_ratio is the
    number of the author's night messages divided by the number of the
    author's messages - 0 when there is none, through the NaN of the aligned
    division and fillna(0) - and lies between 0 and 1. *)
Theorem night_activity_ratio_value `{Unicode} (df : features.DataFrame)
    (row : pd.Row) :
  row ∈ pd.rows (features.extract_all_features df) →
  ∃ q,
    pd.r_num row !! "night_activity_ratio" = Some (Num q)
    ∧ (q == features.Qnat
              (length (filter (λ m, features.is_night m = true)
                         (features.group df (pd.r_user row))))
            / features.Qnat (length (features.group df (pd.r_user row))))%Q
    ∧ (0 <= q <= 1)%Q.
Proof.
  intros (u & Hu & ->)%feature_row_inv. cbn [pd.r_num pd.r_user pd.plain].
  rewrite (author_cells_lookup df u 5 "night_activity_ratio"
             (pd.fill 0%Q (features.night_ratio df u)))
    by reflexivity.
  pose proof (group_size_pos df u Hu) as Hpos.
  pose proof (Qnat_pos _ Hpos) as HposQ.
  unfold features.night_ratio, features.size.
  rewrite (filter_group_comm (λ m, features.is_night m = true)).
  set (night := filter _ (features.group df u)).
  assert (Hle : (features.Qnat (length night)
                 <= features.Qnat (length (features.group df u)))%Q).
  { apply Qnat_le, length_filter. }
  pose proof (Qnat_nonneg (length night)) as Hnn.
  assert (Hbounds : (0 <= features.Qnat (length night)
                          / features.Qnat (length (features.group df u))
                     <= 1)%Q).
  { split.
    - apply Qle_shift_div_l; [done|]. lra.
    - apply Qle_shift_div_r; [done|]. lra. }
  destruct (decide (u ∈ features.group_keys _)) as [Hin|Hout].
  - cbn [fdiv]. rewrite (Qnat_nonzero _ Hpos). cbn [pd.fill].
    eexists. split; [reflexivity|]. split; [reflexivity|done].
  - cbn [pd.fill]. exists 0%Q. split; [done|].
    assert (E : night = []).
    { unfold night. rewrite <- (filter_group_comm
        (λ m, features.is_night m = true)). by apply group_empty. }
    rewrite E. cbn [length]. change (features.Qnat 0) with 0%Q.
    split; [|lra]. unfold Qdiv. ring.
Qed.

Lemma night_activity_ratio_value_witness :
  ∃ q, pd.r_num sample_row_B !! "night_activity_ratio" = Some (Num q)
       ∧ (0 <= q <= 1)%Q.
Proof.
  destruct (night_activity_ratio_value sample.two_authors sample_row_B
              sample_row_B_in_table) as (q & Hq & _ & Hbounds).
  by exists q.
Defined.

Lemma count_other_keys {A K} `{EqDecision K} (f : A → K) (keys : list K)
    (x : A) (l : list A) :
  f x ∉ keys →
  sum_list_with (λ k, length (filter (λ y, f y = k) (x :: l))) keys
  = sum_list_with (λ k, length (filter (λ y, f y = k) l)) keys.
Proof.
  induction keys as [|k keys IH]; [done|]. intros Hout.
  cbn [sum_list_with]. rewrite filter_cons, decide_False.
  - f_equal. apply IH. intros Hin. apply Hout. by right.
  - intros E. apply Hout. rewrite E. left.
Qed.

(** Counting by key: the groups of a list by a key partition it. *)
Lemma count_partition {A K} `{EqDecision K} (f : A → K) (keys : list K)
    (l : list A) :
  NoDup keys → (∀ x, x ∈ l → f x ∈ keys) →
  sum_list_with (λ k, length (filter (λ x, f x = k) l)) keys = length l.
Proof.
  intros Hnd. induction l as [|x l IH]; intros Hkeys.
  - clear. induction keys as [|k keys IH]; [done|].
    cbn [sum_list_with]. rewrite IH. reflexivity.
  - cbn [length]. rewrite <- IH by (intros y Hy; apply Hkeys; by right).
    assert (Hx : f x ∈ keys) by (apply Hkeys; left).
    clear IH Hkeys. induction Hnd as [|k keys Hk Hnd IHk].
    + by apply elem_of_nil in Hx.
    + cbn [sum_list_with]. rewrite filter_cons.
      destruct (decide (f x = k)) as [Ek|Ek].
      * cbn [length]. rewrite count_other_keys by (by rewrite Ek). lia.
      * apply elem_of_cons in Hx as [Hx|Hx]; [done|].
        rewrite (IHk Hx). lia.
Qed.

Lemma fsum_Qnat {A} (f : A → nat) (l : list A) :
  (fsum (features.Qnat ∘ f <$> l) == features.Qnat (sum_list_with f l))%Q.
Proof.
  induction l as [|x l IH]; [reflexivity|].
  rewrite fmap_cons, fsum_cons, IH. cbn [sum_list_with]. unfold compose.
  unfold features.Qnat. rewrite Nat2Z.inj_add, inject_Z_plus. ring.
Qed.

Section feature_bounds.
Import features.
Context `{Unicode}.
Implicit Types (df g : DataFrame) (u : pystr).

Lemma uppercase_ratio_of_bounds (x : pystr) :
  (0 <= uppercase_ratio_of x <= 1)%Q.
Proof.
  unfold uppercase_ratio_of.
  assert (Hpos : (0 < Qnat (Nat.max (length x) 1))%Q) by (apply Qnat_pos; lia).
  pose proof (Qnat_nonneg (length (filter (λ c, isupper c = true) x))).
  assert ((Qnat (length (filter (λ c, isupper c = true) x))
           <= Qnat (Nat.max (length x) 1))%Q).
  { apply Qnat_le. pose proof (length_filter (λ c, isupper c = true) x). lia. }
  split.
  - apply Qle_shift_div_l; [done|]. lra.
  - apply Qle_shift_div_r; [done|]. lra.
Qed.

Lemma mean_nonneg (l : list Q) :
  l ≠ [] → Forall (λ x, (0 <= x)%Q) l → ∃ q, mean l = Num q ∧ (0 <= q)%Q.
Proof.
  intros Hne Hall. destruct l as [|x l]; [done|].
  eexists. split; [reflexivity|].
  change (inject_Z (Z.of_nat (length (x :: l)))) with (Qnat (length (x :: l))).
  apply Qle_shift_div_l; [apply Qnat_pos; simpl; lia|].
  assert (Hs : (0 <= fsum (x :: l))%Q); [|lra].
  clear Hne. induction Hall as [|y k Hy _ IH]; [done|].
  rewrite fsum_cons. lra.
Qed.

Lemma group_texts_nonempty {B} (f : pystr → B) df u :
  u ∈ group_keys df → f <$> (parser.message <$> group df u) ≠ [].
Proof.
  intros Hu%group_nonempty. destruct (group df u); [simpl in Hu; lia|done].
Qed.

End feature_bounds.

(** X3. In every row of the feature table, total_links is the number of the
    author's messages in which the URL pattern is found, link_sharing_ratio is
    that number divided by the number of the author's messages, and the ratio
    lies between 0 and 1. *)
Theorem link_sharing_counts `{Unicode} (df : features.DataFrame)
    (row : pd.Row) :
  row ∈ pd.rows (features.extract_all_features df) →
  let g := features.group df (pd.r_user row) in
  let links :=
    filter (λ m, Re.search features.url_pattern (parser.message m) = true) g in
  ∃ total ratio,
    pd.r_num row !! "total_links" = Some (Num total)
    ∧ pd.r_num row !! "link_sharing_ratio" = Some (Num ratio)
    ∧ (total == features.Qnat (length links))%Q
    ∧ (ratio == features.Qnat (length links) / features.Qnat (length g))%Q
    ∧ (0 <= ratio <= 1)%Q.
Proof.
  intros (u & Hu & ->)%feature_row_inv. cbn [pd.r_num pd.r_user pd.plain].
  set (g := features.group df u). set (links := filter _ g).
  pose proof (group_size_pos df u Hu) as Hpos. fold g in Hpos.
  set (flags := features.has_link <$> (parser.message <$> g)).
  rewrite (author_cells_lookup df u 10 "total_links" (Num (fsum flags)))
    by reflexivity.
  rewrite (author_cells_lookup df u 11 "link_sharing_ratio" (mean flags))
    by reflexivity.
  assert (Hsum : (fsum flags == features.Qnat (length links))%Q).
  { unfold flags, features.has_link. rewrite <- list_fmap_compose.
    apply (fsum_flags (λ m, Re.search features.url_pattern (parser.message m))). }
  assert (Hlen : length flags = length g).
  { unfold flags. by rewrite !length_fmap. }
  assert (Hmean : mean flags = Num (fsum flags / features.Qnat (length g))).
  { rewrite <- Hlen. destruct flags; [simpl in Hlen; lia|done]. }
  rewrite Hmean. cbn [pd.fill].
  pose proof (Qnat_pos _ Hpos) as HposQ.
  pose proof (Qnat_nonneg (length links)) as Hnn.
  assert (Hle : (features.Qnat (length links) <= features.Qnat (length g))%Q).
  { apply Qnat_le, length_filter. }
  do 2 eexists. split; [reflexivity|]. split; [reflexivity|].
  split; [exact Hsum|]. split; [by rewrite Hsum|]. rewrite Hsum. split.
  - apply Qle_shift_div_l; [done|]. lra.
  - apply Qle_shift_div_r; [done|]. lra.
Qed.

Lemma link_sharing_counts_witness :
  ∃ total ratio,
    pd.r_num sample_row_B !! "total_links" = Some (Num total)
    ∧ pd.r_num sample_row_B !! "link_sharing_ratio" = Some (Num ratio)
    ∧ (0 <= ratio <= 1)%Q.
Proof.
  destruct (link_sharing_counts sample.two_authors sample_row_B
              sample_row_B_in_table) as (total & ratio & Ht & Hr & _ & _ & Hb).
  by exists total, ratio.
Defined.

(** X4. In every row of the feature table the three emotional means
    (exclamation marks, question marks, emoji runs per message) are
    non-negative and uppercase_ratio lies between 0 and 1 - also for an author
    whose messages are all empty, since the ratio of a message divides by
    max(len, 1). *)
Theorem emotional_features_bounds `{Unicode} (df : features.DataFrame)
    (row : pd.Row) :
  row ∈ pd.rows (features.extract_all_features df) →
  ∃ e q j r,
    pd.r_num row !! "avg_exclamations" = Some (Num e)
    ∧ pd.r_num row !! "avg_questions" = Some (Num q)
    ∧ pd.r_num row !! "avg_emojis" = Some (Num j)
    ∧ pd.r_num row !! "uppercase_ratio" = Some (Num r)
    ∧ (0 <= e)%Q ∧ (0 <= q)%Q ∧ (0 <= j)%Q ∧ (0 <= r <= 1)%Q.
Proof.
  intros (u & Hu & ->)%feature_row_inv. cbn [pd.r_num pd.plain].
  set (texts := parser.message <$> features.group df u).
  rewrite (author_cells_lookup df u 6 "avg_exclamations"
             (mean (features.exclamation_count <$> texts))) by reflexivity.
  rewrite (author_cells_lookup df u 7 "avg_questions"
             (mean (features.question_count <$> texts))) by reflexivity.
  rewrite (author_cells_lookup df u 8 "avg_emojis"
             (mean (features.emoji_count <$> texts))) by reflexivity.
  rewrite (author_cells_lookup df u 9 "uppercase_ratio"
             (mean (features.uppercase_ratio_of <$> texts))) by reflexivity.
  destruct (mean_nonneg (features.exclamation_count <$> texts))
    as (e & -> & He); [by apply group_texts_nonempty| |].
  { apply Forall_fmap, Forall_true. intros x. apply Qnat_nonneg. }
  destruct (mean_nonneg (features.question_count <$> texts))
    as (q & -> & Hq); [by apply group_texts_nonempty| |].
  { apply Forall_fmap, Forall_true. intros x. apply Qnat_nonneg. }
  destruct (mean_nonneg (features.emoji_count <$> texts))
    as (j & -> & Hj); [by apply group_texts_nonempty| |].
  { apply Forall_fmap, Forall_true. intros x. apply Qnat_nonneg. }
  destruct (mean_bounds 0 1 (features.uppercase_ratio_of <$> texts))
    as (r & -> & Hr); [by apply group_texts_nonempty| |].
  { apply Forall_fmap, Forall_true. intros x. apply uppercase_ratio_of_bounds. }
  exists e, q, j, r. cbn [pd.fill]. tauto.
Qed.

Lemma emotional_features_bounds_witness :
  ∃ r, pd.r_num sample_row_B !! "uppercase_ratio" = Some (Num r)
       ∧ (0 <= r <= 1)%Q.
Proof.
  destruct (emotional_features_bounds sample.two_authors sample_row_B
              sample_row_B_in_table)
    as (e & q & j & r & _ & _ & _ & Hr & _ & _ & _ & Hb).
  by exists r.
Defined.

Lemma remove_dups_length {A} `{EqDecision A} (l : list A) :
  (length (remove_dups l) ≤ length l)%nat.
Proof.
  induction l as [|x l IH]; [done|]. simpl.
  destruct (decide_rel _ x l); simpl; lia.
Qed.

Section temporal_facts.
Import features.
Implicit Types (df g : DataFrame) (u : pystr).

(** The calendar days on which a group wrote, and the messages of a day. *)
Lemma daily_agg_value g :
  g ≠ [] →
  let days := merge_sort Z.le (remove_dups (date ∘ parser.timestamp <$> g)) in
  ∃ q, daily_agg g = [Num q]
    ∧ (q == Qnat (length g) / Qnat (length days))%Q
    ∧ (0 < length days ≤ length g)%nat.
Proof.
  intros Hne days.
  assert (Hnd : NoDup days).
  { unfold days. rewrite merge_sort_Permutation. apply NoDup_remove_dups. }
  assert (Hin : ∀ m, m ∈ g → date (parser.timestamp m) ∈ days).
  { intros m Hm. unfold days.
    rewrite merge_sort_Permutation, elem_of_remove_dups.
    by apply (list_elem_of_fmap_2 (date ∘ parser.timestamp)). }
  pose proof (count_partition (λ m, date (parser.timestamp m)) days g Hnd Hin)
    as Hpart.
  assert (Hdays : (0 < length days)%nat).
  { destruct g as [|m g]; [done|].
    assert (Hm : date (parser.timestamp m) ∈ days) by (apply Hin; left).
    destruct days; [by apply elem_of_nil in Hm|simpl; lia]. }
  assert (Hle : (length days ≤ length g)%nat).
  { unfold days. rewrite merge_sort_Permutation.
    etrans; [apply remove_dups_length|]. by rewrite length_fmap. }
  unfold daily_agg. fold days.
  set (counts := (λ d, Qnat (length (filter (λ m, date (parser.timestamp m) = d)
                                       g))) <$> days).
  assert (Hlen : length counts = length days) by apply length_fmap.
  assert (Hsum : (fsum counts == Qnat (length g))%Q).
  { unfold counts. rewrite <- Hpart.
    apply (fsum_Qnat (λ d, length (filter (λ m, date (parser.timestamp m) = d)
                                     g)) days). }
  exists (fsum counts / Qnat (length days))%Q. split.
  - rewrite <- Hlen. destruct counts; [simpl in Hlen; lia|done].
  - split; [by rewrite Hsum|lia].
Qed.

End temporal_facts.

(** X5. In every row of the feature table, messages_per_day is the number of
    the author's messages divided by the number of distinct calendar days on
    which the author wrote; it is at least 1 and at most total_messages. *)
Theorem messages_per_day_value `{Unicode} (df : features.DataFrame)
    (row : pd.Row) :
  row ∈ pd.rows (features.extract_all_features df) →
  let g := features.group df (pd.r_user row) in
  let days :=
    remove_dups (features.date ∘ parser.timestamp <$> g) in
  ∃ q,
    pd.r_num row !! "messages_per_day" = Some (Num q)
    ∧ pd.r_num row !! "total_messages"
      = Some (Num (features.Qnat (length g)))
    ∧ (q == features.Qnat (length g) / features.Qnat (length days))%Q
    ∧ (1 <= q <= features.Qnat (length g))%Q.
Proof.
  intros (u & Hu & ->)%feature_row_inv. cbn [pd.r_num pd.r_user pd.plain].
  set (g := features.group df u).
  pose proof (group_size_pos df u Hu) as Hpos. fold g in Hpos.
  assert (Hne : g ≠ []) by (destruct g; [simpl in Hpos; lia|done]).
  destruct (daily_agg_value g Hne) as (q & Hq & Hval & Hd1 & Hd2).
  rewrite merge_sort_Permutation in Hval, Hd1, Hd2.
  assert (Hv : features.author_values df u !! 3%nat = Some (Num q)).
  { change (features.daily_agg g !! 0%nat = Some (Num q)). by rewrite Hq. }
  rewrite (author_cells_lookup df u 3 "messages_per_day" (Num q) eq_refl Hv).
  rewrite (author_cells_lookup df u 12 "total_messages"
             (Num (features.Qnat (length g)))) by reflexivity.
  exists q. cbn [pd.fill]. split; [done|]. split; [done|].
  split; [exact Hval|]. rewrite Hval.
  set (days := remove_dups _) in *.
  pose proof (Qnat_pos _ Hd1) as HposD.
  pose proof (Qnat_le _ _ Hd2) as HleD.
  assert (H1 : (1 <= features.Qnat (length days))%Q).
  { change 1%Q with (features.Qnat 1). apply Qnat_le. lia. }
  pose proof (Qnat_nonneg (length g)) as Hnn.
  split.
  - apply Qle_shift_div_l; [done|]. lra.
  - apply Qle_shift_div_r; [done|]. nra.
Qed.

Lemma messages_per_day_value_witness :
  ∃ q, pd.r_num sample_row_B !! "messages_per_day" = Some (Num q)
       ∧ (1 <= q <= 2)%Q.
Proof.
  destruct (messages_per_day_value sample.two_authors sample_row_B
              sample_row_B_in_table) as (q & Hq & _ & _ & Hb).
  by exists q.
Defined.

Lemma StronglySorted_filter {A} (R : relation A) (P : A → Prop)
    `{∀ x, Decision (P x)} (l : list A) :
  StronglySorted R l → StronglySorted R (filter P l).
Proof.
  induction 1 as [|x l Hl IH Hx]; [constructor|]. rewrite filter_cons.
  destruct (decide (P x)); [|done]. constructor; [done|].
  apply Forall_forall. intros y [_ Hy]%list_elem_of_filter.
  rewrite Forall_forall in Hx. by apply Hx.
Qed.

Section response_facts.
Import features.
Implicit Types (df g : DataFrame) (u : pystr) (ts : list Z).

Lemma dropna_diff (t : Z) ts :
  dropna (diff (t :: ts)) = zip_with (λ before now : Z, (now - before)%Z) (t :: ts) ts.
Proof.
  unfold diff, dropna. cbn [omap list_omap]. revert t.
  induction ts as [|t' ts IH]; intros t; [done|].
  cbn [zip_with omap list_omap]. cbn [id]. f_equal. apply IH.
Qed.

(** The gaps between consecutive entries add up to the span. *)
Lemma gaps_telescope (t : Z) ts :
  (fsum (inject_Z <$> zip_with (λ before now : Z, (now - before)%Z) (t :: ts) ts)
   == inject_Z (default t (last ts) - t)%Z)%Q.
Proof.
  revert t. induction ts as [|t' ts IH]; intros t.
  - simpl. rewrite Z.sub_diag. reflexivity.
  - pose proof (IH t') as IH'. revert IH'.
    set (f := λ before now : Z, (now - before)%Z).
    change (zip_with f (t :: t' :: ts) (t' :: ts))
      with ((t' - t)%Z :: zip_with f (t' :: ts) ts).
    generalize (zip_with f (t' :: ts) ts). intros gaps IH'.
    rewrite fmap_cons, fsum_cons.
    replace (default t (last (t' :: ts))) with (default t' (last ts)).
    + unfold Z.sub in *. rewrite !inject_Z_plus, !inject_Z_opp in *. lra.
    + destruct ts as [|t'' ts]; [reflexivity|]. rewrite last_cons_cons.
      destruct (last_is_Some (t'' :: ts)) as [_ [z ->]]; done.
Qed.

Lemma gaps_length (t : Z) ts :
  length (zip_with (λ before now : Z, (now - before)%Z) (t :: ts) ts) = length ts.
Proof. rewrite length_zip_with. cbn [length]. lia. Qed.

(** The mean gap of a chronological group with at least two messages. *)
Lemma response_agg_value (a : parser.Message) (rest : DataFrame) :
  rest ≠ [] →
  ∃ q, response_agg (a :: rest) = [Num q]
    ∧ (q == inject_Z (default (parser.timestamp a)
                        (last (parser.timestamp <$> rest))
                      - parser.timestamp a)%Z
            / Qnat (length rest) / 3600)%Q.
Proof.
  intros Hne. unfold response_agg. rewrite fmap_cons, dropna_diff.
  set (gaps := zip_with _ _ _).
  assert (Hlen : length (inject_Z <$> gaps) = length rest).
  { unfold gaps. by rewrite length_fmap, gaps_length, length_fmap. }
  assert (Hmean : mean (inject_Z <$> gaps)
                  = Num (fsum (inject_Z <$> gaps) / Qnat (length rest))).
  { rewrite <- Hlen. destruct (inject_Z <$> gaps) eqn:E; [|done].
    destruct rest; [done|]. simpl in Hlen. lia. }
  rewrite Hmean. eexists. split; [reflexivity|].
  unfold gaps. by rewrite gaps_telescope.
Qed.

Lemma group_sorted df u : StronglySorted ts_le (group (sort_values df) u).
Proof.
  apply StronglySorted_filter, Sorted_StronglySorted; [apply _|].
  apply sort_values_Sorted.
Qed.

Lemma group_sort_values_Permutation df u :
  group (sort_values df) u ≡ₚ group df u.
Proof. unfold group. by rewrite sort_values_Permutation. Qed.

End response_facts.

(** X6. In every row of the feature table, avg_response_time_hours is not
    negative; it is 0 for an author with one message, and for an author with
    n >= 2 messages it is the time from the author's earliest to the author's
    latest message divided by n - 1, in hours. *)
Theorem avg_response_time_value `{Unicode} (df : features.DataFrame)
    (row : pd.Row) :
  row ∈ pd.rows (features.extract_all_features df) →
  let g := features.group df (pd.r_user row) in
  ∃ q,
    pd.r_num row !! "avg_response_time_hours" = Some (Num q)
    ∧ (0 <= q)%Q
    ∧ (length g = 1%nat → q = 0%Q)
    ∧ ((2 ≤ length g)%nat →
       ∃ first last,
         first ∈ g ∧ last ∈ g
         ∧ (∀ m, m ∈ g →
              parser.timestamp first ≤ parser.timestamp m
              ≤ parser.timestamp last)
         ∧ (q == inject_Z (parser.timestamp last - parser.timestamp first)%Z
                 / features.Qnat (length g - 1)%nat / 3600)%Q).
Proof.
  intros (u & Hu & ->)%feature_row_inv. cbn [pd.r_num pd.r_user pd.plain].
  set (g := features.group df u).
  pose proof (group_size_pos df u Hu) as Hpos. fold g in Hpos.
  pose proof (group_sorted df u) as Hsorted.
  pose proof (group_sort_values_Permutation df u) as Hperm. fold g in Hperm.
  assert (Hv : ∀ v, features.response_agg
                      (features.group (features.sort_values df) u) = [v] →
               features.author_cells df u !! "avg_response_time_hours"
               = Some (pd.fill 0%Q (pd.fill 0%Q v))).
  { intros v Hv.
    apply (author_cells_lookup df u 4 "avg_response_time_hours"); [done|].
    change ((pd.fill 0%Q <$> features.response_agg
               (features.group (features.sort_values df) u)) !! 0%nat
            = Some (pd.fill 0%Q v)). by rewrite Hv. }
  destruct (features.group (features.sort_values df) u) as [|a [|b rest]] eqn:E.
  - apply Permutation_nil_l in Hperm. rewrite <- Hperm in Hpos.
    simpl in Hpos. lia.
  - rewrite (Hv NaN) by reflexivity. exists 0%Q.
    split; [done|]. split; [done|]. split; [done|].
    intros Hlen. rewrite <- Hperm in Hlen. simpl in Hlen. lia.
  - destruct (response_agg_value a (b :: rest)) as (q & Hq & Hval); [done|].
    rewrite (Hv (Num q) Hq). cbn [pd.fill]. exists q. split; [done|].
    destruct (last_is_Some (b :: rest)) as [_ [z Hz]]; [done|].
    assert (Hlast : last (parser.timestamp <$> b :: rest)
                    = Some (parser.timestamp z)).
    { by rewrite fmap_last, Hz. }
    rewrite Hlast in Hval. cbn [default from_option id] in Hval.
    apply last_Some in Hz as [front Hfront].
    assert (Hza : parser.timestamp a ≤ parser.timestamp z).
    { apply StronglySorted_inv in Hsorted as [_ Hall].
      rewrite Forall_forall in Hall. apply Hall.
      rewrite Hfront. apply elem_of_app. right. left. }
    assert (Hlen : length g = S (length (b :: rest))).
    { by rewrite <- Hperm. }
    assert (HposQ : (0 < features.Qnat (length (b :: rest)))%Q).
    { apply Qnat_pos. simpl. lia. }
    assert (Hspan : (0 <= inject_Z (parser.timestamp z - parser.timestamp a)%Z)%Q).
    { change 0%Q with (inject_Z 0). rewrite <- Zle_Qle. lia. }
    split; [|split].
    + rewrite Hval. apply Qle_shift_div_l; [lra|].
      assert ((0 <= inject_Z (parser.timestamp z - parser.timestamp a)%Z
                    / features.Qnat (length (b :: rest)))%Q); [|lra].
      apply Qle_shift_div_l; [done|]. lra.
    + intros Hone. rewrite Hlen in Hone. simpl in Hone. lia.
    + intros _. exists a, z.
      assert (Hin : ∀ m, m ∈ g ↔ m ∈ a :: b :: rest).
      { intros m. by rewrite Hperm. }
      split; [apply Hin; left|]. split.
      { apply Hin. right. rewrite Hfront. apply elem_of_app. right. left. }
      split.
      * intros m Hm%Hin. split.
        -- apply elem_of_cons in Hm as [->|Hm]; [lia|].
           apply StronglySorted_inv in Hsorted as [_ Hall].
           rewrite Forall_forall in Hall. by apply Hall.
        -- rewrite Hfront in Hsorted, Hm.
           rewrite app_comm_cons in Hsorted, Hm.
           apply elem_of_app in Hm as [Hm|Hm].
           ++ apply (StronglySorted_app_1_elem_of _ _ _ m z) in Hsorted;
                [done|done|left].
           ++ apply list_elem_of_singleton in Hm as ->. lia.
      * rewrite Hlen. replace (S (length (b :: rest)) - 1)%nat
          with (length (b :: rest)) by lia. exact Hval.
Qed.

Lemma avg_response_time_value_witness :
  ∃ q, pd.r_num sample_row_B !! "avg_response_time_hours" = Some (Num q)
       ∧ (0 <= q)%Q.
Proof.
  destruct (avg_response_time_value sample.two_authors sample_row_B
              sample_row_B_in_table) as (q & Hq & Hnn & _).
  by exists q.
Defined.

Lemma filter_sublist {A} (P : A → Prop) `{∀ x, Decision (P x)}
    (l k : list A) :
  l `sublist_of` k → filter P l `sublist_of` filter P k.
Proof.
  induction 1 as [|x l k _ IH|x l k _ IH]; [done| |]; rewrite ?filter_cons.
  - destruct (decide (P x)); [by apply sublist_skip|done].
  - destruct (decide (P x)); [by apply sublist_cons|done].
Qed.

Section initiation_facts.
Import features.
Implicit Types (df : DataFrame) (u : pystr).

(** The conversation starts are picked from the chronological table, in
    order. *)
Lemma conversation_starts_sublist df :
  conversation_starts df `sublist_of` sort_values df.
Proof.
  unfold conversation_starts. cbv zeta.
  set (flags := is_conversation_start (sort_values df)).
  assert (E : (zip (sort_values df) flags).*1 = sort_values df).
  { apply fst_zip. unfold flags. by rewrite is_conversation_start_length. }
  rewrite <- E at 2. apply fmap_sublist, sublist_filter.
Qed.

Lemma conversation_starts_group df u :
  group (conversation_starts df) u `sublist_of` group (sort_values df) u.
Proof. apply filter_sublist, conversation_starts_sublist. Qed.

Lemma conversation_starts_elem_of df (m : parser.Message) :
  m ∈ conversation_starts df → m ∈ df.
Proof.
  intros Hm. rewrite <- (sort_values_Permutation df).
  eapply elem_of_sublist; [exact Hm|apply conversation_starts_sublist].
Qed.

(** The chronologically first message starts a conversation. *)
Lemma conversation_starts_head df (m : parser.Message) (rest : DataFrame) :
  sort_values df = m :: rest → m ∈ conversation_starts df.
Proof.
  intros E. unfold conversation_starts. cbv zeta. rewrite E.
  pose proof (is_conversation_start_lookup (m :: rest) 0) as H0.
  pose proof (is_conversation_start_length (m :: rest)) as Hlen.
  destruct (is_conversation_start (m :: rest)) as [|b flags];
    [simpl in Hlen; lia|].
  specialize (H0 ltac:(simpl; lia)). injection H0 as ->.
  cbn [zip zip_with]. rewrite filter_cons, decide_True by done.
  rewrite fmap_cons. left.
Qed.

End initiation_facts.

(** X7. In every row of the feature table, total_messages is the number of
    the author's messages (at least 1), initiations is the number of the
    author's messages among the conversation starts, which are all messages
    of that author, so initiations never exceeds total_messages and
    initiation_ratio lies between 0 and 1. *)
Theorem initiation_counts_bounds `{Unicode} (df : features.DataFrame)
    (row : pd.Row) :
  row ∈ pd.rows (features.extract_all_features df) →
  let g := features.group df (pd.r_user row) in
  let starts :=
    features.group (features.conversation_starts df) (pd.r_user row) in
  ∃ ratio,
    pd.r_num row !! "total_messages" = Some (Num (features.Qnat (length g)))
    ∧ pd.r_num row !! "initiations"
      = Some (Num (features.Qnat (length starts)))
    ∧ pd.r_num row !! "initiation_ratio" = Some (Num ratio)
    ∧ (1 ≤ length g)%nat
    ∧ (length starts ≤ length g)%nat
    ∧ (∀ m, m ∈ starts → m ∈ g)
    ∧ (0 <= ratio <= 1)%Q.
Proof.
  intros (u & Hu & ->)%feature_row_inv. cbn [pd.r_num pd.r_user pd.plain].
  set (g := features.group df u).
  set (starts := features.group (features.conversation_starts df) u).
  pose proof (group_size_pos df u Hu) as Hpos. fold g in Hpos.
  pose proof (conversation_starts_group df u) as Hsub. fold starts in Hsub.
  assert (Hle : (length starts ≤ length g)%nat).
  { unfold g. rewrite <- group_sort_values_length. by apply sublist_length. }
  rewrite (author_cells_lookup df u 12 "total_messages"
             (Num (features.Qnat (length g)))) by reflexivity.
  rewrite (author_cells_lookup df u 13 "initiations"
             (Num (features.Qnat (length starts)))) by reflexivity.
  rewrite (author_cells_lookup df u 14 "initiation_ratio"
             (Num (features.Qnat (length starts))
              / Num (features.Qnat (length g)))%F) by reflexivity.
  cbn [fdiv pd.fill]. rewrite (Qnat_nonzero _ Hpos). cbn [pd.fill].
  eexists. split; [reflexivity|]. split; [reflexivity|].
  split; [reflexivity|]. split; [lia|]. split; [done|]. split.
  - intros m Hm. unfold g. rewrite <- group_sort_values_Permutation.
    by eapply elem_of_sublist.
  - pose proof (Qnat_pos _ Hpos) as HposQ.
    pose proof (Qnat_nonneg (length starts)) as Hnn.
    pose proof (Qnat_le _ _ Hle) as HleQ. split.
    + apply Qle_shift_div_l; [done|]. lra.
    + apply Qle_shift_div_r; [done|]. lra.
Qed.

Lemma initiation_counts_bounds_witness :
  ∃ ratio, pd.r_num sample_row_B !! "initiation_ratio" = Some (Num ratio)
           ∧ (0 <= ratio <= 1)%Q.
Proof.
  destruct (initiation_counts_bounds sample.two_authors sample_row_B
              sample_row_B_in_table) as (ratio & _ & _ & Hr & _ & _ & _ & Hb).
  by exists ratio.
Defined.

(** X8. For a chat with at least one message, some message that no other
    message precedes in time has an author whose row counts at least one
    initiation: the first message of the chronological order always starts a
    conversation. *)
Theorem earliest_author_initiates `{Unicode} (df : features.DataFrame) :
  df ≠ [] →
  ∃ m row q,
    m ∈ df
    ∧ (∀ m', m' ∈ df → parser.timestamp m ≤ parser.timestamp m')
    ∧ row ∈ pd.rows (features.extract_all_features df)
    ∧ pd.r_user row = parser.user m
    ∧ pd.r_num row !! "initiations" = Some (Num q)
    ∧ (1 <= q)%Q.
Proof.
  intros Hne.
  pose proof (sort_values_Permutation df) as Hperm.
  pose proof (sort_values_Sorted df) as Hsorted.
  destruct (features.sort_values df) as [|m rest] eqn:E.
  { apply Permutation_nil_l in Hperm. by subst. }
  assert (Hm : m ∈ df). { rewrite <- Hperm. left. }
  assert (Hu : parser.user m ∈ features.group_keys df).
  { apply elem_of_group_keys. by apply list_elem_of_fmap_2. }
  set (starts :=
    features.group (features.conversation_starts df) (parser.user m)).
  assert (Hstart : m ∈ starts).
  { apply list_elem_of_filter. split; [done|].
    by apply (conversation_starts_head df m rest). }
  exists m, (pd.plain (parser.user m)
               (features.author_cells df (parser.user m))),
    (features.Qnat (length starts)).
  split; [done|]. split.
  - intros m' Hm'. rewrite <- Hperm in Hm'.
    apply Sorted_StronglySorted in Hsorted; [|apply _].
    apply StronglySorted_inv in Hsorted as [_ Hall].
    apply elem_of_cons in Hm' as [->|Hm']; [lia|].
    rewrite Forall_forall in Hall. by apply Hall.
  - split; [by apply (represents_row _ _ _ _ (represents_features df))|].
    split; [done|]. cbn [pd.r_num pd.plain]. split.
    + by apply (author_cells_lookup df (parser.user m) 13 "initiations"
                  (Num (features.Qnat (length starts)))).
    + change 1%Q with (features.Qnat 1). apply Qnat_le.
      destruct starts; [by apply elem_of_nil in Hstart|simpl; lia].
Qed.

Lemma earliest_author_initiates_witness :
  ∃ row q,
    row ∈ pd.rows (features.extract_all_features sample.two_authors)
    ∧ pd.r_num row !! "initiations" = Some (Num q)
    ∧ (1 <= q)%Q.
Proof.
  destruct (earliest_author_initiates sample.two_authors ltac:(done))
    as (m & row & q & _ & _ & Hrow & _ & Hq & Hone).
  by exists row, q.
Defined.

(** X9. The feature table has rows for the authors of the chat and for no
    one else, each author once; its total_messages cells add up to the
    number of messages of the chat, and its initiations cells add up to the
    number of conversation starts. *)
Theorem feature_table_partitions_messages `{Unicode}
    (df : features.DataFrame) :
  let t := features.extract_all_features df in
  pd.users t ≡ₚ remove_dups (parser.user <$> df)
  ∧ NoDup (pd.users t)
  ∧ ∃ totals starts : list nat,
      Forall2 (λ row n, pd.r_num row !! "total_messages"
                        = Some (Num (features.Qnat n))) (pd.rows t) totals
      ∧ Forall2 (λ row n, pd.r_num row !! "initiations"
                          = Some (Num (features.Qnat n))) (pd.rows t) starts
      ∧ sum_list totals = length df
      ∧ sum_list starts = length (features.conversation_starts df).
Proof.
  intros t.
  pose proof (represents_features df) as Hrep. fold t in Hrep.
  pose proof (represents_users _ _ _ Hrep) as Husers.
  assert (Hkeys : features.group_keys df ≡ₚ remove_dups (parser.user <$> df)).
  { unfold features.group_keys. by rewrite merge_sort_Permutation. }
  split; [by rewrite Husers|]. split.
  { rewrite Husers. apply NoDup_group_keys. }
  set (total := λ row : pd.Row, length (features.group df (pd.r_user row))).
  set (start := λ row : pd.Row,
         length (features.group (features.conversation_starts df)
                   (pd.r_user row))).
  exists (total <$> pd.rows t), (start <$> pd.rows t).
  split; [|split; [|split]].
  - apply Forall2_fmap_r, Forall_Forall2_diag, Forall_forall.
    intros row (u & Hu & ->)%feature_row_inv. cbn [pd.r_num pd.plain].
    by apply (author_cells_lookup df u 12 "total_messages"
                (Num (features.Qnat (length (features.group df u))))).
  - apply Forall2_fmap_r, Forall_Forall2_diag, Forall_forall.
    intros row (u & Hu & ->)%feature_row_inv. cbn [pd.r_num pd.plain].
    by apply (author_cells_lookup df u 13 "initiations"
                (Num (features.Qnat
                   (length (features.group
                              (features.conversation_starts df) u))))).
  - change (sum_list_with id (total <$> pd.rows t) = length df).
    rewrite Hrep. rewrite <- !list_fmap_compose.
    transitivity (sum_list_with
      (λ u, length (features.group df u)) (features.group_keys df)).
    { generalize (features.group_keys df). intros keys.
      induction keys as [|k keys IH]; [done|].
      rewrite fmap_cons. cbn [sum_list_with]. by rewrite IH. }
    apply (count_partition parser.user); [apply NoDup_group_keys|].
    intros m Hm. apply elem_of_group_keys. by apply list_elem_of_fmap_2.
  - change (sum_list_with id (start <$> pd.rows t)
            = length (features.conversation_starts df)).
    rewrite Hrep. rewrite <- !list_fmap_compose.
    transitivity (sum_list_with
      (λ u, length (features.group (features.conversation_starts df) u))
      (features.group_keys df)).
    { generalize (features.group_keys df). intros keys.
      induction keys as [|k keys IH]; [done|].
      rewrite fmap_cons. cbn [sum_list_with]. by rewrite IH. }
    apply (count_partition parser.user); [apply NoDup_group_keys|].
    intros m Hm%conversation_starts_elem_of.
    apply elem_of_group_keys. by apply list_elem_of_fmap_2.
Qed.

(** ** The matcher: patterns that cannot start *)

Section matcher_facts.
Import Re.

Lemma stuck_cls (f : N → bool) (p : pos) :
  match rest p with [] => True | c :: _ => f c = false end →
  stuck_at (Cls f) p.
Proof.
  intros Hp caps k. cbn [run]. destruct (rest p) as [|c s]; [done|].
  by rewrite Hp.
Qed.

Lemma stuck_seq (r1 r2 : regex) (p : pos) :
  stuck_at r1 p → stuck_at (Seq r1 r2) p.
Proof. intros H1 caps k. apply H1. Qed.

Lemma stuck_alt (r1 r2 : regex) (p : pos) :
  stuck_at r1 p → stuck_at r2 p → stuck_at (Alt r1 r2) p.
Proof. intros H1 H2 caps k. cbn [run]. by rewrite H1, H2. Qed.

Lemma stuck_grp (i : nat) (r : regex) (p : pos) :
  stuck_at r p → stuck_at (Grp i r) p.
Proof. intros H1 caps k. apply H1. Qed.

Lemma stuck_after_bol (r : regex) (p : pos) :
  stuck_at r p → stuck_at (Seq Bol r) p.
Proof. intros H1 caps k. cbn [run]. destruct (at_bol p); [apply H1|done]. Qed.

(** A repetition that needs at least one round is stuck where its body
    is. *)
Lemma stuck_rep (greedy : bool) (lo : nat) (hi : option nat) (r : regex)
    (p : pos) :
  (0 < lo)%nat → stuck_at r p → stuck_at (Rep greedy lo hi r) p.
Proof.
  intros Hlo Hr caps k. cbn [run].
  replace (length (rest p) + lo + 1)%nat
    with (S (length (rest p) + lo)) by lia.
  rewrite Hr. destruct lo as [|lo]; [lia|]. cbn [Nat.leb].
  by destruct greedy, (allows hi 0).
Qed.

Lemma finditer_from_stuck (r : regex) (fuel : nat) (p : pos) :
  (∀ prev s, s `suffix_of` rest p → stuck_at r (Pos prev s)) →
  finditer_from fuel r p = [].
Proof.
  revert p. induction fuel as [|fuel IH]; intros [prev s] Hstuck; [done|].
  cbn [finditer_from]. unfold match_at. rewrite (Hstuck prev s) by done.
  unfold advance. cbn [rest] in *. destruct s as [|c s]; [done|].
  apply IH. intros prev' s' Hs'. apply Hstuck. cbn [rest].
  by apply suffix_cons_r.
Qed.

End matcher_facts.

Section parser_edge.
Context `{Unicode} `{Pandas}.

(** The record pattern cannot start at a character that is not a decimal
    digit, nor at the end of the text. *)
Lemma pattern_stuck (p : Re.pos) :
  match Re.rest p with [] => True | c :: _ => isdecimal c = false end →
  stuck_at parser.pattern p.
Proof.
  intros Hp. unfold parser.pattern. cbn [Re.seq].
  apply stuck_after_bol, stuck_seq, stuck_grp, stuck_alt.
  - apply stuck_seq, stuck_rep; [lia|]. by apply stuck_cls.
  - apply stuck_seq, stuck_rep; [lia|]. by apply stuck_cls.
Qed.

Lemma findall_without_digits (content : pystr) :
  Forall (λ c, isdecimal c = false) content → parser.findall content = [].
Proof.
  intros Hall. unfold parser.findall, Re.finditer.
  rewrite finditer_from_stuck; [done|].
  intros prev s [front E]. cbn [Re.rest Re.start] in E. subst content.
  apply pattern_stuck. cbn [Re.rest].
  apply Forall_app in Hall as [_ Hs]. destruct s as [|c s]; [done|].
  by apply Forall_cons in Hs as [Hc _].
Qed.

End parser_edge.

(** X10. A text without any decimal digit - the empty text included - holds
    no record: the pattern finds nothing in it, the parser raises its
    empty-result error and so does the analysis. *)
Theorem text_without_digits_rejected `{Unicode} `{Pandas} `{Sklearn}
    (content : pystr) (n_clusters random_state : Z)
    (cluster_names : option (gmap Z pystr)) :
  Forall (λ c, isdecimal c = false) content →
  parser.findall content = []
  ∧ parser.parse_whatsapp_chat content = Raise parser.no_messages_found
  ∧ main.analyze_chat_streamlit content n_clusters random_state cluster_names
    = Raise parser.no_messages_found.
Proof.
  intros Hall.
  pose proof (findall_without_digits content Hall) as Hnone.
  assert (Hparse : parser.parse_whatsapp_chat content
                   = Raise parser.no_messages_found).
  { unfold parser.parse_whatsapp_chat, parser.parse_matches.
    by rewrite Hnone. }
  split; [done|]. split; [done|].
  unfold main.analyze_chat_streamlit. by rewrite Hparse.
Qed.

Lemma text_without_digits_rejected_witness :
  Forall (λ c, isdecimal c = false) (lit "Messages are end-to-end encrypted.")
  ∧ parser.parse_whatsapp_chat (lit "Messages are end-to-end encrypted.")
    = Raise parser.no_messages_found.
Proof.
  assert (Hall : Forall (λ c, isdecimal c = false)
                   (lit "Messages are end-to-end encrypted.")).
  { apply (bool_decide_unpack _). vm_compute. reflexivity. }
  split; [exact Hall|].
  apply (text_without_digits_rejected
           (lit "Messages are end-to-end encrypted.") 5 42 None Hall).
Defined.

(** ** profiling.py: further properties of the influence score *)

Lemma Qmin_mono_l (x y c : Q) : (x <= y)%Q → (Qmin x c <= Qmin y c)%Q.
Proof. intros Hxy. by apply Q.min_le_compat_r. Qed.

Lemma Qdiv_mono (x y c : Q) : (0 < c)%Q → (x <= y)%Q → (x / c <= y / c)%Q.
Proof.
  intros Hc Hxy. apply Qle_shift_div_l; [done|].
  assert (E : (x / c * c == x)%Q) by (field; lra). by rewrite E.
Qed.

(** X11. The influence score never falls when an author writes more messages
    per day, answers faster or starts a larger share of the conversations:
    for two rows with numeric inputs, the row that is at least as good in all
    three inputs has at least the score of the other. *)
Theorem influence_score_monotone (features features' : Series)
    (m r i m' r' i' : Q) :
  features !! "messages_per_day" = Some (Num m) →
  features !! "avg_response_time_hours" = Some (Num r) →
  features !! "initiation_ratio" = Some (Num i) →
  features' !! "messages_per_day" = Some (Num m') →
  features' !! "avg_response_time_hours" = Some (Num r') →
  features' !! "initiation_ratio" = Some (Num i') →
  (m <= m')%Q → (r' <= r)%Q → (i <= i')%Q →
  ∃ s s' : Q,
    profiling.calculate_influence_score features = Num s
    ∧ profiling.calculate_influence_score features' = Num s'
    ∧ (s <= s')%Q.
Proof.
  intros Hm Hr Hi Hm' Hr' Hi' Hmm Hrr Hii.
  unfold profiling.calculate_influence_score.
  rewrite (get_Some _ _ _ _ Hm), (get_Some _ _ _ _ Hr), (get_Some _ _ _ _ Hi).
  rewrite (get_Some _ _ _ _ Hm'), (get_Some _ _ _ _ Hr'),
    (get_Some _ _ _ _ Hi').
  destruct (weighted_sum_Num m r i) as (w & -> & Hw).
  destruct (weighted_sum_Num m' r' i') as (w' & -> & Hw').
  destruct (clamp_Num w) as (s & -> & Hs & _).
  destruct (clamp_Num w') as (s' & -> & Hs' & _).
  exists s, s'. split; [done|]. split; [done|].
  rewrite Hs, Hs'. apply Qmin_mono_l, Q.max_le_compat_r.
  rewrite Hw, Hw'.
  pose proof (Qmin_mono_l (m / 5) (m' / 5) 1
                (Qdiv_mono m m' 5 ltac:(lra) Hmm)) as H1.
  pose proof (Qmin_mono_l (r' / 24) (r / 24) 1
                (Qdiv_mono r' r 24 ltac:(lra) Hrr)) as H2.
  assert (H3 : (Qmin (i * 10) 1 <= Qmin (i' * 10) 1)%Q).
  { apply Qmin_mono_l. lra. }
  revert H1 H2 H3.
  generalize (Qmin (m / 5) 1), (Qmin (m' / 5) 1), (Qmin (r / 24) 1),
    (Qmin (r' / 24) 1), (Qmin (i * 10) 1), (Qmin (i' * 10) 1).
  intros a a' b b' c c' H1 H2 H3. lra.
Qed.

Lemma influence_score_monotone_witness :
  ∃ s s' : Q,
    profiling.calculate_influence_score
      (list_to_map [("messages_per_day", Num 1);
                    ("avg_response_time_hours", Num 12);
                    ("initiation_ratio", Num 0.02)]) = Num s
    ∧ profiling.calculate_influence_score
        (list_to_map [("messages_per_day", Num 3);
                      ("avg_response_time_hours", Num 6);
                      ("initiation_ratio", Num 0.05)]) = Num s'
    ∧ (s <= s')%Q.
Proof.
  apply (influence_score_monotone
           (list_to_map [("messages_per_day", Num 1);
                         ("avg_response_time_hours", Num 12);
                         ("initiation_ratio", Num 0.02)])
           (list_to_map [("messages_per_day", Num 3);
                         ("avg_response_time_hours", Num 6);
                         ("initiation_ratio", Num 0.05)])
           1 12 0.02 3 6 0.05);
    try reflexivity; lra.
Defined.

(** X12. The clamp does not repair a missing number: when one of the three
    inputs of the influence score is NaN, the score is NaN, whatever the other
    two inputs are. *)
Theorem influence_score_nan (features : Series) (key : string) :
  key ∈ ["messages_per_day"; "avg_response_time_hours"; "initiation_ratio"] →
  features !! key = Some NaN →
  profiling.calculate_influence_score features = NaN.
Proof.
  intros Hkey Hnan. unfold profiling.calculate_influence_score.
  repeat apply elem_of_cons in Hkey as [->|Hkey];
    [| | |by apply elem_of_nil in Hkey];
    rewrite (get_Some _ _ _ _ Hnan).
  - generalize (get features "avg_response_time_hours" 24%Q),
      (get features "initiation_ratio" 0%Q). intros b c.
    change (py_min (NaN / 5%Q) 1%Q)%F with NaN.
    by destruct (1%Q - py_min (b / 24%Q) 1%Q)%F, (py_min (c * 10%Q) 1%Q)%F.
  - generalize (get features "messages_per_day" 0%Q),
      (get features "initiation_ratio" 0%Q). intros a c.
    change (1%Q - py_min (NaN / 24%Q) 1%Q)%F with NaN.
    by destruct (py_min (a / 5%Q) 1%Q)%F, (py_min (c * 10%Q) 1%Q)%F.
  - generalize (get features "messages_per_day" 0%Q),
      (get features "avg_response_time_hours" 24%Q). intros a b.
    change (py_min (NaN * 10%Q) 1%Q)%F with NaN.
    by destruct (py_min (a / 5%Q) 1%Q)%F, (1%Q - py_min (b / 24%Q) 1%Q)%F.
Qed.

Lemma influence_score_nan_witness :
  profiling.calculate_influence_score
    (list_to_map [("messages_per_day", Num 40);
                  ("avg_response_time_hours", NaN);
                  ("initiation_ratio", Num 1)]) = NaN.
Proof.
  apply (influence_score_nan _ "avg_response_time_hours").
  - apply list_elem_of_In. simpl. tauto.
  - reflexivity.
Defined.

(** ** profiling.py: cluster names and the profile table *)

Lemma lit_inj (s s' : string) : lit s = lit s' → s = s'.
Proof.
  unfold lit. intros E.
  assert (Hinj : Inj (=) (=) N_of_ascii).
  { intros a b Hab.
    rewrite <- (ascii_N_embedding a), <- (ascii_N_embedding b).
    by rewrite Hab. }
  apply (inj (fmap N_of_ascii)) in E.
  rewrite <- (string_of_list_ascii_of_string s),
    <- (string_of_list_ascii_of_string s'). by rewrite E.
Qed.

Lemma default_name_in_range (cluster_id : Z) :
  0 ≤ cluster_id ≤ 4 →
  ∃ c s, profiling.get_cluster_name cluster_id None = c :: s ∧ c ≠ 67%N.
Proof.
  intros Hin.
  assert (Hcases : cluster_id = 0 ∨ cluster_id = 1 ∨ cluster_id = 2
                   ∨ cluster_id = 3 ∨ cluster_id = 4) by lia.
  destruct Hcases as [-> | [-> | [-> | [-> | ->]]]]; do 2 eexists;
    (split; [vm_compute; reflexivity|done]).
Qed.

(** X13. Without a custom mapping, different cluster labels never get the
    same name: the five canonical names differ from one another and from
    every generated name "Cluster {id}", and the generated names differ for
    different labels. *)
Theorem default_cluster_names_distinct (a b : Z) :
  a ≠ b →
  profiling.get_cluster_name a None ≠ profiling.get_cluster_name b None.
Proof.
  intros Hab Heq.
  destruct (decide (0 ≤ a ≤ 4)) as [Ha|Ha], (decide (0 ≤ b ≤ 4)) as [Hb|Hb].
  - assert (Hca : a = 0 ∨ a = 1 ∨ a = 2 ∨ a = 3 ∨ a = 4) by lia.
    assert (Hcb : b = 0 ∨ b = 1 ∨ b = 2 ∨ b = 3 ∨ b = 4) by lia.
    destruct Hca as [-> | [-> | [-> | [-> | ->]]]],
      Hcb as [-> | [-> | [-> | [-> | ->]]]]; try done; vm_compute in Heq; done.
  - destruct (default_name_in_range a Ha) as (c & s & Hname & Hc).
    rewrite Hname in Heq. unfold profiling.get_cluster_name in Heq.
    rewrite (default_names_lookup b Hb) in Heq.
    cbn in Heq. by injection Heq as -> _.
  - destruct (default_name_in_range b Hb) as (c & s & Hname & Hc).
    rewrite Hname in Heq. unfold profiling.get_cluster_name in Heq.
    rewrite (default_names_lookup a Ha) in Heq.
    cbn in Heq. by injection Heq as <- _.
  - unfold profiling.get_cluster_name in Heq.
    rewrite (default_names_lookup a Ha), (default_names_lookup b Hb) in Heq.
    cbn [default from_option id] in Heq.
    apply app_inv_head, lit_inj, (inj pretty) in Heq. done.
Qed.

Lemma default_cluster_names_distinct_witness :
  profiling.get_cluster_name 4 None ≠ profiling.get_cluster_name 5 None.
Proof. apply (default_cluster_names_distinct 4 5). lia. Defined.

Section profile_table.
Implicit Types (t : pd.Frame) (r : pd.Row).

Lemma mapM_Raise_inv {A B} (f : A → result B) (l : list A) (e : exn) :
  mapM f l = Raise e → Exists (λ x, f x = Raise e) l.
Proof.
  induction l as [|x l IH]; [done|]. cbn [mapM].
  destruct (f x) as [y|e'] eqn:Ex; cbn.
  - destruct (mapM f l) as [k|e'']; cbn; [done|].
    intros [= ->]. right. by apply IH.
  - intros [= ->]. by left.
Qed.

(** The profile text does not depend on the stored influence score: the
    generator recomputes the score from its three inputs. *)
Lemma profile_ignores_score (features : Series) (s : pyfloat)
    (cluster_id : Z) :
  profiling.generate_behavior_profile
    (<["influence_score" := s]> features) cluster_id
  = profiling.generate_behavior_profile features cluster_id.
Proof.
  unfold profiling.generate_behavior_profile, profiling.profile_parts,
    profiling.calculate_influence_score, get.
  by rewrite !lookup_insert_ne by done.
Qed.

End profile_table.

(** X14. The profile stage keeps the rows, their order and their cluster
    labels; it stores in each row the influence score of the row's numbers
    and the profile text of those numbers and the row's cluster label (the
    text is the same as before the score was stored). It fails only when a
    row has no cluster label, with KeyError 'cluster'. *)
Theorem generate_profiles_rows (t : pd.Frame) :
  match profiling.generate_profiles t with
  | Return t' =>
      pd.columns t'
      = pd.with_column "behavior_profile"
          (pd.with_column "influence_score" (pd.columns t))
      ∧ Forall2 (λ r r',
          pd.r_user r' = pd.r_user r
          ∧ pd.r_int r' = pd.r_int r
          ∧ pd.r_num r'
            = <["influence_score" :=
                  profiling.calculate_influence_score (pd.r_num r)]>
                (pd.r_num r)
          ∧ ∃ c, pd.r_int r !! "cluster" = Some c
              ∧ pd.r_str r'
                = <["behavior_profile" :=
                      profiling.generate_behavior_profile (pd.r_num r) c]>
                    (pd.r_str r))
          (pd.rows t) (pd.rows t')
  | Raise e =>
      e = KeyError (lit "cluster")
      ∧ Exists (λ r, pd.r_int r !! "cluster" = None) (pd.rows t)
  end.
Proof.
  unfold profiling.generate_profiles, pd.apply_str_column.
  match goal with
  | |- context [mapM ?f ?l] => destruct (mapM f l) as [rows'|e] eqn:E
  end; cbn.
  - split; [done|]. apply mapM_Return in E. cbn [pd.rows pd.add_column] in E.
    apply Forall2_fmap_l in E. eapply Forall2_impl; [exact E|].
    intros r r' Hr. cbn in Hr. unfold pd.int_item in Hr. cbn in Hr.
    destruct (pd.r_int r !! "cluster") as [c|] eqn:Ec; cbn in Hr; [|done].
    injection Hr as <-. cbn. do 3 (split; [done|]). exists c.
    split; [done|]. by rewrite profile_ignores_score.
  - apply mapM_Raise_inv in E. cbn [pd.rows pd.add_column] in E.
    apply Exists_fmap in E. apply Exists_exists in E as (r & Hr & He).
    cbn in He. unfold pd.int_item in He. cbn in He.
    destruct (pd.r_int r !! "cluster") as [c|] eqn:Ec; cbn in He; [done|].
    injection He as <-. split; [done|].
    apply Exists_exists. by exists r.
Qed.

(** ** clustering.py *)

Section clustering_facts.
Context `{Unicode} `{Sklearn}.

Lemma feature_columns_named :
  Forall (λ c, c ∈ features.feature_names) clustering.feature_columns.
Proof. apply (bool_decide_unpack _). by vm_compute. Qed.

Lemma prepare_features_Raise (t : pd.Frame) (e : exn) :
  clustering.prepare_features_for_clustering t = Raise e →
  e = clustering.no_feature_columns
  ∧ ∀ c, c ∈ clustering.feature_columns → c ∉ pd.columns t.
Proof.
  unfold clustering.prepare_features_for_clustering.
  destruct (filter _ clustering.feature_columns) as [|c cs] eqn:E; [|done].
  intros [= <-]. split; [done|]. intros c Hc Hin.
  assert (Hmem : c ∈ filter (λ col, col ∈ pd.columns t)
                       clustering.feature_columns).
  { by apply list_elem_of_filter. }
  rewrite E in Hmem. by apply elem_of_nil in Hmem.
Qed.

Lemma prepare_features_no_columns (t : pd.Frame) :
  (∀ c, c ∈ clustering.feature_columns → c ∉ pd.columns t) →
  clustering.prepare_features_for_clustering t
  = Raise clustering.no_feature_columns.
Proof.
  intros Hnone. unfold clustering.prepare_features_for_clustering.
  destruct (filter _ clustering.feature_columns) as [|c cs] eqn:E; [done|].
  assert (Hmem : c ∈ filter (λ col, col ∈ pd.columns t)
                       clustering.feature_columns).
  { rewrite E. left. }
  apply list_elem_of_filter in Hmem as [Hin Hc]. by destruct (Hnone c Hc).
Qed.

End clustering_facts.

(** X15. The matrix handed to the scaler for the feature table has one line
    per row of the table, in the order of the rows; a line holds the eleven
    clustering columns of the row in their fixed order, each one a number.
    The counts total_chars, total_links, total_messages and initiations are
    not part of it. *)
Theorem clustering_matrix_of_feature_table `{Unicode} `{Sklearn}
    (df : features.DataFrame) :
  ∃ X,
    clustering.prepare_features_for_clustering
      (features.extract_all_features df)
    = Return (StandardScaler_fit_transform X)
    ∧ Forall2 (λ row line,
        Forall2 (λ c v, ∃ q, v = Num q ∧ pd.r_num row !! c = Some (Num q))
          clustering.feature_columns line)
        (pd.rows (features.extract_all_features df)) X
    ∧ Forall (λ c, c ∉ clustering.feature_columns)
        ["total_chars"; "total_links"; "total_messages"; "initiations"].
Proof.
  unfold clustering.prepare_features_for_clustering.
  rewrite feature_columns_eq.
  assert (Hall : filter (λ col, col ∈ "user" :: features.feature_names)
                   clustering.feature_columns = clustering.feature_columns)
    by reflexivity.
  rewrite Hall. eexists. split; [reflexivity|]. split.
  - apply Forall2_fmap_r, Forall_Forall2_diag, Forall_forall.
    intros row (u & Hu & ->)%feature_row_inv.
    apply Forall2_fmap_r, Forall_Forall2_diag.
    eapply Forall_impl; [apply feature_columns_named|].
    intros c Hc. destruct (author_cells_numeric df u c Hc) as [q Hq].
    exists q. unfold pd.cell. cbn [pd.r_num pd.plain]. by rewrite Hq.
  - apply (bool_decide_unpack _). by vm_compute.
Qed.

(** X16. The clustering stage raises "No valid feature columns found for
    clustering" exactly when the table has none of the eleven clustering
    columns; the preparation raises nothing else, and in that case the
    stage stops before KMeans is run, whatever the number of clusters. *)
Theorem clustering_needs_a_feature_column `{Sklearn} (t : pd.Frame)
    (n_clusters random_state : Z) :
  (clustering.prepare_features_for_clustering t
   = Raise clustering.no_feature_columns
   ↔ ∀ c, c ∈ clustering.feature_columns → c ∉ pd.columns t)
  ∧ (∀ e, clustering.prepare_features_for_clustering t = Raise e →
       e = clustering.no_feature_columns)
  ∧ ((∀ c, c ∈ clustering.feature_columns → c ∉ pd.columns t) →
     clustering.assign_clusters t n_clusters random_state
     = Raise clustering.no_feature_columns).
Proof.
  split; [split|split].
  - by intros [_ Hnone]%prepare_features_Raise.
  - apply prepare_features_no_columns.
  - by intros e [-> _]%prepare_features_Raise.
  - intros Hnone. unfold clustering.assign_clusters.
    by rewrite (prepare_features_no_columns t Hnone).
Qed.

Lemma clustering_needs_a_feature_column_witness :
  clustering.assign_clusters {| pd.columns := ["user"]; pd.rows := [] |} 3 42
  = Raise clustering.no_feature_columns.
Proof.
  apply (clustering_needs_a_feature_column
           {| pd.columns := ["user"]; pd.rows := [] |} 3 42).
  intros c Hc Hin. apply list_elem_of_singleton in Hin as ->.
  revert Hc. apply (bool_decide_unpack _). by vm_compute.
Defined.

(** X17. When the clustering stage returns, KMeans has returned one label per
    row of the table; the result has the same rows in the same order with
    their numbers and texts unchanged, the label of line i stored in the
    cluster cell of row i, and "cluster" as a column (the last one when it is
    new). *)
Theorem assign_clusters_labels `{Sklearn} (t t' : pd.Frame)
    (n_clusters random_state : Z) :
  clustering.assign_clusters t n_clusters random_state = Return t' →
  ∃ X labels,
    clustering.prepare_features_for_clustering t = Return X
    ∧ KMeans_fit_predict n_clusters random_state X = Return labels
    ∧ length labels = length (pd.rows t)
    ∧ pd.columns t' = pd.with_column "cluster" (pd.columns t)
    ∧ Forall2 (λ r r', pd.r_user r' = pd.r_user r
                       ∧ pd.r_num r' = pd.r_num r
                       ∧ pd.r_str r' = pd.r_str r)
        (pd.rows t) (pd.rows t')
    ∧ (λ r', pd.r_int r' !! "cluster") <$> pd.rows t' = Some <$> labels.
Proof.
  unfold clustering.assign_clusters, clustering.perform_clustering.
  destruct (clustering.prepare_features_for_clustering t) as [X|e]; [|done].
  cbn. destruct (KMeans_fit_predict n_clusters random_state X)
    as [labels|e] eqn:Ek; [|done].
  cbn. unfold pd.set_int_column. case_decide as Hlen; [|done].
  intros [= <-]. exists X, labels. do 4 (split; [done|]). cbn [pd.rows].
  clear Ek. revert labels Hlen. induction (pd.rows t) as [|r rs IH];
    intros [|v labels] Hlen; simplify_eq/=; [done|].
  destruct (IH labels Hlen) as [IH1 IH2]. split.
  - by constructor.
  - rewrite lookup_insert_eq. by f_equal.
Qed.

Lemma assign_clusters_labels_witness :
  ∃ X labels,
    KMeans_fit_predict 2 42 X = Return labels
    ∧ length labels
      = length (pd.rows (features.extract_all_features sample.two_authors)).
Proof.
  destruct (clustering.assign_clusters
              (features.extract_all_features sample.two_authors) 2 42)
    as [t'|e] eqn:E; [|by vm_compute in E].
  destruct (assign_clusters_labels _ t' 2 42 E)
    as (X & labels & _ & Hk & Hlen & _).
  exists X, labels. split; [exact Hk|exact Hlen].
Defined.

(** ** main.py: the stages of the analysis *)

Lemma select_lookup {A} (cols : list string) (m : gmap string A)
    (k : string) :
  k ∈ cols → filter (λ kv : string * A, kv.1 ∈ cols) m !! k = m !! k.
Proof.
  intros Hk. destruct (m !! k) as [v|] eqn:E.
  - by apply map_lookup_filter_Some.
  - apply map_lookup_filter_None. by left.
Qed.

Section stages.
Context `{Unicode} `{Pandas} `{Sklearn}.
Implicit Types (t : pd.Frame) (r : pd.Row).

(** The rows after the profile stage, when it returns. *)
Lemma generate_profiles_stage t t' :
  profiling.generate_profiles t = Return t' →
  Forall2 (λ r r',
      pd.r_user r' = pd.r_user r
      ∧ pd.r_int r' = pd.r_int r
      ∧ pd.r_num r'
        = <["influence_score" :=
              profiling.calculate_influence_score (pd.r_num r)]> (pd.r_num r)
      ∧ is_Some (pd.r_str r' !! "behavior_profile"))
    (pd.rows t) (pd.rows t').
Proof.
  unfold profiling.generate_profiles, pd.apply_str_column.
  match goal with
  | |- context [mapM ?f ?l] => destruct (mapM f l) as [rows'|e] eqn:E
  end; cbn; [|done].
  intros [= <-]. cbn [pd.rows]. apply mapM_Return in E.
  cbn [pd.rows pd.add_column] in E. apply Forall2_fmap_l in E.
  eapply Forall2_impl; [exact E|]. intros r r' Hr. cbn in Hr.
  destruct (pd.int_item _ _) as [c|e]; cbn in Hr; [|done].
  injection Hr as <-. cbn. do 3 (split; [done|]).
  rewrite lookup_insert_eq. by eexists.
Qed.

(** The profile stage returns on a table in which every row has a cluster
    label. *)
Lemma generate_profiles_total t :
  Forall (λ r, is_Some (pd.r_int r !! "cluster")) (pd.rows t) →
  ∃ t', profiling.generate_profiles t = Return t'.
Proof.
  intros Hall. unfold profiling.generate_profiles.
  apply apply_str_column_total. cbn [pd.rows pd.add_column].
  apply Forall_fmap. eapply Forall_impl; [exact Hall|].
  intros r [c Hc]. cbn. unfold pd.int_item. cbn. rewrite Hc. cbn.
  by eexists.
Qed.

(** The rows after the clustering stage carry the rows of the feature table
    and a label each. *)
Lemma clustered_rows (df : features.DataFrame) (n_clusters random_state : Z)
    t1 :
  clustering.assign_clusters (features.extract_all_features df)
    n_clusters random_state = Return t1 →
  pd.users t1 ≡ₚ features.group_keys df
  ∧ Forall (λ r, is_Some (pd.r_int r !! "cluster")
                 ∧ pd.r_num r = features.author_cells df (pd.r_user r)
                 ∧ pd.r_user r ∈ features.group_keys df) (pd.rows t1).
Proof.
  intros [_ Hrows]%assign_clusters_Return. split.
  - assert (E : pd.users t1 = pd.users (features.extract_all_features df)).
    { unfold pd.users.
      induction Hrows as [|r r' rs rs' [[Hu _] _] _ IH]; [done|].
      rewrite !fmap_cons. by f_equal. }
    rewrite E. apply (represents_users _ _ _ (represents_features df)).
  - eapply Forall2_Forall_r; [exact Hrows|]. apply Forall_forall.
    intros r (u & Hu & ->)%feature_row_inv r' [[Hu' Hn'] Hc].
    split; [done|]. rewrite Hu', Hn'. by cbn.
Qed.

End stages.

Section report_stage.
Context `{Unicode} `{Pandas} `{Sklearn}.
Implicit Types (t : pd.Frame) (r : pd.Row).

(** What the entry point returns, stage by stage. *)
Lemma analyze_stages (file_input : pystr) (n_clusters random_state : Z)
    (cluster_names : option (gmap Z pystr)) (final_report : pd.Frame)
    (cluster_summary : list main.SummaryRow) :
  main.analyze_chat_streamlit file_input n_clusters random_state
    cluster_names = Return (final_report, cluster_summary) →
  ∃ df t1 t3 unsorted,
    parser.parse_whatsapp_chat file_input = Return df
    ∧ clustering.assign_clusters (features.extract_all_features df)
        n_clusters random_state = Return t1
    ∧ profiling.generate_profiles t1 = Return t3
    ∧ cluster_summary = main.cluster_summary_of t3 cluster_names
    ∧ pd.columns final_report
      = [ "user"; "cluster"; "total_messages"; "messages_per_day";
          "influence_score"; "behavior_profile";
          "avg_length"; "median_length"; "total_chars";
          "avg_response_time_hours"; "night_activity_ratio";
          "avg_exclamations"; "avg_questions"; "avg_emojis";
          "uppercase_ratio"; "total_links"; "link_sharing_ratio";
          "initiations"; "initiation_ratio"; "cluster_name" ]
    ∧ pd.rows final_report
      = merge_sort (pd.desc_by "influence_score") unsorted
    ∧ Forall2 (λ r3 r5,
        pd.r_user r5 = pd.r_user r3
        ∧ (∀ c, c ∈ "influence_score" :: features.feature_names →
             pd.r_num r5 !! c = pd.r_num r3 !! c)
        ∧ pd.r_str r5 !! "behavior_profile"
          = pd.r_str r3 !! "behavior_profile"
        ∧ ∃ c, pd.r_int r3 !! "cluster" = Some c
            ∧ pd.r_int r5 !! "cluster" = Some c
            ∧ pd.r_str r5 !! "cluster_name"
              = Some (profiling.get_cluster_name c cluster_names))
        (pd.rows t3) unsorted.
Proof.
  unfold main.analyze_chat_streamlit.
  destruct (parser.parse_whatsapp_chat file_input) as [df|e]; [|done].
  simpl.
  destruct (clustering.assign_clusters _ _ _) as [t1|e] eqn:E1; [|done].
  simpl.
  destruct (profiling.generate_profiles t1) as [t3|e] eqn:E3; [|done].
  simpl.
  pose proof E1 as [Hc1 _]%assign_clusters_Return.
  pose proof E3 as [Hc3 _]%generate_profiles_Return.
  rewrite Hc1 in Hc3. rewrite Hc3.
  match goal with
  | |- context [pd.select ?cols t3] => set (sel := cols)
  end.
  assert (Hsel : pd.with_column "cluster_name" sel
                 = [ "user"; "cluster"; "total_messages"; "messages_per_day";
                     "influence_score"; "behavior_profile";
                     "avg_length"; "median_length"; "total_chars";
                     "avg_response_time_hours"; "night_activity_ratio";
                     "avg_exclamations"; "avg_questions"; "avg_emojis";
                     "uppercase_ratio"; "total_links"; "link_sharing_ratio";
                     "initiations"; "initiation_ratio"; "cluster_name" ])
    by (vm_compute; reflexivity).
  assert (Hkept : Forall (λ c, c ∈ sel)
                    ("cluster" :: "behavior_profile" :: "influence_score"
                     :: features.feature_names)).
  { apply (bool_decide_unpack _). by vm_compute. }
  clearbody sel.
  apply Forall_cons in Hkept as [Hcluster Hkept].
  apply Forall_cons in Hkept as [Hprofile Hkept].
  rewrite Forall_forall in Hkept.
  destruct (pd.apply_str_column _ _ (pd.select sel t3)) as [t5|e] eqn:E5;
    [|done].
  simpl. pose proof E5 as [Hc5 _]%apply_str_column_Return.
  cbn [pd.columns pd.select] in Hc5. rewrite Hsel in Hc5.
  rewrite Hc5. rewrite decide_True by (apply list_elem_of_In; simpl; tauto).
  intros [= <- <-]. exists df, t1, t3, (pd.rows t5).
  do 4 (split; [done|]). split; [exact Hc5|]. split; [done|].
  unfold pd.apply_str_column in E5.
  match type of E5 with
  | context [mapM ?f ?l] => destruct (mapM f l) as [rows5|e] eqn:E
  end; [|done].
  injection E5 as <-. cbn [pd.rows]. apply mapM_Return in E.
  cbn [pd.rows pd.select] in E. apply Forall2_fmap_l in E.
  eapply Forall2_impl; [exact E|]. intros r3 r5 Hr.
  unfold pd.int_item in Hr. cbn in Hr.
  rewrite (select_lookup sel (pd.r_int r3) "cluster" Hcluster) in Hr.
  destruct (pd.r_int r3 !! "cluster") as [c|] eqn:Ec; cbn in Hr; [|done].
  injection Hr as <-. cbn [pd.r_user pd.r_num pd.r_int pd.r_str].
  split; [done|]. split; [|split].
  - intros col Hcol. by apply select_lookup, Hkept.
  - rewrite lookup_insert_ne by done. by apply select_lookup.
  - exists c. split; [done|]. split; [|apply lookup_insert_eq].
    rewrite <- Ec. by apply select_lookup.
Qed.

End report_stage.

Section outcomes.
Context `{Unicode} `{Pandas} `{Sklearn}.
Implicit Types (t : pd.Frame) (r : pd.Row).

(** Once the clustering stage has returned, the rest of the analysis
    returns. *)
Lemma analyze_returns_after_clustering (file_input : pystr)
    (df : features.DataFrame) (n_clusters random_state : Z)
    (cluster_names : option (gmap Z pystr)) t1 :
  parser.parse_whatsapp_chat file_input = Return df →
  clustering.assign_clusters (features.extract_all_features df)
    n_clusters random_state = Return t1 →
  ∃ out, main.analyze_chat_streamlit file_input n_clusters random_state
           cluster_names = Return out.
Proof.
  intros Hparse E1. unfold main.analyze_chat_streamlit.
  rewrite Hparse. simpl. rewrite E1. simpl.
  pose proof (clustered_rows df n_clusters random_state t1 E1) as [_ Hlab].
  destruct (generate_profiles_total t1) as [t3 E3].
  { eapply Forall_impl; [exact Hlab|]. by intros r [Hc _]. }
  rewrite E3. simpl.
  pose proof E1 as [Hc1 _]%assign_clusters_Return.
  pose proof E3 as [Hc3 _]%generate_profiles_Return.
  pose proof (generate_profiles_stage t1 t3 E3) as Hrows3.
  rewrite Hc1 in Hc3. rewrite Hc3.
  match goal with
  | |- context [pd.apply_str_column ?n ?f ?t] =>
      destruct (apply_str_column_total n f t) as [t5 E5]; [|rewrite E5]
  end.
  - cbn [pd.rows pd.select]. apply Forall_fmap.
    eapply Forall2_Forall_r; [exact Hrows3|].
    eapply Forall_impl; [exact Hlab|].
    intros r [[c Hc] _] r3 (_ & Hint & _). cbn.
    unfold pd.int_item. cbn [pd.r_int].
    rewrite select_lookup by (apply list_elem_of_In; vm_compute; tauto).
    rewrite Hint, Hc. cbn. by eexists.
  - simpl. by eexists.
Qed.

End outcomes.

(** X18. The analysis fails in three ways only: with the parser's
    empty-result error, with whatever error KMeans raises on the scaled
    feature matrix, or with the length error of the column assignment when
    KMeans returns a number of labels other than the number of authors. In
    particular the profile stage and the report stage never fail. Conversely
    it returns whenever the parser returns and KMeans returns one label per
    author. *)
Theorem analysis_outcomes `{Unicode} `{Pandas} `{Sklearn}
    (file_input : pystr) (n_clusters random_state : Z)
    (cluster_names : option (gmap Z pystr)) :
  (∀ e, main.analyze_chat_streamlit file_input n_clusters random_state
          cluster_names = Raise e →
        e = parser.no_messages_found
        ∨ e = pd.length_mismatch
        ∨ ∃ X, KMeans_fit_predict n_clusters random_state X = Raise e)
  ∧ (∀ df X labels,
       parser.parse_whatsapp_chat file_input = Return df →
       clustering.prepare_features_for_clustering
         (features.extract_all_features df) = Return X →
       KMeans_fit_predict n_clusters random_state X = Return labels →
       length labels = length (remove_dups (parser.user <$> df)) →
       ∃ final_report cluster_summary,
         main.analyze_chat_streamlit file_input n_clusters random_state
           cluster_names = Return (final_report, cluster_summary)).
Proof.
  split.
  - intros e He.
    destruct (parser.parse_whatsapp_chat file_input) as [df|e0] eqn:Hparse.
    + destruct (clustering.assign_clusters
                  (features.extract_all_features df) n_clusters random_state)
        as [t1|e1] eqn:E1.
      * destruct (analyze_returns_after_clustering file_input df n_clusters
                    random_state cluster_names t1 Hparse E1) as [out Hout].
        congruence.
      * assert (e = e1) as ->.
        { unfold main.analyze_chat_streamlit in He. rewrite Hparse in He.
          simpl in He. rewrite E1 in He. simpl in He. congruence. }
        right. unfold clustering.assign_clusters in E1.
        destruct (prepare_features df) as (X & HX & _).
        rewrite HX in E1. simpl in E1.
        unfold clustering.perform_clustering in E1.
        destruct (KMeans_fit_predict n_clusters random_state
                    (StandardScaler_fit_transform X))
          as [labels|e2] eqn:Ek; simpl in E1.
        -- left. unfold pd.set_int_column in E1.
           case_decide; [done|]. congruence.
        -- right. exists (StandardScaler_fit_transform X). congruence.
    + left. unfold main.analyze_chat_streamlit in He. rewrite Hparse in He.
      simpl in He. injection He as <-.
      by apply parse_raises_iff in Hparse as [_ ->].
  - intros df X labels Hparse Hprep Hk Hlen.
    assert (E1 : ∃ t1, clustering.assign_clusters
                         (features.extract_all_features df)
                         n_clusters random_state = Return t1).
    { unfold clustering.assign_clusters, clustering.perform_clustering.
      rewrite Hprep. simpl. rewrite Hk. simpl. unfold pd.set_int_column.
      rewrite decide_True by (by rewrite feature_rows_length).
      by eexists. }
    destruct E1 as [t1 E1].
    destruct (analyze_returns_after_clustering file_input df n_clusters
                random_state cluster_names t1 Hparse E1) as [[rep sum] Hout].
    by exists rep, sum.
Qed.

Lemma analysis_outcomes_witness :
  ∃ final_report cluster_summary,
    main.analyze_chat_streamlit sample.one_author 1 42 None
    = Return (final_report, cluster_summary).
Proof.
  eapply (proj2 (analysis_outcomes sample.one_author 1 42 None)).
  - vm_compute. reflexivity.
  - vm_compute. reflexivity.
  - vm_compute. reflexivity.
  - vm_compute. reflexivity.
Defined.

Lemma Forall2_fmap_eq {A B} (f : A → B) (l k : list A) :
  Forall2 (λ x y, f y = f x) l k → f <$> k = f <$> l.
Proof.
  induction 1 as [|x y l k Hxy _ IH]; [done|].
  rewrite !fmap_cons. by f_equal.
Qed.

Lemma Forall2_compose {A B C} (R : A → B → Prop) (S : B → C → Prop)
    (l : list A) (k : list B) (m : list C) :
  Forall2 R l k → Forall2 S k m →
  Forall2 (λ x z, ∃ y, R x y ∧ S y z) l m.
Proof.
  intros Hlk. revert m. induction Hlk as [|x y l k Hxy _ IH]; intros m Hkm.
  - apply Forall2_nil_inv_l in Hkm as ->. constructor.
  - apply Forall2_cons_inv_l in Hkm as (z & m' & Hyz & Hkm & ->).
    constructor; [by exists y|]. by apply IH.
Qed.

Lemma Forall2_filter_length {A B} (P : A → Prop) (Q : B → Prop)
    `{∀ x, Decision (P x)} `{∀ y, Decision (Q y)}
    (l : list A) (k : list B) :
  Forall2 (λ x y, P x ↔ Q y) l k →
  length (filter P l) = length (filter Q k).
Proof.
  induction 1 as [|x y l k Hxy _ IH]; [done|]. rewrite !filter_cons.
  destruct (decide (P x)) as [HP|HP].
  - rewrite decide_True by (by apply Hxy). simpl. by rewrite IH.
  - rewrite decide_False by (by rewrite <- Hxy). done.
Qed.

(** X19. When the analysis returns, the per-author table has the twenty
    columns user, cluster, total_messages, messages_per_day, influence_score,
    behavior_profile, the remaining thirteen features and cluster_name, in
    this order; it has one row for each author of the transcript and no other
    row; and every row holds the author's fifteen feature values as the
    extractor computed them, a cluster label, the name of that label under
    the caller's mapping, and a profile text. *)
Theorem final_report_shape `{Unicode} `{Pandas} `{Sklearn}
    (file_input : pystr) (n_clusters random_state : Z)
    (cluster_names : option (gmap Z pystr)) (final_report : pd.Frame)
    (cluster_summary : list main.SummaryRow) :
  main.analyze_chat_streamlit file_input n_clusters random_state
    cluster_names = Return (final_report, cluster_summary) →
  ∃ df,
    parser.parse_whatsapp_chat file_input = Return df
    ∧ pd.columns final_report
      = [ "user"; "cluster"; "total_messages"; "messages_per_day";
          "influence_score"; "behavior_profile";
          "avg_length"; "median_length"; "total_chars";
          "avg_response_time_hours"; "night_activity_ratio";
          "avg_exclamations"; "avg_questions"; "avg_emojis";
          "uppercase_ratio"; "total_links"; "link_sharing_ratio";
          "initiations"; "initiation_ratio"; "cluster_name" ]
    ∧ pd.users final_report ≡ₚ remove_dups (parser.user <$> df)
    ∧ Forall (λ r,
        (∀ c, c ∈ features.feature_names →
           pd.r_num r !! c = features.author_cells df (pd.r_user r) !! c)
        ∧ ∃ label text,
            pd.r_int r !! "cluster" = Some label
            ∧ pd.r_str r !! "cluster_name"
              = Some (profiling.get_cluster_name label cluster_names)
            ∧ pd.r_str r !! "behavior_profile" = Some text)
        (pd.rows final_report).
Proof.
  intros (df & t1 & t3 & unsorted & Hparse & E1 & E3 & _ & Hcols & Hrows
          & Hrel)%analyze_stages.
  exists df. split; [done|]. split; [done|].
  pose proof (clustered_rows df n_clusters random_state t1 E1)
    as [Husers Hlab].
  pose proof (generate_profiles_stage t1 t3 E3) as Hstage.
  pose proof (Forall2_compose _ _ _ _ _ Hstage Hrel) as Hall.
  split.
  - unfold pd.users in *. rewrite Hrows, merge_sort_Permutation.
    assert (E : pd.r_user <$> unsorted = pd.r_user <$> pd.rows t1).
    { apply Forall2_fmap_eq. eapply Forall2_impl; [exact Hall|].
      intros r1 r5 (r3 & (Hu3 & _) & (Hu5 & _)). congruence. }
    rewrite E, Husers. unfold features.group_keys.
    by rewrite merge_sort_Permutation.
  - rewrite Hrows, merge_sort_Permutation.
    eapply Forall2_Forall_r; [exact Hall|].
    eapply Forall_impl; [exact Hlab|].
    intros r1 (_ & Hnum & _) r5
      (r3 & (Hu3 & Hint3 & Hnum3 & [text Htext])
          & (Hu5 & Hnum5 & Hprof & c & Hc3 & Hc5 & Hname)).
    split.
    + intros col Hcol. rewrite Hnum5 by (by right).
      rewrite Hnum3, Hu5, Hu3, <- Hnum.
      apply lookup_insert_ne. intros <-. revert Hcol.
      apply (bool_decide_unpack _). by vm_compute.
    + exists c, text. split; [done|]. split; [done|]. by rewrite Hprof.
Qed.

Lemma final_report_shape_witness :
  ∃ df,
    parser.parse_whatsapp_chat sample.one_author = Return df
    ∧ pd.users (sample.analysis_of sample.one_author 1 42 None).1
      ≡ₚ remove_dups (parser.user <$> df).
Proof.
  destruct (final_report_shape sample.one_author 1 42 None
              (sample.analysis_of sample.one_author 1 42 None).1
              (sample.analysis_of sample.one_author 1 42 None).2)
    as (df & Hparse & _ & Husers & _).
  - vm_compute. reflexivity.
  - by exists df.
Defined.

(** ** main.py: the cluster summary *)

Section summary_facts.
Implicit Types (rs : list pd.Row) (t : pd.Frame).

Lemma elem_of_cluster_keys rs (c : Z) :
  c ∈ main.cluster_keys rs
  ↔ ∃ r, r ∈ rs ∧ pd.r_int r !! "cluster" = Some c.
Proof.
  unfold main.cluster_keys.
  rewrite merge_sort_Permutation, elem_of_remove_dups, list_elem_of_bind.
  split; intros (r & H1 & H2); exists r.
  - split; [done|]. destruct (pd.r_int r !! "cluster"); [|by apply elem_of_nil in H1].
    by apply list_elem_of_singleton in H1 as ->.
  - split; [|done]. rewrite H2. by apply list_elem_of_singleton.
Qed.

Lemma StronglySorted_strict (l : list Z) :
  StronglySorted Z.le l → NoDup l → StronglySorted Z.lt l.
Proof.
  induction 1 as [|x l Hl IH Hx]; [constructor|].
  intros [Hout Hnd]%NoDup_cons. constructor; [by apply IH|].
  apply Forall_forall. intros y Hy.
  rewrite Forall_forall in Hx. specialize (Hx y Hy).
  assert (x ≠ y) by (by intros ->). lia.
Qed.

Lemma cluster_keys_increasing rs : StronglySorted Z.lt (main.cluster_keys rs).
Proof.
  apply StronglySorted_strict.
  - apply Sorted_StronglySorted; [apply _|]. apply (Sorted_merge_sort Z.le).
  - unfold main.cluster_keys. rewrite merge_sort_Permutation.
    apply NoDup_remove_dups.
Qed.

Lemma sum_list_with_fmap {A B} (f : B → nat) (g : A → B) (l : list A) :
  sum_list_with f (g <$> l) = sum_list_with (f ∘ g) l.
Proof.
  induction l as [|x l IH]; [done|].
  rewrite fmap_cons. cbn [sum_list_with]. by rewrite IH.
Qed.

(** The member counts of the clusters add up to the number of labelled
    rows. *)
Lemma cluster_sizes_sum rs :
  Forall (λ r, is_Some (pd.r_int r !! "cluster")) rs →
  sum_list_with
    (λ c, length (filter (λ r, pd.r_int r !! "cluster" = Some c) rs))
    (main.cluster_keys rs)
  = length rs.
Proof.
  intros Hall.
  rewrite <- (count_partition (λ r, pd.r_int r !! "cluster")
                (Some <$> main.cluster_keys rs) rs).
  - by rewrite sum_list_with_fmap.
  - apply (NoDup_fmap_2 Some).
    pose proof (cluster_keys_increasing rs) as Hinc.
    unfold main.cluster_keys. rewrite merge_sort_Permutation.
    apply NoDup_remove_dups.
  - intros r Hr. rewrite Forall_forall in Hall.
    destruct (Hall r Hr) as [c Hc]. rewrite Hc.
    apply list_elem_of_fmap_2, elem_of_cluster_keys. by exists r.
Qed.

End summary_facts.

(** X20. When the analysis returns, the cluster summary lists the labels that
    occur in the per-author table, each once and in increasing order; the
    user_count of a label is the number of rows of the per-author table with
    that label, so it is at least 1 and the counts add up to the number of
    authors; and the name of a label is its name under the caller's
    mapping. *)
Theorem cluster_summary_counts `{Unicode} `{Pandas} `{Sklearn}
    (file_input : pystr) (n_clusters random_state : Z)
    (cluster_names : option (gmap Z pystr)) (final_report : pd.Frame)
    (cluster_summary : list main.SummaryRow) :
  main.analyze_chat_streamlit file_input n_clusters random_state
    cluster_names = Return (final_report, cluster_summary) →
  StronglySorted Z.lt (main.cluster <$> cluster_summary)
  ∧ (∀ label, label ∈ main.cluster <$> cluster_summary
       ↔ ∃ r, r ∈ pd.rows final_report
              ∧ pd.r_int r !! "cluster" = Some label)
  ∧ Forall (λ s,
      main.user_count s
      = length (filter (λ r, pd.r_int r !! "cluster" = Some (main.cluster s))
                  (pd.rows final_report))
      ∧ (1 ≤ main.user_count s)%nat
      ∧ main.cluster_name s
        = profiling.get_cluster_name (main.cluster s) cluster_names)
      cluster_summary
  ∧ sum_list_with main.user_count cluster_summary
    = length (pd.rows final_report).
Proof.
  intros (df & t1 & t3 & unsorted & Hparse & E1 & E3 & -> & _ & Hrows
          & Hrel)%analyze_stages.
  pose proof (clustered_rows df n_clusters random_state t1 E1) as [_ Hlab1].
  pose proof (generate_profiles_stage t1 t3 E3) as Hstage.
  assert (Hlab3 : Forall (λ r, is_Some (pd.r_int r !! "cluster"))
                    (pd.rows t3)).
  { eapply Forall2_Forall_r; [exact Hstage|].
    eapply Forall_impl; [exact Hlab1|].
    intros r1 [Hc _] r3 (_ & -> & _). exact Hc. }
  assert (Hsame : Forall2 (λ r3 r5,
            pd.r_int r5 !! "cluster" = pd.r_int r3 !! "cluster")
            (pd.rows t3) unsorted).
  { eapply Forall2_impl; [exact Hrel|].
    intros r3 r5 (_ & _ & _ & c & -> & -> & _). done. }
  assert (Hkeys : main.cluster <$> main.cluster_summary_of t3 cluster_names
                  = main.cluster_keys (pd.rows t3)).
  { unfold main.cluster_summary_of. rewrite <- list_fmap_compose.
    apply list_fmap_id. }
  assert (Hcount : ∀ c,
            length (filter (λ r, pd.r_int r !! "cluster" = Some c)
                      (pd.rows t3))
            = length (filter (λ r, pd.r_int r !! "cluster" = Some c)
                        (pd.rows final_report))).
  { intros c. rewrite Hrows, merge_sort_Permutation.
    apply Forall2_filter_length. eapply Forall2_impl; [exact Hsame|].
    intros r3 r5 ->. done. }
  assert (Hmember : ∀ c, c ∈ main.cluster_keys (pd.rows t3)
            ↔ ∃ r, r ∈ pd.rows final_report
                   ∧ pd.r_int r !! "cluster" = Some c).
  { intros c. rewrite elem_of_cluster_keys. rewrite Hrows. split.
    - intros (r3 & Hr3 & Hc).
      apply list_elem_of_lookup in Hr3 as [i Hi].
      destruct (Forall2_lookup_l _ _ _ _ _ Hsame Hi) as (r5 & Hr5 & Heq).
      exists r5. split; [|congruence].
      rewrite merge_sort_Permutation. by eapply list_elem_of_lookup_2.
    - intros (r5 & Hr5 & Hc). rewrite merge_sort_Permutation in Hr5.
      apply list_elem_of_lookup in Hr5 as [i Hi].
      destruct (Forall2_lookup_r _ _ _ _ _ Hsame Hi) as (r3 & Hr3 & Heq).
      exists r3. split; [by eapply list_elem_of_lookup_2|congruence]. }
  split; [|split; [|split]].
  - rewrite Hkeys. apply cluster_keys_increasing.
  - intros label. by rewrite Hkeys.
  - unfold main.cluster_summary_of. apply Forall_fmap, Forall_forall.
    intros c Hc. cbn. split; [apply Hcount|]. split; [|done].
    rewrite Hcount. apply Hmember in Hc as (r & Hr & Hlabel).
    assert (Hin : r ∈ filter (λ r, pd.r_int r !! "cluster" = Some c)
                        (pd.rows final_report)).
    { by apply list_elem_of_filter. }
    destruct (filter _ (pd.rows final_report));
      [by apply elem_of_nil in Hin|simpl; lia].
  - unfold main.cluster_summary_of. rewrite sum_list_with_fmap.
    unfold compose. cbn [main.user_count].
    rewrite (cluster_sizes_sum (pd.rows t3) Hlab3).
    rewrite Hrows, merge_sort_Permutation.
    by apply Forall2_length in Hsame.
Qed.

Lemma cluster_summary_counts_witness :
  sum_list_with main.user_count
    (sample.analysis_of sample.one_author 1 42 None).2
  = length (pd.rows (sample.analysis_of sample.one_author 1 42 None).1).
Proof.
  destruct (cluster_summary_counts sample.one_author 1 42 None
              (sample.analysis_of sample.one_author 1 42 None).1
              (sample.analysis_of sample.one_author 1 42 None).2)
    as (_ & _ & _ & Hsum).
  - vm_compute. reflexivity.
  - exact Hsum.
Defined.

(** ** Rounding *)

Lemma rint_close (x : Q) :
  (x - (1 # 2) <= inject_Z (pd.rint x) <= x + (1 # 2))%Q.
Proof.
  unfold pd.rint. cbv zeta.
  pose proof (Qfloor_le x) as Hlo. pose proof (Qlt_floor x) as Hhi.
  rewrite inject_Z_plus in Hhi. change (inject_Z 1) with 1%Q in Hhi.
  destruct (x - inject_Z (Qfloor x) ?= 1 # 2)%Q eqn:E.
  - apply Qeq_alt in E.
    destruct (Z.even (Qfloor x)); rewrite ?inject_Z_plus;
      change (inject_Z 1) with 1%Q; lra.
  - apply Qlt_alt in E. lra.
  - apply Qgt_alt in E. rewrite inject_Z_plus.
    change (inject_Z 1) with 1%Q. lra.
Qed.

(** Rounding does not leave an interval with integer ends. *)
Lemma rint_between (x : Q) (lo hi : Z) :
  (inject_Z lo <= x <= inject_Z hi)%Q → lo ≤ pd.rint x ≤ hi.
Proof.
  intros [Hlo Hhi]. destruct (rint_close x) as [H1 H2]. split.
  - assert (Hlt : (inject_Z (lo - 1) < inject_Z (pd.rint x))%Q).
    { unfold Z.sub. rewrite inject_Z_plus, inject_Z_opp.
      change (inject_Z 1) with 1%Q. lra. }
    rewrite <- Zlt_Qlt in Hlt. lia.
  - assert (Hlt : (inject_Z (pd.rint x) < inject_Z (hi + 1))%Q).
    { rewrite inject_Z_plus. change (inject_Z 1) with 1%Q. lra. }
    rewrite <- Zlt_Qlt in Hlt. lia.
Qed.

(** [round(2)] keeps a value between two whole numbers between them, and
    moves it by at most half a hundredth. *)
Lemma round2_between (q : Q) (lo hi : Z) :
  (inject_Z lo <= q <= inject_Z hi)%Q →
  ∃ q', pd.round2 (Num q) = Num q'
    ∧ (inject_Z lo <= q' <= inject_Z hi)%Q
    ∧ (q - (1 # 200) <= q' <= q + (1 # 200))%Q
    ∧ ∃ n : Z, (q' == inject_Z n / 100)%Q.
Proof.
  intros [Hlo Hhi]. eexists. split; [reflexivity|].
  destruct (rint_between (q * 100) (lo * 100) (hi * 100)) as [H1 H2].
  { rewrite !inject_Z_mult. change (inject_Z 100) with 100%Q. lra. }
  destruct (rint_close (q * 100)) as [H3 H4].
  rewrite Zle_Qle in H1, H2. rewrite inject_Z_mult in H1, H2.
  change (inject_Z 100) with 100%Q in H1, H2.
  assert (Hbounds : ∀ n : Q,
            (inject_Z lo * 100 <= n)%Q → (n <= inject_Z hi * 100)%Q →
            (q * 100 - (1 # 2) <= n)%Q → (n <= q * 100 + (1 # 2))%Q →
            (inject_Z lo <= n / 100 <= inject_Z hi)%Q
            ∧ (q - (1 # 200) <= n / 100 <= q + (1 # 200))%Q).
  { intros n G1 G2 G3 G4. split; split.
    - apply Qle_shift_div_l; [lra|]. lra.
    - apply Qle_shift_div_r; [lra|]. lra.
    - apply Qle_shift_div_l; [lra|]. lra.
    - apply Qle_shift_div_r; [lra|]. lra. }
  destruct (Hbounds _ H1 H2 H3 H4) as [B1 B2].
  split; [exact B1|]. split; [exact B2|].
  by exists (pd.rint (q * 100)).
Qed.

Section summary_values.
Context `{Unicode}.
Implicit Types (rs : list pd.Row) (df : features.DataFrame).

(** The mean of the daily counts of an author is at least one message and
    at most all messages of the chat. *)
Lemma author_messages_per_day_bounds df (u : pystr) :
  u ∈ features.group_keys df →
  ∃ q, features.author_cells df u !! "messages_per_day" = Some (Num q)
       ∧ (1 <= q <= features.Qnat (length df))%Q.
Proof.
  intros Hu. set (g := features.group df u).
  pose proof (group_size_pos df u Hu) as Hpos. fold g in Hpos.
  assert (Hne : g ≠ []) by (destruct g; [simpl in Hpos; lia|done]).
  destruct (daily_agg_value g Hne) as (q & Hq & Hval & Hd1 & Hd2).
  assert (Hv : features.author_values df u !! 3%nat = Some (Num q)).
  { change (features.daily_agg g !! 0%nat = Some (Num q)). by rewrite Hq. }
  rewrite (author_cells_lookup df u 3 "messages_per_day" (Num q) eq_refl Hv).
  exists q. cbn [pd.fill]. split; [done|]. rewrite Hval.
  set (days := merge_sort _ _) in *.
  pose proof (Qnat_pos _ Hd1) as HposD.
  pose proof (Qnat_le _ _ Hd2) as HleD.
  assert (H1 : (1 <= features.Qnat (length days))%Q).
  { change 1%Q with (features.Qnat 1). apply Qnat_le. lia. }
  assert (Hall : (features.Qnat (length g)
                  <= features.Qnat (length df))%Q).
  { apply Qnat_le, length_filter. }
  pose proof (Qnat_nonneg (length g)) as Hnn.
  split.
  - apply Qle_shift_div_l; [done|]. lra.
  - apply Qle_shift_div_r; [done|]. nra.
Qed.

(** A column without NaN has as many values as rows, within the bounds of
    its cells. *)
Lemma values_bounds (name : string) (a b : Q) rs :
  Forall (λ r, ∃ q, pd.cell r name = Num q ∧ (a <= q <= b)%Q) rs →
  length (pd.values name rs) = length rs
  ∧ Forall (λ q, (a <= q <= b)%Q) (pd.values name rs).
Proof.
  unfold pd.values. induction 1 as [|r rs (q & Hq & Hb) _ [IH1 IH2]].
  - split; [done|constructor].
  - cbn [mbind list_bind]. rewrite Hq. cbn [app length].
    split; [by rewrite IH1|by constructor].
Qed.

(** Rows with the same label and the same cell give the same values of a
    cluster. *)
Lemma values_members_eq (name : string) (c : Z) rs rs' :
  Forall2 (λ r r', pd.r_int r' !! "cluster" = pd.r_int r !! "cluster"
                   ∧ pd.cell r' name = pd.cell r name) rs rs' →
  pd.values name (filter (λ r, pd.r_int r !! "cluster" = Some c) rs')
  = pd.values name (filter (λ r, pd.r_int r !! "cluster" = Some c) rs).
Proof.
  induction 1 as [|r r' rs rs' [Hc Hv] _ IH]; [done|].
  rewrite !filter_cons. rewrite Hc.
  destruct (decide (pd.r_int r !! "cluster" = Some c)); [|done].
  unfold pd.values in *. cbn [mbind list_bind]. by rewrite Hv, IH.
Qed.

Lemma values_Permutation (name : string) rs rs' :
  rs ≡ₚ rs' → pd.values name rs ≡ₚ pd.values name rs'.
Proof. unfold pd.values. by intros ->. Qed.

End summary_values.

(** X21. When the analysis returns, the two averages of a summary line are
    the means of the influence scores and of the messages_per_day values of
    the rows of the per-author table with that label (none is missing),
    rounded to two decimals; the average influence score lies between 0 and 1
    and the average messages per day is at least 1. *)
Theorem cluster_summary_averages `{Unicode} `{Pandas} `{Sklearn}
    (file_input : pystr) (n_clusters random_state : Z)
    (cluster_names : option (gmap Z pystr)) (final_report : pd.Frame)
    (cluster_summary : list main.SummaryRow) :
  main.analyze_chat_streamlit file_input n_clusters random_state
    cluster_names = Return (final_report, cluster_summary) →
  Forall (λ s, ∃ (scores rates : list Q) (a b : Q),
      scores ≡ₚ pd.values "influence_score"
                  (filter (λ r, pd.r_int r !! "cluster"
                                = Some (main.cluster s))
                     (pd.rows final_report))
      ∧ rates ≡ₚ pd.values "messages_per_day"
                   (filter (λ r, pd.r_int r !! "cluster"
                                 = Some (main.cluster s))
                      (pd.rows final_report))
      ∧ length scores = main.user_count s
      ∧ length rates = main.user_count s
      ∧ main.avg_influence_score s = pd.round2 (mean scores)
      ∧ main.avg_messages_per_day s = pd.round2 (mean rates)
      ∧ main.avg_influence_score s = Num a
      ∧ main.avg_messages_per_day s = Num b
      ∧ (0 <= a <= 1)%Q ∧ (1 <= b)%Q)
    cluster_summary.
Proof.
  intros (df & t1 & t3 & unsorted & Hparse & E1 & E3 & -> & _ & Hrows
          & Hrel)%analyze_stages.
  pose proof (clustered_rows df n_clusters random_state t1 E1) as [_ Hlab1].
  pose proof (generate_profiles_stage t1 t3 E3) as Hstage.
  assert (Hcells : Forall (λ r,
            (∃ q, pd.cell r "influence_score" = Num q ∧ (0 <= q <= 1)%Q)
            ∧ (∃ q, pd.cell r "messages_per_day" = Num q
                    ∧ (1 <= q <= features.Qnat (length df))%Q))
            (pd.rows t3)).
  { eapply Forall2_Forall_r; [exact Hstage|].
    eapply Forall_impl; [exact Hlab1|].
    intros r1 (_ & Hnum & Hu) r3 (_ & _ & Hnum3 & _).
    unfold pd.cell. rewrite Hnum3, Hnum. split.
    - rewrite lookup_insert_eq.
      destruct (author_score df (pd.r_user r1)) as (s & -> & Hs).
      by exists s.
    - rewrite lookup_insert_ne by done.
      destruct (author_messages_per_day_bounds df (pd.r_user r1) Hu)
        as (q & -> & Hq).
      by exists q. }
  assert (Hsame : ∀ name, name ∈ ["influence_score"; "messages_per_day"] →
            Forall2 (λ r3 r5,
              pd.r_int r5 !! "cluster" = pd.r_int r3 !! "cluster"
              ∧ pd.cell r5 name = pd.cell r3 name) (pd.rows t3) unsorted).
  { intros name Hname. eapply Forall2_impl; [exact Hrel|].
    intros r3 r5 (_ & Hnum & _ & c & -> & -> & _). split; [done|].
    unfold pd.cell. rewrite Hnum; [done|].
    revert name Hname. apply Forall_forall, (bool_decide_unpack _).
    by vm_compute. }
  unfold main.cluster_summary_of. apply Forall_fmap, Forall_forall.
  intros c Hc. cbn.
  set (members := filter (λ r, pd.r_int r !! "cluster" = Some c)
                    (pd.rows t3)).
  assert (Hmem : Forall (λ r,
            (∃ q, pd.cell r "influence_score" = Num q ∧ (0 <= q <= 1)%Q)
            ∧ (∃ q, pd.cell r "messages_per_day" = Num q
                    ∧ (1 <= q <= features.Qnat (length df))%Q)) members).
  { apply Forall_forall. intros r [_ Hr]%list_elem_of_filter.
    rewrite Forall_forall in Hcells. by apply Hcells. }
  assert (Hne : members ≠ []).
  { apply elem_of_cluster_keys in Hc as (r & Hr & Hlabel).
    assert (Hin : r ∈ members) by (by apply list_elem_of_filter).
    intros E. rewrite E in Hin. by apply elem_of_nil in Hin. }
  destruct (values_bounds "influence_score" 0 1 members) as [Hls Hbs].
  { eapply Forall_impl; [exact Hmem|]. by intros r [Hs _]. }
  destruct (values_bounds "messages_per_day" 1
              (features.Qnat (length df)) members) as [Hlr Hbr].
  { eapply Forall_impl; [exact Hmem|]. by intros r [_ Hr]. }
  destruct (mean_bounds 0 1 (pd.values "influence_score" members))
    as (ms & Hms & Hmsb); [|done|].
  { intros E. rewrite E in Hls. destruct members; [done|simpl in Hls; lia]. }
  destruct (mean_bounds 1 (features.Qnat (length df))
              (pd.values "messages_per_day" members))
    as (mr & Hmr & Hmrb); [|done|].
  { intros E. rewrite E in Hlr. destruct members; [done|simpl in Hlr; lia]. }
  destruct (round2_between ms 0 1 Hmsb) as (a & Ha & Hab & _).
  destruct (round2_between mr 1 (Z.of_nat (length df)) Hmrb)
    as (b & Hb & Hbb & _).
  exists (pd.values "influence_score" members),
    (pd.values "messages_per_day" members), a, b.
  split; [|split].
  - unfold members.
    rewrite <- (values_members_eq "influence_score" c (pd.rows t3) unsorted)
      by (apply Hsame, list_elem_of_In; simpl; tauto).
    apply values_Permutation. by rewrite Hrows, merge_sort_Permutation.
  - unfold members.
    rewrite <- (values_members_eq "messages_per_day" c (pd.rows t3) unsorted)
      by (apply Hsame, list_elem_of_In; simpl; tauto).
    apply values_Permutation. by rewrite Hrows, merge_sort_Permutation.
  - do 4 (split; [done|]). rewrite Hms, Hmr, Ha, Hb.
    do 2 (split; [done|]). split; [exact Hab|]. apply Hbb.
Qed.

Lemma cluster_summary_averages_witness :
  Forall (λ s, ∃ a b : Q,
      main.avg_influence_score s = Num a
      ∧ main.avg_messages_per_day s = Num b
      ∧ (0 <= a <= 1)%Q ∧ (1 <= b)%Q)
    (sample.analysis_of sample.one_author 1 42 None).2.
Proof.
  eapply Forall_impl.
  - apply (cluster_summary_averages sample.one_author 1 42 None
             (sample.analysis_of sample.one_author 1 42 None).1
             (sample.analysis_of sample.one_author 1 42 None).2).
    vm_compute. reflexivity.
  - intros s (_ & _ & a & b & _ & _ & _ & _ & _ & _ & Ha & Hb & Hab & Hbb).
    by exists a, b.
Defined.
